(** * Verification of the table normalizer of [central.py]

    The development embeds [process_dataframe] (central.py, lines 45-119):
    the function that takes the wide spreadsheet table read by
    [get_raw_df_from_excel], checks it, renames the year columns, melts it
    into long form, coerces the values to numbers, reports the cells it
    cannot coerce and drops them.

    The pandas calls are modelled on lists, column by column and mask by
    mask, in the order the source performs them.  Frames live in a heap of
    objects and are addressed by reference, so that [df_raw.copy()], the
    in-place [rename], the column assignments and the in-place [dropna]
    mutate the object they are called on.  The streamlit calls [st.error],
    [st.warning] and [st.stop] append to a screen and halt the script.
    The decorator [st.cache_data] stores what a run returned and is left
    out: it does not change what a run computes.

    Around it, the page script is embedded as far as it decides what the
    table is and which of its rows are used: the gate [check_password]
    (lines 127-154), the loader [get_raw_df_from_excel] (lines 31-42),
    the two calls of lines 157-160, the callback of the select box
    (lines 163-167) and the range of years (lines 225-237 and 302-309).
    The page script has its own state, [st.session_state] and the
    elements shown, and one more way to end, [st.rerun()].  The widgets
    themselves, the styling and the chart are not embedded. *)

From Stdlib Require Import ZArith QArith Qcanon String Ascii List Bool
  DecimalString DecimalPos DecimalN Lia Permutation Sorted.
From stdpp Require Import base list gmap strings.
Import ListNotations.

Local Open Scope string_scope.
Local Open Scope list_scope.

(* ===================================================================== *)
(** ** Cells and column labels *)
(* ===================================================================== *)

(** A number held by a cell.  A finite float is kept as the rational it
    denotes; pandas also carries the two infinities (the text cell
    ["inf"] is coerced to one).  NaN is not a number here: it is the
    blank cell [NaN] below. *)
Inductive number : Type :=
| Finite (q : Qc)
| Infinity (negative : bool).

(** The content of one spreadsheet cell as [pd.read_excel] delivers it:
    blank (NaN), a number, or a text. *)
Inductive cell : Type :=
| NaN
| Num (x : number)
| Str (s : string).

(** A column label: a text header, or an integer header (an Excel header
    cell holding a number, and every year column after [rename]). *)
Inductive label : Type :=
| LStr (s : string)
| LInt (z : Z).

Definition isna (c : cell) : bool :=
  match c with NaN => true | _ => false end.

Definition notna (c : cell) : bool := negb (isna c).

Definition number_eqb (x y : number) : bool :=
  match x, y with
  | Finite p, Finite q => Qeq_bool p q
  | Infinity a, Infinity b => Bool.eqb a b
  | _, _ => false
  end.

(** Equality of cells as pandas' hash tables see it ([duplicated],
    [unique]): Python's [==], with NaN equal to NaN. *)
Definition cell_eqb (a b : cell) : bool :=
  match a, b with
  | NaN, NaN => true
  | Num x, Num y => number_eqb x y
  | Str s, Str t => String.eqb s t
  | _, _ => false
  end.

(** Python's [==] on labels: an int never equals a str. *)
Definition label_eqb (a b : label) : bool :=
  match a, b with
  | LStr s, LStr t => String.eqb s t
  | LInt x, LInt y => Z.eqb x y
  | _, _ => false
  end.

(** [col in labels] *)
Definition label_in (col : label) (labels : list label) : bool :=
  existsb (label_eqb col) labels.

(* ===================================================================== *)
(** ** Year labels: [int(re.sub(r'\D', '', str(col)))] *)
(* ===================================================================== *)

(** [str(col)] *)
Definition str (col : label) : string :=
  match col with
  | LStr s => s
  | LInt z => NilZero.string_of_int (Z.to_int z)
  end.

(** [\d] on the bytes of a text: the ASCII digits.  Texts are byte
    strings here, so a multi-byte character such as 年 is a run of
    non-digit bytes; labels are taken to write their digits in ASCII
    (Python's [\d] also matches the decimal digits of other scripts). *)
Definition is_digit (c : ascii) : bool :=
  (48 <=? nat_of_ascii c)%nat && (nat_of_ascii c <=? 57)%nat.

(** [re.sub(r'\D', '', s)]: delete every non-digit. *)
Fixpoint re_sub_nondigit (s : string) : string :=
  match s with
  | EmptyString => EmptyString
  | String c s' =>
      if is_digit c then String c (re_sub_nondigit s') else re_sub_nondigit s'
  end.

(** A byte of a text written in ASCII letters, signs and spaces and in
    CJK ideographs: an ASCII byte that is not a digit, or a byte of the
    UTF-8 writing of a character from U+4000 to U+9FFF (a lead byte
    from E4 to E9, or a continuation byte).  No character written with
    such bytes is a decimal digit of any script. *)
Definition plain_byte (c : ascii) : bool :=
  ((nat_of_ascii c <? 128)%nat && negb (is_digit c)) ||
  ((128 <=? nat_of_ascii c)%nat && (nat_of_ascii c <=? 191)%nat) ||
  ((228 <=? nat_of_ascii c)%nat && (nat_of_ascii c <=? 233)%nat).

Fixpoint plain_text (s : string) : bool :=
  match s with
  | EmptyString => true
  | String c s' => plain_byte c && plain_text s'
  end.

Definition digit_value (c : ascii) : Z := Z.of_nat (nat_of_ascii c) - 48.

Fixpoint int_from (acc : Z) (s : string) : Z :=
  match s with
  | EmptyString => acc
  | String c s' => int_from (10 * acc + digit_value c) s'
  end.

(** [int(s)] on a text made of digits. *)
Definition int (s : string) : Z := int_from 0 s.

(** Truthiness of a str: non-empty. *)
Definition nonempty (s : string) : bool :=
  match s with EmptyString => false | _ => true end.

(** The three identifier columns (central.py, line 58). *)
Definition REQUIRED_COLS : list label :=
  [LStr "表单"; LStr "指标名称"; LStr "单位"].

(** The names [melt] is called with (line 77). *)
Definition var_name : label := LStr "年份".
Definition value_name : label := LStr "数值".

(* ===================================================================== *)
(** ** Frames *)
(* ===================================================================== *)

(** The wide frame: [nrows] rows (a RangeIndex) and the columns in
    order, each a label with its cells from top to bottom. *)
Record DataFrame : Type := mkDataFrame {
  nrows : nat;
  cols : list (label * list cell)
}.

(** One row of the long frame [df_long].  [row_index] is the row's index
    label, which [melt] numbers from 0 and [dropna] keeps.  [label] is
    the column 标签, absent until line 117 adds it. *)
Record LongRow : Type := mkLongRow {
  row_index : nat;
  category : cell;         (* 表单 *)
  indicator_name : cell;   (* 指标名称 *)
  unit_ : cell;            (* 单位 *)
  year : label;            (* 年份 *)
  value : cell;            (* 数值 *)
  label_ : option cell     (* 标签 *)
}.

(** [df.columns] *)
Definition columns (df : DataFrame) : list label := map fst (cols df).

(** [df.empty]: some axis has length 0. *)
Definition DataFrame_empty (df : DataFrame) : bool :=
  (nrows df =? 0)%nat || (length (cols df) =? 0)%nat.

(** [df[col]] for a label that is present: the cells of that column. *)
Fixpoint getitem (cs : list (label * list cell)) (col : label) : list cell :=
  match cs with
  | [] => []
  | (l, data) :: cs' => if label_eqb l col then data else getitem cs' col
  end.

(** What the loader guarantees of a table: every column has [nrows]
    cells, and no two columns share a label ([pd.read_excel] renames a
    repeated header). *)
Definition well_formed (df : DataFrame) : Prop :=
  List.NoDup (columns df) /\
  Forall (fun c => length (snd c) = nrows df) (cols df).

(* ===================================================================== *)
(** ** Series operations *)
(* ===================================================================== *)

(** [s.duplicated()]: true at every occurrence of a value after its
    first. *)
Fixpoint duplicated_from (seen : list cell) (s : list cell) : list bool :=
  match s with
  | [] => []
  | x :: s' => existsb (cell_eqb x) seen :: duplicated_from (x :: seen) s'
  end.

Definition duplicated (s : list cell) : list bool := duplicated_from [] s.

(** [s[mask]]: the entries where the mask is true. *)
Fixpoint boolean_index {A : Type} (s : list A) (mask : list bool) : list A :=
  match s, mask with
  | x :: s', b :: mask' =>
      if b then x :: boolean_index s' mask' else boolean_index s' mask'
  | _, _ => []
  end.

(** [s.unique()]: each value once, in order of first appearance. *)
Fixpoint unique (s : list cell) : list cell :=
  match s with
  | [] => []
  | x :: s' => x :: List.filter (fun y => negb (cell_eqb x y)) (unique s')
  end.

(** [mask.any()] *)
Definition any (mask : list bool) : bool := existsb (fun b => b) mask.

(** The items of [', '.join(items)]: the texts in order.  [None] when an
    item is not a str, where Python raises TypeError. *)
Fixpoint join_items (items : list cell) : option (list string) :=
  match items with
  | [] => Some []
  | Str s :: items' =>
      match join_items items' with
      | Some l => Some (s :: l)
      | None => None
      end
  | _ :: _ => None
  end.

(* ===================================================================== *)
(** ** Renaming the year columns (lines 70-73) *)
(* ===================================================================== *)

(** [d[k] = v] on a dict kept in insertion order. *)
Fixpoint dict_set (d : list (label * Z)) (k : label) (v : Z) : list (label * Z) :=
  match d with
  | [] => [(k, v)]
  | (k', v') :: d' =>
      if label_eqb k' k then (k', v) :: d' else (k', v') :: dict_set d' k v
  end.

Fixpoint dict_get (d : list (label * Z)) (k : label) : option Z :=
  match d with
  | [] => None
  | (k', v) :: d' => if label_eqb k' k then Some v else dict_get d' k
  end.

(** Line 71: [[col for col in df.columns if col not in id_vars]] *)
Definition value_vars_of (id_vars : list label) (labels : list label) : list label :=
  List.filter (fun col => negb (label_in col id_vars)) labels.

(** Line 72: the dict comprehension
    [{col: int(re.sub(r'\D', '', str(col))) for col in value_vars
      if re.sub(r'\D', '', str(col))}]. *)
Definition cleaned_colnames_map_of (value_vars : list label) : list (label * Z) :=
  fold_left
    (fun d col =>
       if nonempty (re_sub_nondigit (str col))
       then dict_set d col (int (re_sub_nondigit (str col)))
       else d)
    value_vars [].

(** The new label of a column under [rename(columns=mapper)]. *)
Definition rename_label (mapper : list (label * Z)) (l : label) : label :=
  match dict_get mapper l with
  | Some y => LInt y
  | None => l
  end.

Definition rename (mapper : list (label * Z)) (df : DataFrame) : DataFrame :=
  {| nrows := nrows df;
     cols := map (fun c => (rename_label mapper (fst c), snd c)) (cols df) |}.

(* ===================================================================== *)
(** ** The example parser and formatter *)
(* ===================================================================== *)

(** The pipeline below is parametric in the text-to-float parser behind
    [pd.to_numeric] and in the float formatter behind
    [round(2).astype(str)].  The concrete instances here serve the
    examples: [float_literal] reads the plain decimal literals
    ([-12], [6.0], [2.55]) and the infinity words; every other text,
    ["N/A"] among them, does not parse. *)
Fixpoint scan_fraction (m : Z) (scale : positive) (s : string) : option (Z * positive) :=
  match s with
  | EmptyString => Some (m, scale)
  | String c s' =>
      if is_digit c
      then scan_fraction (10 * m + digit_value c) (10 * scale) s'
      else None
  end.

Fixpoint scan_integer (m : Z) (seen : bool) (s : string) : option (Z * positive) :=
  match s with
  | EmptyString => if seen then Some (m, 1%positive) else None
  | String c s' =>
      if is_digit c then scan_integer (10 * m + digit_value c) true s'
      else if Ascii.eqb c "." then (if seen then scan_fraction m 1 s' else None)
      else None
  end.

Definition unsigned_literal (negative : bool) (s : string) : option number :=
  if String.eqb s "inf" || String.eqb s "infinity" then Some (Infinity negative)
  else
    match scan_integer 0 false s with
    | Some (m, scale) =>
        Some (Finite (Q2Qc ((if negative then - m else m) # scale)))
    | None => None
    end.

Definition float_literal (s : string) : option number :=
  match s with
  | String "-" s' => unsigned_literal true s'
  | String "+" s' => unsigned_literal false s'
  | _ => unsigned_literal false s
  end.

(** The formatter of the examples: the number rounded to two decimals,
    half to even, printed the way Python prints a float of moderate
    size, with at least one decimal ([6.0], [2.55], [-0.5]). *)
Definition round_half_even (n : Z) (d : positive) : Z :=
  let q := (n / Z.pos d)%Z in
  let r := (n mod Z.pos d)%Z in
  match (2 * r ?= Z.pos d)%Z with
  | Lt => q
  | Gt => (q + 1)%Z
  | Eq => if Z.even q then q else (q + 1)%Z
  end.

Definition digits_of (n : Z) : string := NilZero.string_of_uint (N.to_uint (Z.to_N n)).

Definition format_hundredths (h : Z) : string :=
  let a := Z.abs h in
  let whole := digits_of (a / 100) in
  let frac := (a mod 100)%Z in
  let decimals :=
    if (frac mod 10 =? 0)%Z then digits_of (frac / 10)
    else (digits_of (frac / 10) ++ digits_of (frac mod 10))%string in
  ((if (h <? 0)%Z then "-" else "") ++ whole ++ "." ++ decimals)%string.

Definition format_float (x : number) : string :=
  match x with
  | Finite q => format_hundredths (round_half_even (100 * Qnum q) (Qden q))
  | Infinity false => "inf"
  | Infinity true => "-inf"
  end.

(** A finite number cell from a fraction. *)
Definition num (n : Z) (d : positive) : cell := Num (Finite (Q2Qc (n # d))).

(* ===================================================================== *)
(** ** Example tables *)
(* ===================================================================== *)

(** One indicator, the years 2019 and ["2021年"], and the text ["N/A"]
    in the second. *)
Definition sample_sheet : DataFrame :=
  {| nrows := 1;
     cols := [ (LStr "表单", [Str "A"]);
               (LStr "指标名称", [Str "M1"]);
               (LStr "单位", [Str "%"]);
               (LStr "2019", [num 6 1]);
               (LStr "2021年", [Str "N/A"]) ] |}.

(** Six indicators whose only year column holds no number at all. *)
Definition six_failures_sheet : DataFrame :=
  {| nrows := 6;
     cols := [ (LStr "表单", [Str "A"; Str "A"; Str "A"; Str "A"; Str "A"; Str "A"]);
               (LStr "指标名称",
                [Str "M1"; Str "M2"; Str "M3"; Str "M4"; Str "M5"; Str "M6"]);
               (LStr "单位", [Str "%"; Str "%"; Str "%"; Str "%"; Str "%"; Str "%"]);
               (LStr "2021",
                [Str "N/A"; Str "N/A"; Str "N/A"; Str "N/A"; Str "N/A"; Str "N/A"]) ] |}.

(** The indicator M1 twice: once with a text, once with a number. *)
Definition repeated_name_sheet : DataFrame :=
  {| nrows := 2;
     cols := [ (LStr "表单", [Str "A"; Str "A"]);
               (LStr "指标名称", [Str "M1"; Str "M1"]);
               (LStr "单位", [Str "%"; Str "%"]);
               (LStr "2021", [Str "N/A"; num 81 10]) ] |}.

(** Two columns that both normalize to 2021. *)
Definition same_year_sheet : DataFrame :=
  {| nrows := 1;
     cols := [ (LStr "表单", [Str "A"]);
               (LStr "指标名称", [Str "M1"]);
               (LStr "单位", [Str "%"]);
               (LStr "2021", [num 81 10]);
               (LStr "2021年", [num 82 10]) ] |}.

(** Two rows whose indicator name cell is blank. *)
Definition blank_names_sheet : DataFrame :=
  {| nrows := 2;
     cols := [ (LStr "表单", [Str "A"; Str "A"]);
               (LStr "指标名称", [NaN; NaN]);
               (LStr "单位", [Str "%"; Str "%"]);
               (LStr "2021", [num 81 10; num 96 10]) ] |}.

(** A row whose category cell is blank. *)
Definition blank_category_sheet : DataFrame :=
  {| nrows := 1;
     cols := [ (LStr "表单", [NaN]);
               (LStr "指标名称", [Str "M1"]);
               (LStr "单位", [Str "%"]);
               (LStr "2021", [num 81 10]) ] |}.

(** A column without a digit in its label, called 数值. *)
Definition value_column_sheet : DataFrame :=
  {| nrows := 1;
     cols := [ (LStr "表单", [Str "A"]);
               (LStr "指标名称", [Str "M1"]);
               (LStr "单位", [Str "%"]);
               (LStr "2021", [num 81 10]);
               (LStr "数值", [Str "x"]) ] |}.

(** A column without a digit in its label, and a blank cell. *)
Definition note_column_sheet : DataFrame :=
  {| nrows := 2;
     cols := [ (LStr "表单", [Str "A"; Str "B"]);
               (LStr "指标名称", [Str "M1"; Str "M2"]);
               (LStr "单位", [Str "%"; Str "%"]);
               (LStr "年份说明", [Str "note"; NaN]);
               (LInt 2021, [num 81 10; NaN]) ] |}.

(** The number 1 as the indicator name of both rows. *)
Definition numeric_names_sheet : DataFrame :=
  {| nrows := 2;
     cols := [ (LStr "表单", [Str "A"; Str "A"]);
               (LStr "指标名称", [num 1 1; num 1 1]);
               (LStr "单位", [Str "%"; Str "%"]);
               (LStr "2021", [num 81 10; num 96 10]) ] |}.

(** The indicator M1 twice, in two forms and two units, with a number
    in each row. *)
Definition repeated_name_values_sheet : DataFrame :=
  {| nrows := 2;
     cols := [ (LStr "表单", [Str "A"; Str "B"]);
               (LStr "指标名称", [Str "M1"; Str "M1"]);
               (LStr "单位", [Str "%"; Str "万人"]);
               (LStr "2021", [num 81 10; num 96 10]) ] |}.


(** A unit cell that is blank, and a text that reads as a number. *)
Definition blank_unit_sheet : DataFrame :=
  {| nrows := 2;
     cols := [ (LStr "表单", [Str "A"; Str "A"]);
               (LStr "指标名称", [Str "M1"; Str "M2"]);
               (LStr "单位", [NaN; Str "万人"]);
               (LStr "2021年", [num 81 10; Str "3.14159"]) ] |}.

(* ===================================================================== *)
(** ** The script monad: heap of frames, screen, halting *)
(* ===================================================================== *)

(** One entry of the coercion warning (line 102): the row's 指标名称,
    its 年份 and its 原始值. *)
Record failure_entry : Type := mkEntry {
  entry_indicator : cell;
  entry_year : label;
  entry_raw : cell
}.

(** What the script prints.  Each message keeps the values its f-string
    interpolates: the joined names as the list of names, the coercion
    warning as its lines and, when line 108 adds it, the number of
    further problems. *)
Inductive message : Type :=
| error_empty                                         (* line 52 *)
| error_missing_cols (missing_cols : list label)      (* line 61 *)
| warning_duplicates (names : list string)            (* line 67 *)
| warning_coercion (warning_messages : list failure_entry)
                   (others : option nat).             (* line 110 *)

Inductive exn : Type := TypeError | ValueError | KeyError | AttributeError.

(** How a run ends: with a value, at [st.stop()], or in an uncaught
    exception. *)
Inductive outcome (A : Type) : Type :=
| Return (a : A)
| Stop
| Raise (e : exn).

Arguments Return {A} a.
Arguments Stop {A}.
Arguments Raise {A} e.

Inductive object : Type :=
| OWide (df : DataFrame)
| OLong (rows : list LongRow).

(** A reference is a position in the heap. *)
Abbreviation ref := nat (only parsing).

Record world : Type := mkWorld {
  heap : list object;
  screen : list message
}.

Definition script (A : Type) : Type := world -> outcome A * world.

Definition ret {A : Type} (a : A) : script A := fun w => (Return a, w).

Definition bind {A B : Type} (m : script A) (k : A -> script B) : script B :=
  fun w =>
    match m w with
    | (Return a, w') => k a w'
    | (Stop, w') => (Stop, w')
    | (Raise e, w') => (Raise e, w')
    end.

Notation "x <- m ;; k" := (bind m (fun x => k))
  (at level 100, m at next level, right associativity).
Notation "m ;;; k" := (bind m (fun _ => k))
  (at level 100, right associativity).

Definition raise {A : Type} (e : exn) : script A := fun w => (Raise e, w).

(** [st.stop()] *)
Definition st_stop {A : Type} : script A := fun w => (Stop, w).

(** [st.error(msg)] and [st.warning(msg)] *)
Definition st_print (msg : message) : script unit :=
  fun w => (Return tt, {| heap := heap w; screen := screen w ++ [msg] |}).

(** A new object on the heap. *)
Definition alloc (o : object) : script ref :=
  fun w => (Return (length (heap w)),
            {| heap := heap w ++ [o]; screen := screen w |}).

Definition read_wide (r : ref) : script DataFrame :=
  fun w =>
    match heap w !! r with
    | Some (OWide df) => (Return df, w)
    | _ => (Raise AttributeError, w)
    end.

Definition read_long (r : ref) : script (list LongRow) :=
  fun w =>
    match heap w !! r with
    | Some (OLong rows) => (Return rows, w)
    | _ => (Raise AttributeError, w)
    end.

(** An in-place update of the object behind [r]. *)
Definition write (r : ref) (o : object) : script unit :=
  fun w => (Return tt, {| heap := <[r := o]> (heap w); screen := screen w |}).

(** [df.copy()] *)
Definition DataFrame_copy (r : ref) : script ref :=
  df <- read_wide r ;; alloc (OWide df).

(** [df.rename(columns=mapper, inplace=True)] *)
Definition rename_inplace (r : ref) (mapper : list (label * Z)) : script unit :=
  df <- read_wide r ;; write r (OWide (rename mapper df)).

(* ===================================================================== *)
(** ** [DataFrame.melt] (line 77) *)
(* ===================================================================== *)

(** The positions of the columns labelled [t], in ascending order. *)
Fixpoint positions_from (i : nat) (labels : list label) (t : label) : list nat :=
  match labels with
  | [] => []
  | l :: labels' =>
      if label_eqb l t
      then i :: positions_from (S i) labels' t
      else positions_from (S i) labels' t
  end.

(** [columns.get_indexer_for(targets)]: for each target in turn, every
    position that carries it. *)
Definition get_indexer_for (labels targets : list label) : list nat :=
  flat_map (positions_from 0 labels) targets.

(** [algos.unique(idx)]: each position once, in order of first
    appearance. *)
Fixpoint algos_unique (idx : list nat) : list nat :=
  match idx with
  | [] => []
  | i :: idx' => i :: List.filter (fun j => negb (i =? j)%nat) (algos_unique idx')
  end.

(** [frame.iloc[:, idx]] *)
Definition iloc (cs : list (label * list cell)) (idx : list nat) : list (label * list cell) :=
  flat_map (fun i => match cs !! i with Some c => [c] | None => [] end) idx.

(** [frame.pop(col)]: the column's cells, and the frame without it. *)
Definition pop (cs : list (label * list cell)) (col : label)
  : list cell * list (label * list cell) :=
  (getitem cs col, List.filter (fun c => negb (label_eqb (fst c) col)) cs).

(** The loop [for col in id_vars: id_data = frame.pop(col)]. *)
Fixpoint pop_all (cs : list (label * list cell)) (id_vars : list label)
  : list (list cell) * list (label * list cell) :=
  match id_vars with
  | [] => ([], cs)
  | col :: id_vars' =>
      let (id_data, cs') := pop cs col in
      let (rest, cs'') := pop_all cs' id_vars' in
      (id_data :: rest, cs'')
  end.

(** The long row built from raw row [i] and the value column
    [(var, data)]; [ids] holds the cells of the identifier columns in
    the order of [id_vars]. *)
Definition melt_row (ids : list (list cell)) (var : label) (data : list cell)
    (start i : nat) : LongRow :=
  {| row_index := start + i;
     category := nth i (nth 0 ids []) NaN;
     indicator_name := nth i (nth 1 ids []) NaN;
     unit_ := nth i (nth 2 ids []) NaN;
     year := var;
     value := nth i data NaN;
     label_ := None |}.

(** The value columns stacked one under the other, the identifier cells
    tiled alongside, the index running from [start]. *)
Fixpoint melt_rows (n : nat) (ids : list (list cell)) (start : nat)
    (value_cols : list (label * list cell)) : list LongRow :=
  match value_cols with
  | [] => []
  | (var, data) :: value_cols' =>
      map (melt_row ids var data start) (seq 0 n)
        ++ melt_rows n ids (start + n) value_cols'
  end.

(** [df.melt(id_vars=id_vars, value_vars=value_vars, var_name='年份',
    value_name='数值')] as pandas 2 runs it: it refuses a frame that
    already has a column called [value_name], looks every requested
    label up, keeps each matching column once, pops the identifier
    columns and stacks the rest. *)
Definition melt_frame (frame : DataFrame) (id_vars value_vars : list label)
  : outcome (list LongRow) :=
  if label_in value_name (columns frame) then Raise ValueError else
  let labels := id_vars ++ value_vars in
  if existsb (fun t => (length (positions_from 0 (columns frame) t) =? 0)%nat) labels
  then Raise KeyError else
  let idx := algos_unique (get_indexer_for (columns frame) labels) in
  let (ids, value_cols) := pop_all (iloc (cols frame) idx) id_vars in
  Return (melt_rows (nrows frame) ids 0 value_cols).

(** The result of a pure computation, or the exception it raised. *)
Definition lift {A : Type} (o : outcome A) : script A := fun w => (o, w).

(** [melt] returns a new frame. *)
Definition melt (r : ref) (id_vars value_vars : list label) : script ref :=
  frame <- read_wide r ;;
  rows <- lift (melt_frame frame id_vars value_vars) ;;
  alloc (OLong rows).

(* ===================================================================== *)
(** ** Column updates on the long frame *)
(* ===================================================================== *)

Definition set_value (row : LongRow) (v : cell) : LongRow :=
  {| row_index := row_index row;
     category := category row;
     indicator_name := indicator_name row;
     unit_ := unit_ row;
     year := year row;
     value := v;
     label_ := label_ row |}.

Definition set_year (row : LongRow) (y : label) : LongRow :=
  {| row_index := row_index row;
     category := category row;
     indicator_name := indicator_name row;
     unit_ := unit_ row;
     year := y;
     value := value row;
     label_ := label_ row |}.

Definition set_label (row : LongRow) (l : cell) : LongRow :=
  {| row_index := row_index row;
     category := category row;
     indicator_name := indicator_name row;
     unit_ := unit_ row;
     year := year row;
     value := value row;
     label_ := Some l |}.

(** [df_long[col] = series], row by row. *)
Definition assign {A : Type} (set : LongRow -> A -> LongRow)
    (rows : list LongRow) (series : list A) : list LongRow :=
  map (fun p => set (fst p) (snd p)) (combine rows series).

(** [a & b] on masks. *)
Definition mask_and (a b : list bool) : list bool :=
  map (fun p => fst p && snd p) (combine a b).

(** [df_long.dropna(subset=['数值'], inplace=True)] *)
Definition dropna_inplace (r : ref) : script unit :=
  rows <- read_long r ;;
  write r (OLong (List.filter (fun row => notna (value row)) rows)).

(** [pd.to_numeric] on the labels of the 年份 column (line 116): an int
    stays, as long as an integer of 64 bits holds it (a column with a
    year from 2^63 on comes out in another dtype, which a label does
    not carry: where a theorem depends on it, it asks for years below
    2^63); a text label would have to parse. *)
Definition to_numeric_label (l : label) : option label :=
  match l with
  | LInt z => Some (LInt z)
  | LStr _ => None
  end.

Fixpoint to_numeric_labels (ls : list label) : option (list label) :=
  match ls with
  | [] => Some []
  | l :: ls' =>
      match to_numeric_label l, to_numeric_labels ls' with
      | Some y, Some ys => Some (y :: ys)
      | _, _ => None
      end
  end.

(** [text + unit] on object columns: a str is appended, a blank stays
    blank, a number raises TypeError ([None]). *)
Definition str_add (text : string) (c : cell) : option cell :=
  match c with
  | Str u => Some (Str (text ++ u)%string)
  | NaN => Some NaN
  | Num _ => None
  end.

Fixpoint str_add_series (texts : list string) (cells : list cell) : option (list cell) :=
  match texts, cells with
  | t :: texts', c :: cells' =>
      match str_add t c, str_add_series texts' cells' with
      | Some l, Some ls => Some (l :: ls)
      | _, _ => None
      end
  | _, _ => Some []
  end.

(* ===================================================================== *)
(** ** The terms of the specification *)
(* ===================================================================== *)

(** A valid year column: not an identifier column, and with a digit in
    its label. *)
Definition is_year_column (l : label) : bool :=
  negb (label_in l REQUIRED_COLS) && nonempty (re_sub_nondigit (str l)).

(** The normalized integer year of a label. *)
Definition normalized_year (l : label) : Z := int (re_sub_nondigit (str l)).

(** The year columns of the raw table, in the order of the sheet. *)
Definition year_columns (raw : DataFrame) : list (label * list cell) :=
  List.filter (fun c => is_year_column (fst c)) (cols raw).

(** The cell of raw row [i] in a column. *)
Definition cell_at (data : list cell) (i : nat) : cell := nth i data NaN.

(** The identifier cells of raw row [i]. *)
Definition category_of (raw : DataFrame) (i : nat) : cell :=
  cell_at (getitem (cols raw) (LStr "表单")) i.
Definition indicator_of (raw : DataFrame) (i : nat) : cell :=
  cell_at (getitem (cols raw) (LStr "指标名称")) i.
Definition unit_of (raw : DataFrame) (i : nat) : cell :=
  cell_at (getitem (cols raw) (LStr "单位")) i.

(* ===================================================================== *)
(** ** What the example tables give *)
(* ===================================================================== *)

Definition sample_output : list LongRow :=
  [ {| row_index := 0; category := Str "A"; indicator_name := Str "M1";
       unit_ := Str "%"; year := LInt 2019; value := num 6 1;
       label_ := Some (Str "6.0 %") |} ].

Definition sample_report : list message :=
  [ warning_coercion [mkEntry (Str "M1") (LInt 2021) (Str "N/A")] None ].

(** The heap after [process_dataframe] ran on a heap that held only
    [sample_sheet]: the raw table, the renamed copy, the long frame. *)
Definition sample_world_after : world :=
  {| heap :=
       [ OWide sample_sheet;
         OWide {| nrows := 1;
                  cols := [ (LStr "表单", [Str "A"]);
                            (LStr "指标名称", [Str "M1"]);
                            (LStr "单位", [Str "%"]);
                            (LInt 2019, [num 6 1]);
                            (LInt 2021, [Str "N/A"]) ] |};
         OLong sample_output ];
     screen := sample_report |}.

Definition six_failures_report : list message :=
  [ warning_coercion
      [ mkEntry (Str "M1") (LInt 2021) (Str "N/A");
        mkEntry (Str "M2") (LInt 2021) (Str "N/A");
        mkEntry (Str "M3") (LInt 2021) (Str "N/A");
        mkEntry (Str "M4") (LInt 2021) (Str "N/A");
        mkEntry (Str "M5") (LInt 2021) (Str "N/A") ]
      (Some 1) ].

Definition repeated_name_output : list LongRow :=
  [ {| row_index := 1; category := Str "A"; indicator_name := Str "M1";
       unit_ := Str "%"; year := LInt 2021; value := num 81 10;
       label_ := Some (Str "8.1 %") |} ].

Definition repeated_name_report : list message :=
  [ warning_duplicates ["M1"];
    warning_coercion [mkEntry (Str "M1") (LInt 2021) (Str "N/A")] None ].

Definition repeated_name_values_output : list LongRow :=
  [ {| row_index := 0; category := Str "A"; indicator_name := Str "M1";
       unit_ := Str "%"; year := LInt 2021; value := num 81 10;
       label_ := Some (Str "8.1 %") |};
    {| row_index := 1; category := Str "B"; indicator_name := Str "M1";
       unit_ := Str "万人"; year := LInt 2021; value := num 96 10;
       label_ := Some (Str "9.6 万人") |} ].

Definition same_year_output : list LongRow :=
  [ {| row_index := 0; category := Str "A"; indicator_name := Str "M1";
       unit_ := Str "%"; year := LInt 2021; value := num 81 10;
       label_ := Some (Str "8.1 %") |};
    {| row_index := 1; category := Str "A"; indicator_name := Str "M1";
       unit_ := Str "%"; year := LInt 2021; value := num 82 10;
       label_ := Some (Str "8.2 %") |} ].

Definition blank_category_output : list LongRow :=
  [ {| row_index := 0; category := NaN; indicator_name := Str "M1";
       unit_ := Str "%"; year := LInt 2021; value := num 81 10;
       label_ := Some (Str "8.1 %") |} ].

Definition note_column_output : list LongRow :=
  [ {| row_index := 0; category := Str "A"; indicator_name := Str "M1";
       unit_ := Str "%"; year := LInt 2021; value := num 81 10;
       label_ := Some (Str "8.1 %") |} ].

(** A text cell that reads as an infinity. *)
Definition infinite_sheet : DataFrame :=
  {| nrows := 1;
     cols := [ (LStr "表单", [Str "A"]);
               (LStr "指标名称", [Str "M1"]);
               (LStr "单位", [Str "%"]);
               (LStr "2021", [Str "inf"]) ] |}.

Definition infinite_output : list LongRow :=
  [ {| row_index := 0; category := Str "A"; indicator_name := Str "M1";
       unit_ := Str "%"; year := LInt 2021; value := Num (Infinity false);
       label_ := Some (Str "inf %") |} ].

(** A concrete table is well formed: its labels differ and its columns
    have [nrows] cells. *)
Ltac well_formed_table :=
  split;
  [ repeat constructor; cbn [In]; intros H;
    repeat (destruct H as [H | H]; [discriminate H|]); exact H
  | repeat constructor ].

(* ===================================================================== *)
(** ** The page script: session state, what is shown, reruns *)
(* ===================================================================== *)

(** A value kept in [st.session_state]: a flag, a scalar (the text of
    an input is a [Str]), or a list of scalars. *)
Inductive state_value : Type :=
| VBool (b : bool)
| VScalar (c : cell)
| VList (items : list cell).

(** A value of [st.secrets]: a text, or something else that the secrets
    file can hold (a number, a boolean, a table). *)
Inductive secret : Type :=
| SecretStr (s : string)
| SecretOther.

(** Truthiness of a value. *)
Definition truthy (v : state_value) : bool :=
  match v with
  | VBool b => b
  | VScalar NaN => true
  | VScalar (Num x) => negb (number_eqb x (Finite (Q2Qc 0)))
  | VScalar (Str s) => nonempty s
  | VList [] => false
  | VList (_ :: _) => true
  end.

(** [v == secret] where [v] is the text of the password input: a text
    equals the same text and nothing else. *)
Definition eq_secret (v : state_value) (sec : secret) : bool :=
  match v, sec with
  | VScalar (Str typed), SecretStr s => String.eqb typed s
  | _, _ => false
  end.

(** What a run of the page script puts on the page. *)
Inductive element : Type :=
| form_credentials                        (* lines 133-135 *)
| error_wrong_password                    (* line 149 *)
| error_read_failed (filename : string)   (* line 40 *)
| error_detail (e : string)               (* line 41 *)
| printed (m : message).                  (* by [process_dataframe] *)

(** The exceptions of the page script: those of [exn], and IndexError. *)
Inductive exception : Type :=
| IndexError
| Builtin (e : exn).

(** How a run of the page script ends: at its last line, at
    [st.stop()], at [st.rerun()], or in an uncaught exception. *)
Inductive ending (A : Type) : Type :=
| Finished (a : A)
| Stopped
| Rerun
| Raised (e : exception).

Arguments Finished {A} a.
Arguments Stopped {A}.
Arguments Rerun {A}.
Arguments Raised {A} e.

Record session : Type :=
  { session_state : gmap string state_value;
    shown : list element }.

Definition page (A : Type) : Type := session -> ending A * session.

Definition page_ret {A : Type} (a : A) : page A := fun s => (Finished a, s).

Definition page_bind {A B : Type} (m : page A) (k : A -> page B) : page B :=
  fun s =>
    match m s with
    | (Finished a, s') => k a s'
    | (Stopped, s') => (Stopped, s')
    | (Rerun, s') => (Rerun, s')
    | (Raised e, s') => (Raised e, s')
    end.

Notation "x <~ m ;; k" := (page_bind m (fun x => k))
  (at level 100, m at next level, right associativity).
Notation "m ;;~ k" := (page_bind m (fun _ => k))
  (at level 100, right associativity).

Definition page_raise {A : Type} (e : exception) : page A := fun s => (Raised e, s).

(** [st.stop()] and [st.rerun()] in the page script. *)
Definition page_stop {A : Type} : page A := fun s => (Stopped, s).
Definition st_rerun {A : Type} : page A := fun s => (Rerun, s).

(** [st.error(...)], [st.form(...)]: one more element on the page. *)
Definition st_show (e : element) : page unit :=
  fun s => (Finished tt,
            {| session_state := session_state s; shown := shown s ++ [e] |}).

(** [st.session_state.get(key, default)] *)
Definition session_state_get (key : string) (default : state_value) : page state_value :=
  fun s => (Finished (match session_state s !! key with
                      | Some v => v
                      | None => default
                      end), s).

(** [st.session_state[key]] *)
Definition session_state_getitem (key : string) : page state_value :=
  fun s =>
    match session_state s !! key with
    | Some v => (Finished v, s)
    | None => (Raised (Builtin KeyError), s)
    end.

(** [st.session_state.key] *)
Definition session_state_getattr (key : string) : page state_value :=
  fun s =>
    match session_state s !! key with
    | Some v => (Finished v, s)
    | None => (Raised (Builtin AttributeError), s)
    end.

(** [st.session_state[key] = v], [st.session_state.key = v] *)
Definition session_state_set (key : string) (v : state_value) : page unit :=
  fun s => (Finished tt,
            {| session_state := <[key := v]> (session_state s); shown := shown s |}).

(** [del st.session_state[key]] *)
Definition session_state_del (key : string) : page unit :=
  fun s =>
    match session_state s !! key with
    | Some _ => (Finished tt,
                 {| session_state := delete key (session_state s); shown := shown s |})
    | None => (Raised (Builtin KeyError), s)
    end.

(** [st.secrets[key]] *)
Definition secrets_getitem (secrets : gmap string secret) (key : string) : page secret :=
  fun s =>
    match secrets !! key with
    | Some sec => (Finished sec, s)
    | None => (Raised (Builtin KeyError), s)
    end.

(** What the browser sends with the run: the text of the password input
    as the form last submitted it, and whether the run was started by
    the button of the form. *)
Record run_input : Type :=
  { password_typed : string;
    submitted : bool }.

(** [st.text_input(..., key=key)]: the value of the widget is in the
    session state under its key. *)
Definition st_text_input (key : string) (text : string) : page unit :=
  session_state_set key (VScalar (Str text)).

(** Lines 127-154. *)
Definition check_password (secrets : gmap string secret) (inp : run_input) : page bool :=
  password_correct <~ session_state_get "password_correct" (VBool false) ;;
  if negb (truthy password_correct) then
    st_show form_credentials ;;~
    st_text_input "password" (password_typed inp) ;;~
    (if submitted inp then
       typed <~ session_state_getitem "password" ;;
       sec <~ secrets_getitem secrets "password" ;;
       if eq_secret typed sec then
         session_state_set "password_correct" (VBool true) ;;~
         session_state_del "password" ;;~
         st_rerun
       else
         st_show error_wrong_password
     else page_ret tt) ;;~
    page_ret false
  else
    page_ret true.

(** What [pd.read_excel(filename)] makes of the files of the server: a
    table, or an exception with its text. *)
Definition file_system : Type := string -> DataFrame + string.

(** Lines 31-42. *)
Definition get_raw_df_from_excel (files : file_system) (filename : string) : page DataFrame :=
  match files filename with
  | inl df_raw => page_ret df_raw
  | inr e =>
      st_show (error_read_failed filename) ;;~
      st_show (error_detail e) ;;~
      page_stop
  end.

Definition DATA_FILE : string := "data_central.xlsx".

(** Python's [==] on two scalars: nothing equals NaN. *)
Definition py_eq (a b : cell) : bool := notna a && notna b && cell_eqb a b.

(** [column == other], elementwise; [None] where pandas raises
    ValueError, on a list of another length. *)
Definition series_eq (column : list cell) (other : state_value) : option (list bool) :=
  match other with
  | VScalar c => Some (map (fun x => py_eq x c) column)
  | VBool b => Some (map (fun x => py_eq x (num (if b then 1 else 0) 1)) column)
  | VList items =>
      if (length items =? length column)%nat
      then Some (map (fun p => py_eq (fst p) (snd p)) (combine column items))
      else None
  end.

(** Lines 163-167: the callback of the select box of the forms. *)
Definition update_default_metric_on_form_change (df : list LongRow) : page unit :=
  current_form <~ session_state_getattr "sb_form" ;;
  match series_eq (map category df) current_form with
  | Some mask =>
      match unique (map indicator_name (boolean_index df mask)) with
      | first_metric_in_form :: _ =>
          session_state_set "selected_metrics" (VList [first_metric_in_form])
      | [] => page_raise IndexError
      end
  | None => page_raise (Builtin ValueError)
  end.

(** The options of the select box (line 183): [df['表单'].unique()]. *)
Definition unique_forms (df : list LongRow) : list cell := unique (map category df).

(** [s.isin(values)]: pandas' hash table again, NaN equal to NaN. *)
Definition isin (x : cell) (values : list cell) : bool := existsb (cell_eqb x) values.

(** The integers of the column 年份; [None] when a year is not an
    integer, which the comparisons and [sorted] below do not take
    (line 116 leaves none in a frame that [process_dataframe] returns). *)
Fixpoint year_ints (df : list LongRow) : option (list Z) :=
  match df with
  | [] => Some []
  | row :: df' =>
      match year row, year_ints df' with
      | LInt y, Some ys => Some (y :: ys)
      | _, _ => None
      end
  end.

(** [unique()] on an integer column. *)
Fixpoint unique_ints (l : list Z) : list Z :=
  match l with
  | [] => []
  | x :: l' => x :: List.filter (fun y => negb (Z.eqb x y)) (unique_ints l')
  end.

(** [sorted(l)] on integers. *)
Fixpoint insert_sorted (x : Z) (l : list Z) : list Z :=
  match l with
  | [] => [x]
  | y :: l' => if (x <=? y)%Z then x :: y :: l' else y :: insert_sorted x l'
  end.

Definition sorted (l : list Z) : list Z := fold_right insert_sorted [] l.

(** Line 225. *)
Definition all_years (df : list LongRow) : option (list Z) :=
  match year_ints df with
  | Some years => Some (sorted (unique_ints years))
  | None => None
  end.

(** Lines 227-236: the range that the slider starts with; a slider that
    is left alone returns it, and so does the disabled one. *)
Definition default_year_range (all_years : list Z) : option Z * option Z :=
  if (1 <? length all_years)%nat
  then (Some (hd 0%Z all_years), Some (List.last all_years 0%Z))
  else match all_years with
       | y :: _ => (Some y, Some y)
       | [] => (None, None)
       end.

(** Lines 302-309: the rows that are plotted and listed; [None] where
    the comparison of a year with a bound raises TypeError. *)
Definition plot_df (df : list LongRow) (selected_metrics : list cell)
    (selected_year_range : option Z * option Z) : option (list LongRow) :=
  let plot := List.filter (fun row => isin (indicator_name row) selected_metrics) df in
  match selected_year_range with
  | (Some lo, Some hi) =>
      match year_ints plot with
      | Some years =>
          Some (boolean_index plot
                  (mask_and (map (fun y => (lo <=? y)%Z) years)
                            (map (fun y => (y <=? hi)%Z) years)))
      | None => None
      end
  | (Some lo, None) => None
  | (None, _) => Some plot
  end.

(** A secrets file, a server whose data file holds the sheet with a
    note column, and two submissions of the form. *)
Definition example_secrets : gmap string secret :=
  {[ "password" := SecretStr "s3cret" ]}.

Definition example_files : file_system := fun _ => inl note_column_sheet.

Definition right_password : run_input :=
  {| password_typed := "s3cret"; submitted := true |}.

Definition wrong_password : run_input :=
  {| password_typed := "guess"; submitted := true |}.

(* ===================================================================== *)
(** ** [process_dataframe] *)
(* ===================================================================== *)

Section Pipeline.

(** The text-to-float parser of [pd.to_numeric]: [None] when the text
    does not parse, or parses to NaN. *)
Variable parse_float : string -> option number.

(** [x.round(2)] printed by [astype(str)].  The text that pandas prints
    also depends on the dtype of the column ([5] in a column of
    integers, [5.0] in a column of floats) and on the sign of a zero,
    which a cell does not carry: the text is left open, and no theorem
    says what it is. *)
Variable format_round2 : number -> string.

(** [pd.to_numeric(c, errors='coerce')] on one cell: a blank stays
    blank, a number stays, a text is parsed and becomes NaN when it does
    not parse. *)
Definition to_numeric (c : cell) : cell :=
  match c with
  | NaN => NaN
  | Num x => Num x
  | Str s =>
      match parse_float s with
      | Some x => Num x
      | None => NaN
      end
  end.

(** [c.round(2).astype(str)] on one cell of a numeric column. *)
Definition round2_astype_str (c : cell) : string :=
  match c with
  | Num x => format_round2 x
  | NaN => "nan"
  | Str s => s
  end.

(** Line 116: [df_long['年份'] = pd.to_numeric(df_long['年份'])] *)
Definition to_numeric_year_inplace (r : ref) : script unit :=
  rows <- read_long r ;;
  match to_numeric_labels (map year rows) with
  | Some years => write r (OLong (assign set_year rows years))
  | None => raise ValueError
  end.

(** Line 117: [df_long.loc[:, '标签'] =
    df_long['数值'].round(2).astype(str) + ' ' + df_long['单位']] *)
Definition assign_label_inplace (r : ref) : script unit :=
  rows <- read_long r ;;
  let texts := map (fun row => (round2_astype_str (value row) ++ " ")%string) rows in
  match str_add_series texts (map unit_ rows) with
  | Some labels => write r (OLong (assign set_label rows labels))
  | None => raise TypeError
  end.

(** Lines 94-96: the rows that failed, each with its 原始值. *)
Definition failed_rows_of (coerced : list LongRow) (original_values : list cell)
    (failed_mask : list bool) : list (LongRow * cell) :=
  combine (boolean_index coerced failed_mask)
          (boolean_index original_values failed_mask).

(** Lines 99-108: one line for each of the first five failed rows, and
    the number of the others when there are more. *)
Definition final_warning (failed_rows : list (LongRow * cell)) : message :=
  let warning_messages :=
    map (fun p => mkEntry (indicator_name (fst p)) (year (fst p)) (snd p))
        (firstn 5 failed_rows) in
  let others :=
    if (5 <? length failed_rows)%nat
    then Some (length failed_rows - 5)%nat
    else None in
  warning_coercion warning_messages others.

(** Lines 93-110: the warning that names the cells that failed. *)
Definition report_failures (coerced : list LongRow) (original_values : list cell)
    (failed_mask : list bool) : script unit :=
  if any failed_mask
  then st_print (final_warning (failed_rows_of coerced original_values failed_mask))
  else ret tt.

(** Line 65: the indicator names that occur more than once. *)
Definition duplicates_of (names : list cell) : list cell :=
  unique (boolean_index names (duplicated names)).

(** Lines 66-67: the warning that lists the repeated indicator names. *)
Definition report_duplicates (duplicates : list cell) : script unit :=
  if (0 <? length duplicates)%nat then
    match join_items duplicates with
    | Some items => st_print (warning_duplicates items)
    | None => raise TypeError
    end
  else ret tt.

Definition process_dataframe (df_raw : ref) : script ref :=
  raw <- read_wide df_raw ;;
  if DataFrame_empty raw then (st_print error_empty ;;; st_stop) else
  df <- DataFrame_copy df_raw ;;
  frame <- read_wide df ;;
  let missing_cols :=
    List.filter (fun col => negb (label_in col (columns frame))) REQUIRED_COLS in
  if (0 <? length missing_cols)%nat
  then (st_print (error_missing_cols missing_cols) ;;; st_stop) else
  let duplicates := duplicates_of (getitem (cols frame) (LStr "指标名称")) in
  report_duplicates duplicates ;;;
  let id_vars := REQUIRED_COLS in
  let value_vars := value_vars_of id_vars (columns frame) in
  let cleaned_colnames_map := cleaned_colnames_map_of value_vars in
  rename_inplace df cleaned_colnames_map ;;;
  let value_vars_cleaned := map (fun kv => LInt (snd kv)) cleaned_colnames_map in
  df_long <- melt df id_vars value_vars_cleaned ;;
  melted <- read_long df_long ;;
  let original_values := map value melted in
  write df_long (OLong (assign set_value melted (map to_numeric original_values))) ;;;
  coerced <- read_long df_long ;;
  let failed_mask :=
    mask_and (map notna original_values) (map isna (map value coerced)) in
  report_failures coerced original_values failed_mask ;;;
  dropna_inplace df_long ;;;
  to_numeric_year_inplace df_long ;;;
  assign_label_inplace df_long ;;;
  ret df_long.

(** The pipeline seen from its caller (lines 159-160): the raw table is
    put on an empty heap, [process_dataframe] runs on it, and the rows
    of the frame it returns are read, together with what it printed. *)
Definition normalize (raw : DataFrame) : outcome (list LongRow) * list message :=
  let (o, w) :=
    (df_raw <- alloc (OWide raw) ;;
     df_long <- process_dataframe df_raw ;;
     read_long df_long) {| heap := []; screen := [] |} in
  (o, screen w).

(** The renaming dict and the year labels that [process_dataframe]
    computes from the raw table (lines 70-76). *)
Definition cleaned_colnames_map (raw : DataFrame) : list (label * Z) :=
  cleaned_colnames_map_of (value_vars_of REQUIRED_COLS (columns raw)).

Definition value_vars_cleaned (raw : DataFrame) : list label :=
  map (fun kv => LInt (snd kv)) (cleaned_colnames_map raw).

(** The frame [df_long] of line 77, before any coercion. *)
Definition long_form (raw : DataFrame) : outcome (list LongRow) :=
  melt_frame (rename (cleaned_colnames_map raw) raw) REQUIRED_COLS
    (value_vars_cleaned raw).

(** The frame after line 88, the mask of line 91 and the rows of line
    94, as functions of the melted rows. *)
Definition coerce (melted : list LongRow) : list LongRow :=
  assign set_value melted (map to_numeric (map value melted)).

Definition failed_mask_of (melted : list LongRow) : list bool :=
  mask_and (map notna (map value melted)) (map isna (map value (coerce melted))).

Definition failed_rows (melted : list LongRow) : list (LongRow * cell) :=
  failed_rows_of (coerce melted) (map value melted) (failed_mask_of melted).

(** What line 67 prints for the repeated names: nothing when there are
    none, one warning when all of them are texts; [None] when the join
    raises. *)
Definition duplicates_warning (duplicates : list cell) : option (list message) :=
  if (0 <? length duplicates)%nat then
    match join_items duplicates with
    | Some items => Some [warning_duplicates items]
    | None => None
    end
  else Some [].

(** The dataflow of [process_dataframe] with the heap and the screen
    taken out: what a run returns and what it prints, as a function of
    the raw table.  [process_dataframe_run] below proves that the script
    computes exactly this. *)
Definition pipeline (raw : DataFrame) : outcome (list LongRow) * list message :=
  if DataFrame_empty raw then (Stop, [error_empty]) else
  let missing_cols :=
    List.filter (fun col => negb (label_in col (columns raw))) REQUIRED_COLS in
  if (0 <? length missing_cols)%nat
  then (Stop, [error_missing_cols missing_cols]) else
  match duplicates_warning (duplicates_of (getitem (cols raw) (LStr "指标名称"))) with
  | None => (Raise TypeError, [])
  | Some dups =>
      match long_form raw with
      | Stop => (Stop, dups)
      | Raise e => (Raise e, dups)
      | Return melted =>
          let fails :=
            if any (failed_mask_of melted)
            then [final_warning (failed_rows melted)] else [] in
          let kept := List.filter (fun row => notna (value row)) (coerce melted) in
          match to_numeric_labels (map year kept) with
          | None => (Raise ValueError, dups ++ fails)
          | Some years =>
              let rows := assign set_year kept years in
              match
                str_add_series
                  (map (fun row => (round2_astype_str (value row) ++ " ")%string) rows)
                  (map unit_ rows)
              with
              | None => (Raise TypeError, dups ++ fails)
              | Some labels => (Return (assign set_label rows labels), dups ++ fails)
              end
          end
      end
  end.

(** Row by row: the coerced row, the test of line 91, and the test of
    line 113. *)
Definition coerce_row (row : LongRow) : LongRow :=
  set_value row (to_numeric (value row)).

Definition failed (row : LongRow) : bool :=
  notna (value row) && isna (to_numeric (value row)).

Definition survives (row : LongRow) : bool :=
  notna (to_numeric (value row)).

(** The long frame that [melt] builds when it takes the year columns at
    the positions [vpos], in that order. *)
Definition stacked (raw : DataFrame) (vpos : list nat) : list LongRow :=
  melt_rows (nrows raw)
    [getitem (cols raw) (LStr "表单");
     getitem (cols raw) (LStr "指标名称");
     getitem (cols raw) (LStr "单位")] 0
    (map (fun c => (LInt (normalized_year (fst c)), snd c))
         (iloc (cols raw) vpos)).

(** The long row of raw row [i] in the [k]-th stacked column, whose
    label is [l] and whose cells are [data]. *)
Definition long_row (raw : DataFrame) (k : nat) (l : label) (data : list cell)
    (i : nat) : LongRow :=
  {| row_index := k * nrows raw + i;
     category := category_of raw i;
     indicator_name := indicator_of raw i;
     unit_ := unit_of raw i;
     year := LInt (normalized_year l);
     value := cell_at data i;
     label_ := None |}.

(** A cell of a year column: [c] is the cell of raw row [i] in the
    column at position [p], whose label is [l]. *)
Definition year_cell (raw : DataFrame) (p i : nat) (l : label) (c : cell) : Prop :=
  exists data,
    cols raw !! p = Some (l, data) /\ is_year_column l = true /\
    i < nrows raw /\ c = cell_at data i.

(** A cell that is not blank and that [pd.to_numeric] cannot coerce. *)
Definition coercion_failure (c : cell) : bool :=
  notna c && isna (to_numeric c).

(** All the cells of the year columns, and how many of them fail. *)
Definition year_cells (raw : DataFrame) : list cell :=
  concat (map snd (year_columns raw)).

Definition failure_count (raw : DataFrame) : nat :=
  length (List.filter coercion_failure (year_cells raw)).

(* ===================================================================== *)
(** ** The page around [process_dataframe] (lines 157-160) *)
(* ===================================================================== *)

(** [process_dataframe(df_raw)] called from the page script: what it
    prints goes on the page, and the way it ends is the way the call
    ends. *)
Definition call_process_dataframe (df_raw : DataFrame) : page (list LongRow) :=
  fun s =>
    let s' := {| session_state := session_state s;
                 shown := shown s ++ map printed (snd (normalize df_raw)) |} in
    match fst (normalize df_raw) with
    | Return df => (Finished df, s')
    | Stop => (Stopped, s')
    | Raise e => (Raised (Builtin e), s')
    end.

(** The page script from its first line to the call of line 160: the
    gate, the loader and [process_dataframe].  It ends with [None]
    when the run ends behind the form, and with the table when the
    rest of the script (lines 163-361: the widgets and the chart, which
    write their own keys of the session state) is about to run; that
    rest is not part of this function. *)
Definition central_page (secrets : gmap string secret) (files : file_system)
    (inp : run_input) : page (option (list LongRow)) :=
  logged_in <~ check_password secrets inp ;;
  if logged_in then
    df_raw <~ get_raw_df_from_excel files DATA_FILE ;;
    df <~ call_process_dataframe df_raw ;;
    page_ret (Some df)
  else
    page_ret None.

(** A run started by [st.rerun()] has the button released. *)
Definition released (inp : run_input) : run_input :=
  {| password_typed := password_typed inp; submitted := false |}.

(** One request of the browser: the script runs on a blank page, and
    runs again, on a blank page and with the session state as the last
    run left it, as long as a run ends at [st.rerun()].  Out of fuel,
    the request is still at [Rerun]. *)
Fixpoint run_script {A : Type} (fuel : nat) (script : run_input -> page A)
    (inp : run_input) (state : gmap string state_value) : ending A * session :=
  match fuel with
  | 0 => (Rerun, {| session_state := state; shown := [] |})
  | S fuel' =>
      match script inp {| session_state := state; shown := [] |} with
      | (Rerun, s) => run_script fuel' script (released inp) (session_state s)
      | r => r
      end
  end.

(** A request to the page of [central.py], up to line 160. *)
Definition request (secrets : gmap string secret) (files : file_system)
    (inp : run_input) (state : gmap string state_value) :
    ending (option (list LongRow)) * session :=
  run_script 2 (central_page secrets files) inp state.

(** The session state after a series of requests of one browser
    session, which starts with an empty state.  As long as no request
    has passed the gate, the whole script is the part up to line 160,
    and this is the state of the session. *)
Definition session_after (secrets : gmap string secret) (files : file_system)
    (history : list run_input) : gmap string state_value :=
  fold_left (fun state inp => session_state (snd (request secrets files inp state)))
            history ∅.

(** A request that submits the password of the secrets file. *)
Definition correct_submission (secrets : gmap string secret) (inp : run_input) : bool :=
  submitted inp &&
  match secrets !! "password" with
  | Some (SecretStr s) => String.eqb (password_typed inp) s
  | _ => false
  end.

(** A state in which the gate is open: the flag is set and the text of
    the password is gone. *)
Definition logged_in (state : gmap string state_value) : Prop :=
  state !! "password_correct" = Some (VBool true) /\ state !! "password" = None.

(** What the page shows behind the gate, and how the run ends there. *)
Definition content (files : file_system) : ending (option (list LongRow)) * list element :=
  match files DATA_FILE with
  | inl df_raw =>
      (match fst (normalize df_raw) with
       | Return df => Finished (Some df)
       | Stop => Stopped
       | Raise e => Raised (Builtin e)
       end,
       map printed (snd (normalize df_raw)))
  | inr e => (Stopped, [error_read_failed DATA_FILE; error_detail e])
  end.

(* ===================================================================== *)
(** ** Running the script *)
(* ===================================================================== *)

(** Objects below the newest ones are not touched. *)
Ltac older :=
  let i := fresh "i" in
  let Hi := fresh "Hi" in
  intros i Hi; cbn [heap];
  repeat match goal with h := _ : list object |- _ => subst h end;
  repeat (rewrite lookup_app_l by (repeat rewrite length_app; cbn [length]; lia));
  reflexivity.

(** The end of a branch that halts. *)
Ltac halted :=
  eexists; split; [reflexivity|]; cbn [heap screen fst snd];
  split; [try rewrite app_nil_r; try rewrite <- app_assoc; reflexivity|];
  split; [intros ? ?; discriminate | older].

(** Stepping through a [bind]. *)
Lemma bind_bind {A B C : Type} (m : script A) (f : A -> script B) (g : B -> script C) (w : world) :
  bind (bind m f) g w = bind m (fun a => bind (f a) g) w.
Proof. unfold bind. destruct (m w) as [[a | | e] w1]; reflexivity. Qed.

Lemma bind_ret {A B : Type} (a : A) (k : A -> script B) (w : world) :
  bind (ret a) k w = k a w.
Proof. reflexivity. Qed.

Lemma bind_lift_Return {A B : Type} (a : A) (k : A -> script B) (w : world) :
  bind (lift (Return a)) k w = k a w.
Proof. reflexivity. Qed.

Lemma bind_alloc {B : Type} (o : object) (k : ref -> script B) (w : world) :
  bind (alloc o) k w =
  k (length (heap w)) {| heap := heap w ++ [o]; screen := screen w |}.
Proof. reflexivity. Qed.

Lemma bind_write {B : Type} (r : ref) (o : object) (k : unit -> script B) (w : world) :
  bind (write r o) k w =
  k tt {| heap := <[r := o]> (heap w); screen := screen w |}.
Proof. reflexivity. Qed.

Lemma bind_st_print {B : Type} (msg : message) (k : unit -> script B) (w : world) :
  bind (st_print msg) k w =
  k tt {| heap := heap w; screen := screen w ++ [msg] |}.
Proof. reflexivity. Qed.

Lemma bind_read_wide {B : Type} (r : ref) (df : DataFrame) (k : DataFrame -> script B) (w : world) :
  heap w !! r = Some (OWide df) ->
  bind (read_wide r) k w = k df w.
Proof. intros H. unfold bind, read_wide. rewrite H. reflexivity. Qed.

Lemma bind_read_long {B : Type} (r : ref) (rows : list LongRow)
    (k : list LongRow -> script B) (w : world) :
  heap w !! r = Some (OLong rows) ->
  bind (read_long r) k w = k rows w.
Proof. intros H. unfold bind, read_long. rewrite H. reflexivity. Qed.

(** The newest object of a heap: reading it and updating it. *)
Lemma lookup_newest (h : list object) (o : object) :
  (h ++ [o]) !! length h = Some o.
Proof. apply list_lookup_middle. reflexivity. Qed.

Lemma insert_newest (h : list object) (o o' : object) :
  <[length h := o']> (h ++ [o]) = h ++ [o'].
Proof.
  rewrite insert_app_r_alt by lia. rewrite Nat.sub_diag. reflexivity.
Qed.

Lemma bind_report_duplicates {B : Type} (duplicates : list cell)
    (k : unit -> script B) (w : world) :
  bind (report_duplicates duplicates) k w =
  match duplicates_warning duplicates with
  | Some dups => k tt {| heap := heap w; screen := screen w ++ dups |}
  | None => (Raise TypeError, w)
  end.
Proof.
  unfold report_duplicates, duplicates_warning.
  destruct (0 <? length duplicates)%nat.
  - destruct (join_items duplicates); reflexivity.
  - rewrite bind_ret, app_nil_r. destruct w; reflexivity.
Qed.

Lemma bind_report_failures {B : Type} (coerced : list LongRow)
    (original_values : list cell) (failed_mask : list bool)
    (k : unit -> script B) (w : world) :
  bind (report_failures coerced original_values failed_mask) k w =
  k tt {| heap := heap w;
          screen := screen w ++
            (if any failed_mask
             then [final_warning (failed_rows_of coerced original_values failed_mask)]
             else []) |}.
Proof.
  unfold report_failures. destruct (any failed_mask).
  - reflexivity.
  - rewrite bind_ret, app_nil_r. destruct w; reflexivity.
Qed.

(** A run of [process_dataframe] on a live raw table returns and prints
    what [pipeline] says, puts the frame it returns in a new object, and
    leaves every object that was on the heap as it was. *)
Lemma process_dataframe_run (df_raw : ref) (raw : DataFrame) (w : world) :
  heap w !! df_raw = Some (OWide raw) ->
  exists w',
    process_dataframe df_raw w =
      (match fst (pipeline raw) with
       | Return _ => Return (S (length (heap w)))
       | Stop => Stop
       | Raise e => Raise e
       end, w') /\
    screen w' = screen w ++ snd (pipeline raw) /\
    (forall rows, fst (pipeline raw) = Return rows ->
       heap w' !! S (length (heap w)) = Some (OLong rows)) /\
    (forall i, i < length (heap w) -> heap w' !! i = heap w !! i).
Proof.
  intros Hraw. unfold process_dataframe, pipeline.
  rewrite (bind_read_wide df_raw raw) by exact Hraw.
  destruct (DataFrame_empty raw).
  { rewrite bind_st_print. unfold st_stop. halted. }
  unfold DataFrame_copy. rewrite bind_bind.
  rewrite (bind_read_wide df_raw raw) by exact Hraw.
  rewrite bind_alloc.
  rewrite (bind_read_wide _ raw) by apply lookup_newest.
  cbv zeta.
  destruct (0 <? length _)%nat.
  { rewrite bind_st_print. unfold st_stop. halted. }
  rewrite bind_report_duplicates. cbn [heap screen].
  destruct (duplicates_warning _) as [dups|].
  2:{ halted. }
  unfold rename_inplace. rewrite bind_bind.
  rewrite (bind_read_wide _ raw) by apply lookup_newest.
  rewrite bind_write. cbn [heap screen]. rewrite insert_newest.
  unfold melt. rewrite bind_bind.
  rewrite (bind_read_wide _ (rename (cleaned_colnames_map raw) raw))
    by apply lookup_newest.
  rewrite bind_bind.
  fold (cleaned_colnames_map raw). fold (value_vars_cleaned raw).
  fold (long_form raw).
  destruct (long_form raw) as [melted | | e].
  2:{ unfold bind, lift. halted. }
  2:{ unfold bind, lift. halted. }
  rewrite bind_lift_Return, bind_alloc. cbn [heap screen].
  set (h1 := heap w ++ [OWide (rename (cleaned_colnames_map raw) raw)]).
  rewrite (bind_read_long _ melted) by apply lookup_newest.
  rewrite bind_write. cbn [heap screen]. rewrite insert_newest.
  rewrite (bind_read_long _ (coerce melted)) by apply lookup_newest.
  rewrite bind_report_failures. cbn [heap screen].
  fold (failed_mask_of melted). fold (failed_rows melted).
  set (fails := if any (failed_mask_of melted) then _ else _).
  unfold dropna_inplace. rewrite bind_bind.
  rewrite (bind_read_long _ (coerce melted)) by apply lookup_newest.
  rewrite bind_write. cbn [heap screen]. rewrite insert_newest.
  set (kept := List.filter _ (coerce melted)).
  unfold to_numeric_year_inplace. rewrite bind_bind.
  rewrite (bind_read_long _ kept) by apply lookup_newest.
  destruct (to_numeric_labels (map year kept)) as [years|].
  2:{ unfold bind, raise. halted. }
  rewrite bind_write. cbn [heap screen]. rewrite insert_newest.
  unfold assign_label_inplace. rewrite bind_bind.
  rewrite (bind_read_long _ (assign set_year kept years)) by apply lookup_newest.
  cbv zeta.
  destruct (str_add_series _ _) as [labels|].
  2:{ unfold bind, raise. halted. }
  rewrite bind_write. cbn [heap screen]. rewrite insert_newest.
  unfold ret. eexists. split.
  { cbn [fst]. unfold h1. rewrite length_app. cbn [length].
    rewrite Nat.add_1_r. reflexivity. }
  cbn [heap screen fst snd]. split; [rewrite app_assoc; reflexivity|]. split.
  - intros rows Hrows. injection Hrows as <-.
    replace (S (length (heap w))) with (length h1)
      by (unfold h1; rewrite length_app; cbn [length]; lia).
    apply lookup_newest.
  - unfold h1. older.
Qed.

(** Seen from its caller, the script is the dataflow. *)
Lemma normalize_pipeline (raw : DataFrame) : normalize raw = pipeline raw.
Proof.
  unfold normalize. rewrite bind_alloc. cbn [heap screen length app].
  destruct (process_dataframe_run 0 raw {| heap := [OWide raw]; screen := [] |} eq_refl)
    as (w' & Hrun & Hscreen & Hrows & _).
  unfold bind at 1. rewrite Hrun.
  destruct (pipeline raw) as [[rows | | e] msgs];
    cbn [fst snd heap screen length app] in *.
  - unfold read_long. rewrite (Hrows rows eq_refl). rewrite Hscreen. reflexivity.
  - rewrite Hscreen. reflexivity.
  - rewrite Hscreen. reflexivity.
Qed.

(* ===================================================================== *)
(** ** Labels and the renaming dict *)
(* ===================================================================== *)

Lemma label_eqb_eq (a b : label) : label_eqb a b = true <-> a = b.
Proof.
  destruct a as [s | x], b as [t | y]; cbn; split; intros H;
    try discriminate; try congruence.
  - apply String.eqb_eq in H. congruence.
  - injection H as ->. apply String.eqb_refl.
  - apply Z.eqb_eq in H. congruence.
  - injection H as ->. apply Z.eqb_refl.
Qed.

Lemma label_eqb_refl (a : label) : label_eqb a a = true.
Proof. apply label_eqb_eq. reflexivity. Qed.

Lemma label_eqb_neq (a b : label) : label_eqb a b = false <-> a <> b.
Proof.
  rewrite <- label_eqb_eq. destruct (label_eqb a b); split; congruence.
Qed.

Lemma label_eqb_sym (a b : label) : label_eqb a b = label_eqb b a.
Proof.
  destruct (label_eqb b a) eqn:E.
  - apply label_eqb_eq in E. subst. apply label_eqb_refl.
  - apply label_eqb_neq. apply label_eqb_neq in E. congruence.
Qed.

Lemma label_in_In (l : label) (ls : list label) : label_in l ls = true <-> In l ls.
Proof.
  unfold label_in. rewrite existsb_exists. split.
  - intros (x & Hx & E). apply label_eqb_eq in E. subst. exact Hx.
  - intros H. exists l. split; [exact H | apply label_eqb_refl].
Qed.

Lemma label_in_not_In (l : label) (ls : list label) : label_in l ls = false <-> ~ In l ls.
Proof.
  rewrite <- label_in_In. destruct (label_in l ls); split; congruence.
Qed.

Lemma dict_get_set (d : list (label * Z)) (k : label) (v : Z) (l : label) :
  dict_get (dict_set d k v) l = if label_eqb k l then Some v else dict_get d l.
Proof.
  induction d as [| [k' v'] d IH]; cbn.
  - reflexivity.
  - destruct (label_eqb k' k) eqn:E; cbn.
    + apply label_eqb_eq in E. subst k'. destruct (label_eqb k l); reflexivity.
    + rewrite IH. destruct (label_eqb k' l) eqn:E'; [|reflexivity].
      apply label_eqb_eq in E'. subst k'. rewrite label_eqb_sym, E. reflexivity.
Qed.

Lemma dict_set_Forall (P : label * Z -> Prop) (d : list (label * Z)) (k : label) (v : Z) :
  Forall P d -> P (k, v) -> Forall P (dict_set d k v).
Proof.
  intros Hd Hk. induction Hd as [| [k' v'] d Hx Hd IH]; cbn.
  - constructor; [exact Hk | constructor].
  - destruct (label_eqb k' k) eqn:E.
    + apply label_eqb_eq in E. subst k'. constructor; assumption.
    + constructor; assumption.
Qed.

Lemma dict_get_In (d : list (label * Z)) (k : label) (v : Z) :
  dict_get d k = Some v -> In (k, v) d.
Proof.
  induction d as [| [k' v'] d IH]; cbn; [discriminate|].
  destruct (label_eqb k' k) eqn:E.
  - intros [= ->]. apply label_eqb_eq in E. subst. left. reflexivity.
  - intros H. right. apply IH, H.
Qed.

(** The dict of line 72 maps a label to its year exactly when the label
    is one of the value columns and has a digit. *)
Lemma dict_get_cleaned_from (vv : list label) (d : list (label * Z)) (l : label) :
  dict_get
    (fold_left
       (fun d col =>
          if nonempty (re_sub_nondigit (str col))
          then dict_set d col (int (re_sub_nondigit (str col)))
          else d) vv d) l =
  if label_in l vv && nonempty (re_sub_nondigit (str l))
  then Some (normalized_year l) else dict_get d l.
Proof.
  revert d. induction vv as [| col vv IH]; intros d; cbn [fold_left].
  - reflexivity.
  - rewrite IH. cbn [label_in existsb]. fold (label_in l vv).
    destruct (label_in l vv && nonempty (re_sub_nondigit (str l))) eqn:E.
    + apply andb_true_iff in E as [-> ->]. rewrite orb_true_r. reflexivity.
    + destruct (label_eqb l col) eqn:El.
      * apply label_eqb_eq in El. subst col. cbn [orb andb].
        destruct (nonempty (re_sub_nondigit (str l))) eqn:En.
        -- rewrite dict_get_set, label_eqb_refl. reflexivity.
        -- reflexivity.
      * cbn [orb]. rewrite E.
        destruct (nonempty (re_sub_nondigit (str col))); [|reflexivity].
        rewrite dict_get_set. rewrite label_eqb_sym, El. reflexivity.
Qed.

Lemma label_in_value_vars (ids labels : list label) (l : label) :
  label_in l (value_vars_of ids labels) = label_in l labels && negb (label_in l ids).
Proof.
  unfold value_vars_of.
  destruct (label_in l (List.filter _ labels)) eqn:E.
  - apply label_in_In, filter_In in E as [Hin Hid].
    apply label_in_In in Hin. rewrite Hin, Hid. reflexivity.
  - apply label_in_not_In in E. symmetry. apply andb_false_iff.
    destruct (label_in l labels) eqn:Hin; [|left; reflexivity]. right.
    destruct (label_in l ids) eqn:Hid; [reflexivity|]. exfalso. apply E.
    apply filter_In. split; [apply label_in_In, Hin | rewrite Hid; reflexivity].
Qed.

Lemma dict_get_cleaned (raw : DataFrame) (l : label) :
  dict_get (cleaned_colnames_map raw) l =
  if label_in l (columns raw) && is_year_column l
  then Some (normalized_year l) else None.
Proof.
  unfold cleaned_colnames_map, cleaned_colnames_map_of.
  rewrite dict_get_cleaned_from, label_in_value_vars. unfold is_year_column.
  rewrite andb_assoc. reflexivity.
Qed.

Lemma rename_label_cleaned (raw : DataFrame) (l : label) :
  In l (columns raw) ->
  rename_label (cleaned_colnames_map raw) l =
  if is_year_column l then LInt (normalized_year l) else l.
Proof.
  intros Hin. unfold rename_label. rewrite dict_get_cleaned.
  apply label_in_In in Hin. rewrite Hin. cbn [andb].
  destruct (is_year_column l); reflexivity.
Qed.

(** Every entry of the dict is a year column of the table with its
    year. *)
Lemma cleaned_colnames_map_entries (raw : DataFrame) :
  Forall (fun kv => In (fst kv) (columns raw) /\ is_year_column (fst kv) = true /\
                    snd kv = normalized_year (fst kv))
         (cleaned_colnames_map raw).
Proof.
  unfold cleaned_colnames_map, cleaned_colnames_map_of.
  set (P := fun kv : label * Z => _).
  assert (Hvv : forall col, In col (value_vars_of REQUIRED_COLS (columns raw)) ->
            In col (columns raw) /\ label_in col REQUIRED_COLS = false).
  { intros col H. apply filter_In in H as [H1 H2]. split; [exact H1|].
    apply negb_true_iff, H2. }
  revert Hvv. generalize (value_vars_of REQUIRED_COLS (columns raw)) as vv.
  assert (Hnil : Forall P []) by constructor. revert Hnil.
  generalize (@nil (label * Z)) as d.
  intros d Hd vv. revert d Hd.
  induction vv as [| col vv IH]; intros d Hd Hvv; cbn [fold_left]; [exact Hd|].
  apply IH.
  - destruct (nonempty (re_sub_nondigit (str col))) eqn:En; [|exact Hd].
    apply dict_set_Forall; [exact Hd|].
    destruct (Hvv col (or_introl eq_refl)) as [H1 H2].
    unfold P, is_year_column. cbn [fst snd]. rewrite H2, En. auto.
  - intros c Hc. apply Hvv. right. exact Hc.
Qed.

Lemma cleaned_colnames_map_complete (raw : DataFrame) (l : label) :
  In l (columns raw) -> is_year_column l = true ->
  In (l, normalized_year l) (cleaned_colnames_map raw).
Proof.
  intros Hin Hy. apply dict_get_In. rewrite dict_get_cleaned.
  apply label_in_In in Hin. rewrite Hin, Hy. reflexivity.
Qed.

(** An integer label always has a digit, so it is always a year
    column. *)
Lemma is_year_column_LInt (z : Z) : is_year_column (LInt z) = true.
Proof.
  unfold is_year_column. cbn [label_in existsb REQUIRED_COLS label_eqb negb orb andb].
  cbn [str]. destruct z as [| p | p]; cbn [Z.to_int NilZero.string_of_int].
  - reflexivity.
  - unfold NilZero.string_of_uint.
    destruct (Pos.to_uint p); reflexivity.
  - unfold NilZero.string_of_uint.
    destruct (Pos.to_uint p); reflexivity.
Qed.

Lemma is_year_column_not_required (l : label) :
  is_year_column l = true -> ~ In l REQUIRED_COLS.
Proof.
  unfold is_year_column. intros H. apply andb_true_iff in H as [H _].
  apply negb_true_iff in H. apply label_in_not_In, H.
Qed.

(* ===================================================================== *)
(** ** Positions, [algos.unique] and [iloc] *)
(* ===================================================================== *)

Lemma In_positions_from (i : nat) (labels : list label) (t : label) (p : nat) :
  In p (positions_from i labels t) <->
  exists k, p = i + k /\ labels !! k = Some t.
Proof.
  revert i. induction labels as [| l labels IH]; intros i; cbn [positions_from].
  - split; [intros [] | intros (k & _ & H); discriminate].
  - destruct (label_eqb l t) eqn:E.
    + apply label_eqb_eq in E. subst l. cbn [In]. rewrite IH. split.
      * intros [<- | (k & -> & H)].
        -- exists 0. split; [lia | reflexivity].
        -- exists (S k). split; [lia | exact H].
      * intros ([| k] & -> & H).
        -- left. lia.
        -- right. exists k. split; [lia | exact H].
    + apply label_eqb_neq in E. rewrite IH. split.
      * intros (k & -> & H). exists (S k). split; [lia | exact H].
      * intros ([| k] & -> & H).
        -- cbn in H. congruence.
        -- exists k. split; [lia | exact H].
Qed.

Lemma positions_from_map (f : label -> label) (i : nat) (labels : list label) (t : label) :
  (forall l, In l labels -> label_eqb (f l) t = label_eqb l t) ->
  positions_from i (map f labels) t = positions_from i labels t.
Proof.
  revert i. induction labels as [| l labels IH]; intros i H; cbn; [reflexivity|].
  rewrite (H l (or_introl eq_refl)).
  rewrite IH by (intros l' Hl'; apply H; right; exact Hl').
  reflexivity.
Qed.

Lemma positions_from_absent (i : nat) (labels : list label) (t : label) :
  ~ In t labels -> positions_from i labels t = [].
Proof.
  revert i. induction labels as [| l labels IH]; intros i H; cbn; [reflexivity|].
  destruct (label_eqb l t) eqn:E.
  - apply label_eqb_eq in E. subst. exfalso. apply H. left. reflexivity.
  - apply IH. intros Hin. apply H. right. exact Hin.
Qed.

(** In a table without repeated labels a label has one position. *)
Lemma positions_from_NoDup (i : nat) (labels : list label) (t : label) (p : nat) :
  List.NoDup labels -> labels !! p = Some t ->
  positions_from i labels t = [i + p].
Proof.
  revert i p. induction labels as [| l labels IH]; intros i p Hnd Hp; [discriminate|].
  apply List.NoDup_cons_iff in Hnd as [Hl Hnd]. cbn [positions_from].
  destruct p as [| p]; cbn in Hp.
  - injection Hp as ->. rewrite label_eqb_refl.
    rewrite positions_from_absent by exact Hl. f_equal. lia.
  - destruct (label_eqb l t) eqn:E.
    + apply label_eqb_eq in E. subst l. exfalso. apply Hl.
      apply list_elem_of_In. eapply list_elem_of_lookup_2. exact Hp.
    + rewrite (IH (S i) p Hnd Hp). f_equal. lia.
Qed.

Lemma In_algos_unique (idx : list nat) (p : nat) :
  In p (algos_unique idx) <-> In p idx.
Proof.
  induction idx as [| i idx IH]; cbn [algos_unique In]; [reflexivity|].
  rewrite filter_In, IH. split.
  - intros [H | [H _]]; auto.
  - intros [H | H]; [left; exact H|].
    destruct (Nat.eq_dec i p) as [-> | Hne]; [left; reflexivity|].
    right. split; [exact H|]. apply negb_true_iff, Nat.eqb_neq, Hne.
Qed.

Lemma NoDup_algos_unique (idx : list nat) : List.NoDup (algos_unique idx).
Proof.
  induction idx as [| i idx IH]; cbn [algos_unique]; constructor.
  - rewrite filter_In. intros [_ H]. rewrite Nat.eqb_refl in H. discriminate.
  - apply List.NoDup_filter, IH.
Qed.

Lemma algos_unique_NoDup (idx : list nat) : List.NoDup idx -> algos_unique idx = idx.
Proof.
  induction 1 as [| i idx Hi Hnd IH]; cbn [algos_unique]; [reflexivity|].
  rewrite IH. f_equal. apply forallb_filter_id. apply forallb_forall.
  intros j Hj. apply negb_true_iff, Nat.eqb_neq. intros ->. exact (Hi Hj).
Qed.

Lemma filter_filter_and {A : Type} (f g : A -> bool) (l : list A) :
  List.filter f (List.filter g l) = List.filter (fun x => g x && f x) l.
Proof.
  induction l as [| x l IH]; cbn; [reflexivity|].
  destruct (g x); cbn; [destruct (f x); rewrite IH; reflexivity | exact IH].
Qed.

Lemma algos_unique_app (a b : list nat) :
  algos_unique (a ++ b) =
  algos_unique a ++
  List.filter (fun j => negb (existsb (Nat.eqb j) a)) (algos_unique b).
Proof.
  induction a as [| i a IH]; cbn [app algos_unique existsb].
  - symmetry. apply forallb_filter_id. apply forallb_forall. reflexivity.
  - rewrite IH, List.filter_app, filter_filter_and. f_equal. f_equal.
    apply List.filter_ext. intros j. rewrite negb_orb, andb_comm.
    f_equal. f_equal. apply Nat.eqb_sym.
Qed.

Lemma iloc_app (cs : list (label * list cell)) (a b : list nat) :
  iloc cs (a ++ b) = iloc cs a ++ iloc cs b.
Proof. unfold iloc. apply flat_map_app. Qed.

Lemma In_iloc (cs : list (label * list cell)) (idx : list nat) (c : label * list cell) :
  In c (iloc cs idx) <-> exists p, In p idx /\ cs !! p = Some c.
Proof.
  unfold iloc. rewrite in_flat_map. split.
  - intros (p & Hp & H). exists p. split; [exact Hp|].
    destruct (cs !! p); cbn in H; [|contradiction].
    destruct H as [-> | []]. reflexivity.
  - intros (p & Hp & H). exists p. split; [exact Hp|]. rewrite H. left. reflexivity.
Qed.

Lemma iloc_map (f : label * list cell -> label * list cell)
    (cs : list (label * list cell)) (idx : list nat) :
  iloc (map f cs) idx = map f (iloc cs idx).
Proof.
  unfold iloc. induction idx as [| p idx IH]; cbn [flat_map]; [reflexivity|].
  rewrite map_app, IH. f_equal. rewrite list_lookup_fmap.
  destruct (cs !! p); reflexivity.
Qed.

(* ===================================================================== *)
(** ** What [melt] makes of the renamed table *)
(* ===================================================================== *)

Lemma In_lookup {A : Type} (x : A) (l : list A) :
  In x l -> exists p, l !! p = Some x.
Proof. intros H. apply list_elem_of_lookup_1, list_elem_of_In, H. Qed.

Lemma lookup_In {A : Type} (x : A) (l : list A) (p : nat) :
  l !! p = Some x -> In x l.
Proof. intros H. apply list_elem_of_In. eapply list_elem_of_lookup_2, H. Qed.

Lemma columns_lookup (df : DataFrame) (p : nat) (l : label) :
  columns df !! p = Some l <-> exists data, cols df !! p = Some (l, data).
Proof.
  unfold columns. rewrite list_lookup_fmap. split.
  - destruct (cols df !! p) as [[l' data]|]; cbn; [|discriminate].
    intros [= ->]. exists data. reflexivity.
  - intros (data & ->). reflexivity.
Qed.

Lemma getitem_lookup (cs : list (label * list cell)) (p : nat) (t : label) (data : list cell) :
  List.NoDup (map fst cs) -> cs !! p = Some (t, data) -> getitem cs t = data.
Proof.
  revert p. induction cs as [| [l d] cs IH]; intros p Hnd Hp; [discriminate|].
  cbn [map fst] in Hnd. apply List.NoDup_cons_iff in Hnd as [Hl Hnd].
  cbn [getitem]. destruct p as [| p]; cbn in Hp.
  - injection Hp as -> ->. rewrite label_eqb_refl. reflexivity.
  - destruct (label_eqb l t) eqn:E.
    + apply label_eqb_eq in E. subst l. exfalso. apply Hl.
      apply in_map_iff. exists (t, data). split; [reflexivity|].
      eapply lookup_In, Hp.
    + eapply IH; eassumption.
Qed.

(** Renaming neither makes nor unmakes a label that is not a year
    column. *)
Lemma rename_label_eqb_other (raw : DataFrame) (l t : label) :
  In l (columns raw) -> is_year_column t = false ->
  label_eqb (rename_label (cleaned_colnames_map raw) l) t = label_eqb l t.
Proof.
  intros Hl Ht. rewrite rename_label_cleaned by exact Hl.
  destruct (is_year_column l) eqn:El; [|reflexivity].
  transitivity false.
  - apply label_eqb_neq. intros <-. rewrite is_year_column_LInt in Ht. discriminate.
  - symmetry. apply label_eqb_neq. intros ->. congruence.
Qed.

Lemma columns_rename (m : list (label * Z)) (raw : DataFrame) :
  columns (rename m raw) = map (rename_label m) (columns raw).
Proof. unfold columns, rename. cbn [cols]. rewrite !map_map. reflexivity. Qed.

Lemma existsb_map_ext {A : Type} (f : A -> A) (g : A -> bool) (ls : list A) :
  (forall l, In l ls -> g (f l) = g l) ->
  existsb g (map f ls) = existsb g ls.
Proof.
  induction ls as [| l ls IH]; intros H; cbn; [reflexivity|].
  rewrite (H l (or_introl eq_refl)), IH; [reflexivity|].
  intros l' Hl'. apply H. right. exact Hl'.
Qed.

Lemma label_in_rename_other (raw : DataFrame) (t : label) :
  is_year_column t = false ->
  label_in t (columns (rename (cleaned_colnames_map raw) raw)) = label_in t (columns raw).
Proof.
  intros Ht. rewrite columns_rename. unfold label_in. apply existsb_map_ext.
  intros l Hl. rewrite label_eqb_sym, rename_label_eqb_other by assumption.
  apply label_eqb_sym.
Qed.

Lemma positions_rename_other (raw : DataFrame) (t : label) (p : nat) :
  List.NoDup (columns raw) -> is_year_column t = false ->
  columns raw !! p = Some t ->
  positions_from 0 (columns (rename (cleaned_colnames_map raw) raw)) t = [p].
Proof.
  intros Hnd Ht Hp. rewrite columns_rename, positions_from_map.
  - apply (positions_from_NoDup 0 _ _ p Hnd Hp).
  - intros l Hl. apply rename_label_eqb_other; assumption.
Qed.

(** The positions [melt] finds for the year labels: those of the year
    columns of the raw table. *)
Lemma year_positions (raw : DataFrame) (p : nat) :
  In p (get_indexer_for (columns (rename (cleaned_colnames_map raw) raw))
          (value_vars_cleaned raw)) <->
  exists c, cols raw !! p = Some c /\ is_year_column (fst c) = true.
Proof.
  unfold get_indexer_for, value_vars_cleaned. rewrite in_flat_map. split.
  - intros (t & Ht & Hp). apply in_map_iff in Ht as ([k y] & <- & Hky).
    cbn [snd] in Hp. apply In_positions_from in Hp as (q & -> & Hq).
    cbn [Nat.add]. rewrite columns_rename, list_lookup_fmap in Hq.
    destruct (columns raw !! q) as [l|] eqn:Hl; [|discriminate].
    cbn in Hq. injection Hq as Hq.
    apply columns_lookup in Hl as Hc. destruct Hc as (data & Hc).
    exists (l, data). split; [exact Hc|]. cbn [fst].
    rewrite rename_label_cleaned in Hq by (eapply lookup_In, Hl).
    destruct (is_year_column l) eqn:El; [reflexivity|].
    subst l. rewrite is_year_column_LInt in El. discriminate.
  - intros ([l data] & Hc & Hy). cbn [fst] in Hy.
    assert (Hl : columns raw !! p = Some l) by (apply columns_lookup; eauto).
    assert (Hin : In l (columns raw)) by (eapply lookup_In, Hl).
    exists (LInt (normalized_year l)). split.
    + apply in_map_iff. exists (l, normalized_year l). split; [reflexivity|].
      apply cleaned_colnames_map_complete; assumption.
    + apply In_positions_from. exists p. split; [reflexivity|].
      rewrite columns_rename, list_lookup_fmap, Hl. cbn.
      rewrite rename_label_cleaned, Hy by exact Hin. reflexivity.
Qed.

Lemma filter_id_Forall {A : Type} (f : A -> bool) (l : list A) :
  Forall (fun x => f x = true) l -> List.filter f l = l.
Proof.
  intros H. apply forallb_filter_id. apply forallb_forall.
  apply List.Forall_forall. exact H.
Qed.

(** The three identifier columns are there when line 59 finds none
    missing. *)
Lemma required_present (raw : DataFrame) :
  List.filter (fun col => negb (label_in col (columns raw))) REQUIRED_COLS = [] ->
  In (LStr "表单") (columns raw) /\
  In (LStr "指标名称") (columns raw) /\
  In (LStr "单位") (columns raw).
Proof.
  unfold REQUIRED_COLS. cbn [List.filter].
  destruct (label_in (LStr "表单") (columns raw)) eqn:E1; cbn [negb]; [|discriminate].
  destruct (label_in (LStr "指标名称") (columns raw)) eqn:E2; cbn [negb]; [|discriminate].
  destruct (label_in (LStr "单位") (columns raw)) eqn:E3; cbn [negb]; [|discriminate].
  intros _. repeat split; apply label_in_In; assumption.
Qed.

Lemma pop_all_front (front rest : list (label * list cell)) :
  List.NoDup (map fst front) ->
  Forall (fun c => ~ In (fst c) (map fst front)) rest ->
  pop_all (front ++ rest) (map fst front) = (map snd front, rest).
Proof.
  revert rest. induction front as [| [t d] front IH]; intros rest Hnd Hrest.
  - reflexivity.
  - cbn [map fst snd] in *. apply List.NoDup_cons_iff in Hnd as [Ht Hnd].
    cbn [pop_all pop app getitem List.filter fst]. rewrite label_eqb_refl.
    cbn [negb]. rewrite List.filter_app.
    rewrite (filter_id_Forall _ front), (filter_id_Forall _ rest).
    + rewrite IH; [reflexivity | exact Hnd |].
      eapply List.Forall_impl; [|exact Hrest]. cbn. intros c Hc Hin. apply Hc. right. exact Hin.
    + eapply List.Forall_impl; [|exact Hrest]. cbn. intros c Hc.
      apply negb_true_iff, label_eqb_neq. intros E. apply Hc. left. congruence.
    + apply List.Forall_forall. intros c Hc.
      apply negb_true_iff, label_eqb_neq. intros E. apply Ht.
      apply in_map_iff. exists c. split; [exact E | exact Hc].
Qed.

Lemma NoDup_REQUIRED_COLS : List.NoDup REQUIRED_COLS.
Proof.
  unfold REQUIRED_COLS. repeat constructor; cbn [In]; intros H;
    repeat (destruct H as [H | H]; [discriminate H|]); exact H.
Qed.

(** The long frame of line 77.  On a well-formed table with its three
    identifier columns and no column called 数值, [melt] stacks the year
    columns, each once: [vpos] lists their positions in the order
    [melt] takes them. *)
Lemma long_form_Return (raw : DataFrame) :
  well_formed raw ->
  List.filter (fun col => negb (label_in col (columns raw))) REQUIRED_COLS = [] ->
  label_in value_name (columns raw) = false ->
  exists vpos,
    List.NoDup vpos /\
    (forall p, In p vpos <->
       exists c, cols raw !! p = Some c /\ is_year_column (fst c) = true) /\
    long_form raw =
      Return (melt_rows (nrows raw)
                [getitem (cols raw) (LStr "表单");
                 getitem (cols raw) (LStr "指标名称");
                 getitem (cols raw) (LStr "单位")] 0
                (map (fun c => (LInt (normalized_year (fst c)), snd c))
                     (iloc (cols raw) vpos))).
Proof.
  intros [Hnd Hlen] Hreq Hval.
  destruct (required_present raw Hreq) as (H1 & H2 & H3).
  destruct (In_lookup _ _ H1) as (p1 & Hp1).
  destruct (In_lookup _ _ H2) as (p2 & Hp2).
  destruct (In_lookup _ _ H3) as (p3 & Hp3).
  set (raw' := rename (cleaned_colnames_map raw) raw).
  set (vpos := algos_unique (get_indexer_for (columns raw') (value_vars_cleaned raw))).
  exists vpos. split; [apply NoDup_algos_unique|]. split.
  { intros p. unfold vpos. rewrite In_algos_unique. apply year_positions. }
  unfold long_form, melt_frame. fold raw'.
  unfold raw' at 1. rewrite label_in_rename_other by reflexivity. rewrite Hval.
  assert (P1 : positions_from 0 (columns raw') (LStr "表单") = [p1])
    by (apply positions_rename_other; auto).
  assert (P2 : positions_from 0 (columns raw') (LStr "指标名称") = [p2])
    by (apply positions_rename_other; auto).
  assert (P3 : positions_from 0 (columns raw') (LStr "单位") = [p3])
    by (apply positions_rename_other; auto).
  destruct (existsb _ (REQUIRED_COLS ++ value_vars_cleaned raw)) eqn:Ekey.
  { exfalso. apply existsb_exists in Ekey as (t & Ht & Hz).
    apply Nat.eqb_eq in Hz. apply in_app_or in Ht as [Ht | Ht].
    - cbn in Ht. destruct Ht as [<- | [<- | [<- | []]]];
        [rewrite P1 in Hz | rewrite P2 in Hz | rewrite P3 in Hz]; discriminate.
    - apply in_map_iff in Ht as ([k y] & <- & Hky). cbn [snd] in Hz.
      pose proof (cleaned_colnames_map_entries raw) as Hent.
      rewrite List.Forall_forall in Hent.
      destruct (Hent _ Hky) as (Hk & Hyk & Hy). cbn [fst snd] in *.
      destruct (In_lookup _ _ Hk) as (q & Hq).
      assert (Hin : In q (positions_from 0 (columns raw') (LInt y))).
      { apply In_positions_from. exists q. split; [reflexivity|].
        unfold raw'. rewrite columns_rename, list_lookup_fmap, Hq. cbn.
        rewrite rename_label_cleaned, Hyk, Hy by exact Hk. reflexivity. }
      destruct (positions_from 0 (columns raw') (LInt y)); [destruct Hin | discriminate]. }
  unfold get_indexer_for. rewrite flat_map_app.
  cbn [REQUIRED_COLS flat_map]. rewrite P1, P2, P3. cbn [app].
  fold (get_indexer_for (columns raw') (value_vars_cleaned raw)).
  change (p1 :: p2 :: p3 :: get_indexer_for (columns raw') (value_vars_cleaned raw))
    with ([p1; p2; p3] ++ get_indexer_for (columns raw') (value_vars_cleaned raw)).
  rewrite algos_unique_app. fold vpos.
  apply columns_lookup in Hp1 as Hc1. destruct Hc1 as (d1 & Hc1).
  apply columns_lookup in Hp2 as Hc2. destruct Hc2 as (d2 & Hc2).
  apply columns_lookup in Hp3 as Hc3. destruct Hc3 as (d3 & Hc3).
  assert (Hids : List.NoDup [p1; p2; p3]).
  { repeat constructor; cbn [In]; intros H;
      repeat (destruct H as [H | H]; [subst; congruence|]); exact H. }
  rewrite (algos_unique_NoDup _ Hids).
  assert (Hyear : forall j, In j vpos ->
            exists c, cols raw !! j = Some c /\ is_year_column (fst c) = true).
  { intros j Hj. unfold vpos in Hj. rewrite In_algos_unique in Hj.
    apply year_positions, Hj. }
  rewrite (filter_id_Forall _ vpos).
  2:{ apply List.Forall_forall. intros j Hj.
      destruct (Hyear j Hj) as (c & Hc & Hy).
      apply negb_true_iff. cbn [existsb].
      repeat (apply orb_false_iff; split); try reflexivity;
        apply Nat.eqb_neq; intros ->; rewrite Hc in *;
        match goal with H : Some c = Some _ |- _ => injection H as -> end;
        discriminate Hy. }
  rewrite iloc_app. unfold raw' at 1 2, rename. cbn [cols nrows].
  rewrite !iloc_map. unfold iloc at 1. cbn [flat_map].
  rewrite Hc1, Hc2, Hc3. cbn [app map fst snd].
  rewrite !rename_label_cleaned by (eapply lookup_In; eassumption).
  change (is_year_column (LStr "表单")) with false.
  change (is_year_column (LStr "指标名称")) with false.
  change (is_year_column (LStr "单位")) with false.
  cbv iota.
  rewrite (map_ext_in _ (fun c => (LInt (normalized_year (fst c)), snd c))).
  2:{ intros c Hc. apply In_iloc in Hc as (j & Hj & Hc).
      destruct (Hyear j Hj) as (c' & Hc' & Hy). rewrite Hc in Hc'.
      injection Hc' as <-. rewrite rename_label_cleaned, Hy; [reflexivity|].
      apply in_map_iff. exists c. split; [reflexivity | eapply lookup_In, Hc]. }
  set (V := map _ (iloc (cols raw) vpos)).
  change ([(LStr "表单", d1); (LStr "指标名称", d2); (LStr "单位", d3)] ++ V)
    with ([(LStr "表单", d1); (LStr "指标名称", d2); (LStr "单位", d3)] ++ V).
  pose proof (pop_all_front
                [(LStr "表单", d1); (LStr "指标名称", d2); (LStr "单位", d3)] V
                NoDup_REQUIRED_COLS) as Hpop.
  cbn [map fst snd] in Hpop. fold REQUIRED_COLS in Hpop.
  cbn [app] in Hpop. rewrite Hpop.
  - rewrite (getitem_lookup _ _ _ _ Hnd Hc1), (getitem_lookup _ _ _ _ Hnd Hc2),
      (getitem_lookup _ _ _ _ Hnd Hc3). reflexivity.
  - apply List.Forall_forall. intros c Hc. unfold V in Hc.
    apply in_map_iff in Hc as (c0 & <- & _). cbn [fst In].
    intros H; repeat (destruct H as [H | H]; [discriminate H|]); exact H.
Qed.

(* ===================================================================== *)
(** ** The rows of the long frame *)
(* ===================================================================== *)

Lemma map_add_seq (start k n : nat) :
  map (fun i => start + i) (seq k n) = seq (start + k) n.
Proof.
  revert k. induction n as [| n IH]; intros k; cbn; [reflexivity|].
  f_equal. rewrite IH. f_equal. lia.
Qed.

Lemma melt_rows_index (n : nat) (ids : list (list cell)) (start : nat)
    (value_cols : list (label * list cell)) :
  map row_index (melt_rows n ids start value_cols) =
  seq start (n * length value_cols).
Proof.
  revert start. induction value_cols as [| [var data] vs IH]; intros start.
  - cbn. rewrite Nat.mul_0_r. reflexivity.
  - cbn [melt_rows length]. rewrite map_app, IH, map_map. cbn [melt_row row_index].
    replace (n * S (length vs)) with (n + n * length vs) by lia.
    rewrite seq_app. f_equal. rewrite map_add_seq. f_equal. lia.
Qed.

Lemma melt_rows_length (n : nat) (ids : list (list cell)) (start : nat)
    (value_cols : list (label * list cell)) :
  length (melt_rows n ids start value_cols) = n * length value_cols.
Proof.
  rewrite <- (length_map row_index), melt_rows_index. apply length_seq.
Qed.

Lemma In_melt_rows (n : nat) (ids : list (list cell)) (start : nat)
    (value_cols : list (label * list cell)) (row : LongRow) :
  In row (melt_rows n ids start value_cols) <->
  exists k var data i,
    value_cols !! k = Some (var, data) /\ i < n /\
    row = melt_row ids var data (start + k * n) i.
Proof.
  revert start. induction value_cols as [| [var data] vs IH]; intros start.
  - cbn. split; [intros [] | intros (k & ? & ? & ? & H & _); discriminate].
  - cbn [melt_rows]. rewrite in_app_iff, in_map_iff, IH. split.
    + intros [(i & <- & Hi) | (k & var' & data' & i & Hk & Hi & ->)].
      * apply in_seq in Hi. exists 0, var, data, i.
        split; [reflexivity|]. split; [lia|]. f_equal. lia.
      * exists (S k), var', data', i. split; [exact Hk|]. split; [exact Hi|].
        f_equal. lia.
    + intros ([| k] & var' & data' & i & Hk & Hi & ->).
      * cbn in Hk. injection Hk as <- <-. left. exists i.
        split; [f_equal; lia | apply in_seq; lia].
      * right. exists k, var', data', i. split; [exact Hk|]. split; [exact Hi|].
        f_equal. lia.
Qed.

(** The values of the long frame are the cells of the stacked columns,
    column after column. *)
Lemma melt_rows_values (n : nat) (ids : list (list cell)) (start : nat)
    (value_cols : list (label * list cell)) :
  Forall (fun c => length (snd c) = n) value_cols ->
  map value (melt_rows n ids start value_cols) = concat (map snd value_cols).
Proof.
  intros H. revert start. induction H as [| [var data] vs Hc Hvs IH]; intros start.
  - reflexivity.
  - cbn [melt_rows map concat snd]. rewrite map_app, IH, map_map. f_equal.
    cbn [melt_row value snd] in *. subst n. clear.
    induction data as [| c data IHd]; [reflexivity|].
    cbn [length seq map nth]. f_equal.
    rewrite <- seq_shift, map_map. exact IHd.
Qed.

(* ===================================================================== *)
(** ** Masks, coercion and the failed rows *)
(* ===================================================================== *)

Lemma assign_map {A : Type} (set : LongRow -> A -> LongRow) (f : LongRow -> A)
    (rows : list LongRow) :
  assign set rows (map f rows) = map (fun row => set row (f row)) rows.
Proof.
  unfold assign. induction rows as [| row rows IH]; cbn; [reflexivity|].
  f_equal. exact IH.
Qed.

Lemma coerce_map (melted : list LongRow) : coerce melted = map coerce_row melted.
Proof.
  unfold coerce. rewrite map_map.
  apply (assign_map set_value (fun row => to_numeric (value row))).
Qed.

Lemma failed_mask_map (melted : list LongRow) :
  failed_mask_of melted = map failed melted.
Proof.
  unfold failed_mask_of, mask_and. rewrite coerce_map, !map_map.
  induction melted as [| row rows IH]; cbn; [reflexivity|].
  f_equal. exact IH.
Qed.

Lemma boolean_index_map {A B : Type} (f : A -> B) (g : A -> bool) (l : list A) :
  boolean_index (map f l) (map g l) = map f (List.filter g l).
Proof.
  induction l as [| x l IH]; cbn; [reflexivity|].
  destruct (g x); cbn; rewrite IH; reflexivity.
Qed.

Lemma combine_map {A B C : Type} (f : A -> B) (g : A -> C) (l : list A) :
  combine (map f l) (map g l) = map (fun x => (f x, g x)) l.
Proof. induction l as [| x l IH]; cbn; [reflexivity | f_equal; exact IH]. Qed.

Lemma any_map {A : Type} (g : A -> bool) (l : list A) :
  any (map g l) = existsb g l.
Proof. unfold any. induction l as [| x l IH]; cbn; [reflexivity | rewrite IH; reflexivity]. Qed.

(** The rows of line 94: the failed rows of the long frame in order,
    each coerced row next to its original value. *)
Lemma failed_rows_map (melted : list LongRow) :
  failed_rows melted =
  map (fun row => (coerce_row row, value row)) (List.filter failed melted).
Proof.
  unfold failed_rows, failed_rows_of.
  rewrite failed_mask_map, coerce_map, !boolean_index_map. apply combine_map.
Qed.

(** The rows that line 113 keeps. *)
Lemma dropna_map (melted : list LongRow) :
  List.filter (fun row => notna (value row)) (coerce melted) =
  map coerce_row (List.filter survives melted).
Proof.
  rewrite coerce_map. induction melted as [| row rows IH]; cbn; [reflexivity|].
  unfold survives at 1. destruct (notna (to_numeric (value row))); cbn; rewrite IH; reflexivity.
Qed.

Lemma to_numeric_labels_Some (ls years : list label) :
  to_numeric_labels ls = Some years -> years = ls.
Proof.
  revert years. induction ls as [| l ls IH]; intros years; cbn.
  - intros [= <-]. reflexivity.
  - destruct l as [s | z]; cbn; [discriminate|].
    destruct (to_numeric_labels ls) as [ys|]; [|discriminate].
    intros [= <-]. f_equal. apply IH. reflexivity.
Qed.

Lemma set_year_same (rows : list LongRow) : assign set_year rows (map year rows) = rows.
Proof.
  rewrite (assign_map set_year year). rewrite <- (map_id rows) at 2. apply map_ext.
  intros []. reflexivity.
Qed.

Lemma str_add_series_length (texts : list string) (cells labels : list cell) :
  length texts = length cells ->
  str_add_series texts cells = Some labels -> length labels = length cells.
Proof.
  revert cells labels. induction texts as [| t texts IH]; intros [| c cells] labels Hlen;
    cbn; try discriminate.
  - intros [= <-]. reflexivity.
  - destruct (str_add t c); [|discriminate].
    destruct (str_add_series texts cells) as [ls|] eqn:E; [|discriminate].
    intros [= <-]. cbn. f_equal. apply (IH cells); [|exact E].
    cbn in Hlen. lia.
Qed.

(** Adding the column 标签 leaves every other field of every row. *)
Lemma assign_label_Forall2 (rows : list LongRow) (labels : list cell) :
  length labels = length rows ->
  Forall2 (fun row row0 => exists l, row = set_label row0 l)
          (assign set_label rows labels) rows.
Proof.
  unfold assign. revert labels. induction rows as [| row rows IH]; intros [| l labels] Hlen;
    cbn in *; try discriminate; constructor.
  - exists l. reflexivity.
  - apply IH. lia.
Qed.

Lemma Forall2_map_r {A B C : Type} (P : A -> C -> Prop) (f : B -> C)
    (l : list A) (k : list B) :
  Forall2 P l (map f k) -> Forall2 (fun x y => P x (f y)) l k.
Proof.
  revert l. induction k as [| y k IH]; intros l H; inversion H; subst; constructor.
  - assumption.
  - apply IH. assumption.
Qed.

(* ===================================================================== *)
(** ** A run that returns *)
(* ===================================================================== *)

Lemma long_form_ValueError (raw : DataFrame) :
  label_in value_name (columns raw) = true -> long_form raw = Raise ValueError.
Proof.
  intros H. unfold long_form, melt_frame.
  rewrite label_in_rename_other by reflexivity. rewrite H. reflexivity.
Qed.

(** What a returning run computed: the long frame stacks the year
    columns at some positions [vpos], the output holds the rows that
    survive, coerced and labelled, and the report is the warning on the
    duplicates followed by the warning on the failed rows. *)
Lemma normalize_Return (raw : DataFrame) (out : list LongRow) (report : list message) :
  well_formed raw ->
  normalize raw = (Return out, report) ->
  exists vpos dups,
    List.NoDup vpos /\
    (forall p, In p vpos <->
       exists c, cols raw !! p = Some c /\ is_year_column (fst c) = true) /\
    long_form raw = Return (stacked raw vpos) /\
    0 < nrows raw /\
    duplicates_warning (duplicates_of (getitem (cols raw) (LStr "指标名称"))) = Some dups /\
    Forall2 (fun row row0 => exists l, row = set_label (coerce_row row0) l)
            out (List.filter survives (stacked raw vpos)) /\
    report = dups ++
      (if existsb failed (stacked raw vpos)
       then [final_warning (failed_rows (stacked raw vpos))] else []).
Proof.
  intros Hwf. rewrite normalize_pipeline. unfold pipeline.
  destruct (DataFrame_empty raw) eqn:Hempty; [discriminate|].
  destruct (0 <? length _)%nat eqn:Hmiss; [discriminate|].
  apply Nat.ltb_ge in Hmiss.
  assert (Hreq : List.filter (fun col => negb (label_in col (columns raw))) REQUIRED_COLS = []).
  { destruct (List.filter _ REQUIRED_COLS); [reflexivity | cbn in Hmiss; lia]. }
  destruct (duplicates_warning _) as [dups|] eqn:Hdups; [|discriminate].
  destruct (label_in value_name (columns raw)) eqn:Hval.
  { rewrite (long_form_ValueError raw Hval). discriminate. }
  destruct (long_form_Return raw Hwf Hreq Hval) as (vpos & Hnd & Hpos & Hlong).
  fold (stacked raw vpos) in Hlong. rewrite Hlong.
  rewrite dropna_map.
  destruct (to_numeric_labels _) as [years|] eqn:Hyears; [|discriminate].
  apply to_numeric_labels_Some in Hyears. subst years. rewrite set_year_same.
  destruct (str_add_series _ _) as [labels|] eqn:Hlabels; [|discriminate].
  intros [= <- <-]. exists vpos, dups.
  split; [exact Hnd|]. split; [exact Hpos|]. split; [reflexivity|].
  split.
  { unfold DataFrame_empty in Hempty. apply orb_false_iff in Hempty as [H _].
    apply Nat.eqb_neq in H. lia. }
  split; [reflexivity|]. split.
  - apply (Forall2_map_r (fun row row0 => exists l, row = set_label row0 l) coerce_row).
    apply assign_label_Forall2.
    apply str_add_series_length in Hlabels; [|rewrite !length_map; reflexivity].
    rewrite Hlabels, length_map. reflexivity.
  - rewrite failed_mask_map, any_map. reflexivity.
Qed.

(* ===================================================================== *)
(** ** The long frame, cell by cell *)
(* ===================================================================== *)

Lemma iloc_lookup (cs : list (label * list cell)) (idx : list nat) (k : nat) :
  (forall p, In p idx -> exists c, cs !! p = Some c) ->
  iloc cs idx !! k =
  match idx !! k with
  | Some p => cs !! p
  | None => None
  end.
Proof.
  revert k. induction idx as [| p idx IH]; intros k H; [reflexivity|].
  destruct (H p (or_introl eq_refl)) as (c & Hc).
  unfold iloc. cbn [flat_map]. rewrite Hc. cbn [app].
  destruct k as [| k]; cbn; [symmetry; exact Hc|].
  apply IH. intros q Hq. apply H. right. exact Hq.
Qed.

(** The rows of the long frame are the cells of the year columns: the
    row of raw row [i] in the [k]-th column taken has index
    [k * nrows + i]. *)
Lemma In_stacked (raw : DataFrame) (vpos : list nat) (row : LongRow) :
  (forall p, In p vpos -> exists c, cols raw !! p = Some c) ->
  In row (stacked raw vpos) <->
  exists k p l data i,
    vpos !! k = Some p /\ cols raw !! p = Some (l, data) /\
    i < nrows raw /\ row = long_row raw k l data i.
Proof.
  intros Hpos. unfold stacked. rewrite In_melt_rows. split.
  - intros (k & var & data & i & Hk & Hi & ->).
    rewrite list_lookup_fmap, iloc_lookup in Hk by exact Hpos.
    destruct (vpos !! k) as [p|] eqn:Hp; [|discriminate].
    destruct (cols raw !! p) as [[l d]|] eqn:Hc; [|discriminate].
    cbn in Hk. injection Hk as <- <-.
    exists k, p, l, d, i. repeat split; try assumption.
  - intros (k & p & l & data & i & Hk & Hc & Hi & ->).
    exists k, (LInt (normalized_year l)), data, i.
    rewrite list_lookup_fmap, iloc_lookup, Hk, Hc by exact Hpos.
    repeat split. exact Hi.
Qed.

Lemma NoDup_iloc (cs : list (label * list cell)) (idx : list nat) :
  List.NoDup cs -> List.NoDup idx ->
  (forall p, In p idx -> exists c, cs !! p = Some c) ->
  List.NoDup (iloc cs idx).
Proof.
  intros Hcs Hidx. induction Hidx as [| p idx Hp Hidx IH]; intros H.
  - constructor.
  - destruct (H p (or_introl eq_refl)) as (c & Hc).
    unfold iloc. cbn [flat_map]. rewrite Hc. cbn [app]. constructor.
    + intros Hin. apply In_iloc in Hin as (q & Hq & Hcq).
      apply NoDup_ListNoDup in Hcs.
      pose proof (NoDup_lookup _ _ _ _ Hcs Hc Hcq). subst q. exact (Hp Hq).
    + apply IH. intros q Hq. apply H. right. exact Hq.
Qed.

(** [melt] takes every year column once: the columns it stacks are the
    year columns of the raw table in some order. *)
Lemma iloc_year_columns (raw : DataFrame) (vpos : list nat) :
  well_formed raw -> List.NoDup vpos ->
  (forall p, In p vpos <->
     exists c, cols raw !! p = Some c /\ is_year_column (fst c) = true) ->
  Permutation (iloc (cols raw) vpos) (year_columns raw).
Proof.
  intros [Hnd _] Hvpos Hpos.
  assert (Hcs : List.NoDup (cols raw)) by (eapply NoDup_map_inv; exact Hnd).
  apply Permutation.NoDup_Permutation.
  - apply NoDup_iloc; [exact Hcs | exact Hvpos |].
    intros p Hp. apply Hpos in Hp as (c & Hc & _). eauto.
  - apply List.NoDup_filter, Hcs.
  - intros c. unfold year_columns. rewrite In_iloc, filter_In. split.
    + intros (p & Hp & Hc). apply Hpos in Hp as (c' & Hc' & Hy).
      rewrite Hc in Hc'. injection Hc' as <-. split; [eapply lookup_In, Hc | exact Hy].
    + intros [Hin Hy]. destruct (In_lookup _ _ Hin) as (p & Hp).
      exists p. split; [|exact Hp]. apply Hpos. eauto.
Qed.

Lemma Permutation_filter_length {A : Type} (f : A -> bool) (l l' : list A) :
  Permutation l l' -> length (List.filter f l) = length (List.filter f l').
Proof.
  induction 1 as [| x l l' _ IH | x y l | l l' l'' _ IH1 _ IH2]; cbn.
  - reflexivity.
  - destruct (f x); cbn; rewrite IH; reflexivity.
  - destruct (f x), (f y); reflexivity.
  - rewrite IH1. exact IH2.
Qed.

Lemma filter_map_length {A B : Type} (f : B -> bool) (g : A -> B) (l : list A) :
  length (List.filter f (map g l)) = length (List.filter (fun x => f (g x)) l).
Proof.
  induction l as [| x l IH]; cbn; [reflexivity|].
  destruct (f (g x)); cbn; rewrite IH; reflexivity.
Qed.

(** The values of the long frame are the cells of the year columns, up
    to the order of the columns. *)
Lemma stacked_values (raw : DataFrame) (vpos : list nat) :
  well_formed raw -> List.NoDup vpos ->
  (forall p, In p vpos <->
     exists c, cols raw !! p = Some c /\ is_year_column (fst c) = true) ->
  Permutation (map value (stacked raw vpos)) (year_cells raw).
Proof.
  intros Hwf Hvpos Hpos. unfold stacked. rewrite melt_rows_values.
  - rewrite map_map. cbn [snd]. unfold year_cells.
    rewrite <- !flat_map_concat_map. apply Permutation_flat_map.
    apply iloc_year_columns; assumption.
  - apply List.Forall_forall. intros c Hc.
    apply in_map_iff in Hc as (c0 & <- & Hc0). cbn [snd].
    apply In_iloc in Hc0 as (p & _ & Hc0). destruct Hwf as [_ Hlen].
    rewrite List.Forall_forall in Hlen. apply Hlen. eapply lookup_In, Hc0.
Qed.

Lemma stacked_length (raw : DataFrame) (vpos : list nat) :
  well_formed raw -> List.NoDup vpos ->
  (forall p, In p vpos <->
     exists c, cols raw !! p = Some c /\ is_year_column (fst c) = true) ->
  length (stacked raw vpos) = nrows raw * length (year_columns raw).
Proof.
  intros Hwf Hvpos Hpos. unfold stacked. rewrite melt_rows_length, length_map.
  f_equal. apply Permutation_length, iloc_year_columns; assumption.
Qed.

Lemma filter_length_eq_iff {A : Type} (f : A -> bool) (l : list A) :
  length (List.filter f l) = length l <-> forall x, In x l -> f x = true.
Proof.
  split.
  - intros H. apply forallb_forall, filter_length_forallb, H.
  - intros H. rewrite forallb_filter_id; [reflexivity|]. apply forallb_forall, H.
Qed.

Lemma survives_coercible (c : cell) :
  notna (to_numeric c) = true <-> isna c = false /\ coercion_failure c = false.
Proof.
  unfold coercion_failure, notna. destruct c as [| x | s]; cbn.
  - split; [discriminate | intros [H _]; discriminate].
  - split; auto.
  - destruct (parse_float s); cbn; split; auto. intros [_ H]. discriminate.
Qed.

Lemma firstn_In {A : Type} (n : nat) (l : list A) (x : A) :
  In x (firstn n l) -> In x l.
Proof.
  revert l. induction n as [| n IH]; intros [| y l]; cbn; try contradiction.
  intros [-> | H]; [left; reflexivity | right; apply IH, H].
Qed.

Lemma duplicates_warning_inv (duplicates : list cell) (dups : list message) :
  duplicates_warning duplicates = Some dups ->
  (duplicates = [] /\ dups = []) \/
  (exists items,
     duplicates <> [] /\ join_items duplicates = Some items /\
     dups = [warning_duplicates items]).
Proof.
  unfold duplicates_warning. destruct duplicates as [| d ds].
  - cbn. intros [= <-]. left. split; reflexivity.
  - cbn [length Nat.ltb Nat.leb]. destruct (join_items (d :: ds)) as [items|]; [|discriminate].
    intros [= <-]. right. exists items. repeat split. discriminate.
Qed.

Lemma failed_value (row : LongRow) : failed row = coercion_failure (value row).
Proof. reflexivity. Qed.

(** The failed rows of the long frame are as many as the cells that
    fail. *)
Lemma failed_count (raw : DataFrame) (vpos : list nat) :
  well_formed raw -> List.NoDup vpos ->
  (forall p, In p vpos <->
     exists c, cols raw !! p = Some c /\ is_year_column (fst c) = true) ->
  length (List.filter failed (stacked raw vpos)) = failure_count raw.
Proof.
  intros Hwf Hnd Hpos. unfold failure_count.
  rewrite <- (Permutation_filter_length _ _ _ (stacked_values raw vpos Hwf Hnd Hpos)).
  rewrite filter_map_length. reflexivity.
Qed.

Lemma existsb_filter {A : Type} (f : A -> bool) (l : list A) :
  existsb f l = (0 <? length (List.filter f l))%nat.
Proof.
  induction l as [| x l IH]; cbn; [reflexivity|].
  destruct (f x); cbn; [reflexivity | exact IH].
Qed.

(** A cell of a year column has its row in the long frame. *)
Lemma year_cell_stacked (raw : DataFrame) (vpos : list nat) (p i : nat) (l : label) (c : cell) :
  (forall p, In p vpos <->
     exists c, cols raw !! p = Some c /\ is_year_column (fst c) = true) ->
  year_cell raw p i l c ->
  exists k data,
    vpos !! k = Some p /\ cols raw !! p = Some (l, data) /\ c = cell_at data i /\
    In (long_row raw k l data i) (stacked raw vpos).
Proof.
  intros Hpos (data & Hc & Hy & Hi & ->).
  assert (Hp : In p vpos) by (apply Hpos; exists (l, data); auto).
  destruct (In_lookup _ _ Hp) as (k & Hk).
  exists k, data. repeat split; try assumption.
  apply In_stacked.
  - intros q Hq. apply Hpos in Hq as (c & Hq & _). eauto.
  - exists k, p, l, data, i. repeat split; assumption.
Qed.

(** A row of the long frame is the row of a cell of a year column. *)
Lemma stacked_year_cell (raw : DataFrame) (vpos : list nat) (row : LongRow) :
  (forall p, In p vpos <->
     exists c, cols raw !! p = Some c /\ is_year_column (fst c) = true) ->
  In row (stacked raw vpos) ->
  exists k p l data i,
    vpos !! k = Some p /\ year_cell raw p i l (cell_at data i) /\
    cols raw !! p = Some (l, data) /\ row = long_row raw k l data i.
Proof.
  intros Hpos Hrow. apply In_stacked in Hrow.
  - destruct Hrow as (k & p & l & data & i & Hk & Hc & Hi & ->).
    exists k, p, l, data, i. repeat split; try assumption.
    exists data. repeat split; try assumption.
    apply lookup_In, Hpos in Hk as (c & Hc' & Hy). rewrite Hc in Hc'.
    injection Hc' as <-. exact Hy.
  - intros q Hq. apply Hpos in Hq as (c & Hq & _). eauto.
Qed.

Lemma Forall2_In_l {A B : Type} (P : A -> B -> Prop) (l : list A) (k : list B) (x : A) :
  Forall2 P l k -> In x l -> exists y, In y k /\ P x y.
Proof.
  induction 1 as [| a b l k Hab _ IH]; intros Hin; [destruct Hin|].
  destruct Hin as [<- | Hin].
  - exists b. split; [left; reflexivity | exact Hab].
  - destruct (IH Hin) as (y & Hy & Hxy). exists y. split; [right; exact Hy | exact Hxy].
Qed.

Lemma Forall2_In_r {A B : Type} (P : A -> B -> Prop) (l : list A) (k : list B) (y : B) :
  Forall2 P l k -> In y k -> exists x, In x l /\ P x y.
Proof.
  induction 1 as [| a b l k Hab _ IH]; intros Hin; [destruct Hin|].
  destruct Hin as [<- | Hin].
  - exists a. split; [left; reflexivity | exact Hab].
  - destruct (IH Hin) as (x & Hx & Hxy). exists x. split; [right; exact Hx | exact Hxy].
Qed.

Lemma to_numeric_notna (c : cell) :
  notna (to_numeric c) = true -> exists x, to_numeric c = Num x.
Proof.
  destruct (to_numeric c) as [| x | s] eqn:E; cbn; try discriminate.
  - intros _. exists x. reflexivity.
  - destruct c as [| y | t]; cbn in E; try discriminate.
    destruct (parse_float t); discriminate.
Qed.

(** Every row of the output is the row of a cell of a year column that
    the coercion turned into a number. *)
Lemma output_row_cell (raw : DataFrame) (out : list LongRow) (report : list message)
    (r : LongRow) :
  well_formed raw ->
  normalize raw = (Return out, report) ->
  In r out ->
  exists p i l c,
    year_cell raw p i l c /\ notna (to_numeric c) = true /\
    category r = category_of raw i /\
    indicator_name r = indicator_of raw i /\
    unit_ r = unit_of raw i /\
    year r = LInt (normalized_year l) /\
    value r = to_numeric c.
Proof.
  intros Hwf Hrun Hr.
  destruct (normalize_Return raw out report Hwf Hrun)
    as (vpos & dups & Hnd & Hpos & _ & _ & _ & Hout & _).
  destruct (Forall2_In_l _ _ _ _ Hout Hr) as (row0 & Hrow0 & lab & ->).
  apply filter_In in Hrow0 as [Hrow0 Hs].
  destruct (stacked_year_cell raw vpos row0 Hpos Hrow0)
    as (k & p & l & data & i & _ & Hcell & _ & ->).
  exists p, i, l, (cell_at data i). repeat split; try assumption.
Qed.




Lemma normalize_Return_required (raw : DataFrame) (out : list LongRow)
    (report : list message) :
  normalize raw = (Return out, report) ->
  In (LStr "表单") (columns raw) /\
  In (LStr "指标名称") (columns raw) /\
  In (LStr "单位") (columns raw).
Proof.
  rewrite normalize_pipeline. unfold pipeline.
  destruct (DataFrame_empty raw); [discriminate|].
  destruct (0 <? length _)%nat eqn:Hmiss; [discriminate|].
  intros _. apply required_present. apply Nat.ltb_ge in Hmiss.
  destruct (List.filter _ REQUIRED_COLS); [reflexivity | cbn in Hmiss; lia].
Qed.

(** A column that is present has [nrows] cells. *)
Lemma getitem_length (raw : DataFrame) (t : label) :
  well_formed raw -> In t (columns raw) ->
  length (getitem (cols raw) t) = nrows raw.
Proof.
  intros [Hnd Hlen] Hin. destruct (In_lookup _ _ Hin) as (p & Hp).
  apply columns_lookup in Hp as (data & Hp).
  rewrite (getitem_lookup _ _ _ _ Hnd Hp).
  rewrite List.Forall_forall in Hlen. apply (Hlen (t, data)). eapply lookup_In, Hp.
Qed.

Lemma NoDup_map_inj {A B : Type} (f : A -> B) (l : list A) (x y : A) :
  List.NoDup (map f l) -> In x l -> In y l -> f x = f y -> x = y.
Proof.
  induction l as [| a l IH]; cbn; intros Hnd Hx Hy E; [destruct Hx|].
  apply List.NoDup_cons_iff in Hnd as [Ha Hnd].
  destruct Hx as [-> | Hx], Hy as [-> | Hy].
  - reflexivity.
  - exfalso. apply Ha. rewrite E. apply in_map, Hy.
  - exfalso. apply Ha. rewrite <- E. apply in_map, Hx.
  - apply IH; assumption.
Qed.


(** The index labels of the long frame are pairwise distinct. *)
Lemma stacked_index_inj (raw : DataFrame) (vpos : list nat) (r1 r2 : LongRow) :
  In r1 (stacked raw vpos) -> In r2 (stacked raw vpos) ->
  row_index r1 = row_index r2 -> r1 = r2.
Proof.
  apply NoDup_map_inj. unfold stacked. rewrite melt_rows_index. apply List.seq_NoDup.
Qed.

Lemma vpos_lookup_inj (vpos : list nat) (k k' p : nat) :
  List.NoDup vpos -> vpos !! k = Some p -> vpos !! k' = Some p -> k = k'.
Proof.
  intros Hnd. apply NoDup_ListNoDup in Hnd. apply (NoDup_lookup vpos k k' p Hnd).
Qed.

(* ===================================================================== *)
(** ** Repeated indicator names *)
(* ===================================================================== *)

Lemma number_eqb_eq (x y : number) : number_eqb x y = true <-> x = y.
Proof.
  destruct x as [p | a], y as [q | b]; cbn; split; intros H; try discriminate.
  - apply Qeq_bool_iff, Qc_is_canon in H. congruence.
  - injection H as ->. apply Qeq_bool_iff. reflexivity.
  - apply Bool.eqb_prop in H. congruence.
  - injection H as ->. apply Bool.eqb_reflx.
Qed.

Lemma cell_eqb_eq (a b : cell) : cell_eqb a b = true <-> a = b.
Proof.
  destruct a as [| x | s], b as [| y | t]; cbn; split; intros H;
    try discriminate; try reflexivity.
  - apply number_eqb_eq in H. congruence.
  - injection H as ->. apply number_eqb_eq. reflexivity.
  - apply String.eqb_eq in H. congruence.
  - injection H as ->. apply String.eqb_refl.
Qed.

Lemma boolean_index_cons {A : Type} (x y : A) (b : bool) (s : list A) (mask : list bool) :
  In x (boolean_index s mask) -> In x (boolean_index (y :: s) (b :: mask)).
Proof. intros H. cbn. destruct b; [right; exact H | exact H]. Qed.

(** A value seen before is marked wherever it occurs again. *)
Lemma duplicated_seen (x : cell) (seen s : list cell) :
  In x seen -> In x s -> In x (boolean_index s (duplicated_from seen s)).
Proof.
  revert seen. induction s as [| y s IH]; intros seen Hseen Hs; [destruct Hs|].
  cbn [duplicated_from]. destruct Hs as [-> | Hs].
  - assert (E : existsb (cell_eqb x) seen = true).
    { apply existsb_exists. exists x. split; [exact Hseen | apply cell_eqb_eq; reflexivity]. }
    rewrite E. left. reflexivity.
  - apply boolean_index_cons, IH; [right; exact Hseen | exact Hs].
Qed.

(** A value that occurs at two positions is among the duplicated. *)
Lemma duplicated_twice (x : cell) (seen s : list cell) (i j : nat) :
  i < j -> s !! i = Some x -> s !! j = Some x ->
  In x (boolean_index s (duplicated_from seen s)).
Proof.
  revert seen i j. induction s as [| y s IH]; intros seen i j Hij Hi Hj; [discriminate|].
  cbn [duplicated_from]. destruct j as [| j]; [lia|]. cbn in Hj.
  apply boolean_index_cons. destruct i as [| i].
  - injection Hi as ->. apply duplicated_seen; [left; reflexivity | eapply lookup_In, Hj].
  - cbn in Hi. apply (IH _ i j); [lia | assumption | assumption].
Qed.

Lemma In_unique (x : cell) (s : list cell) : In x (unique s) <-> In x s.
Proof.
  induction s as [| y s IH]; cbn [unique In]; [reflexivity|].
  rewrite filter_In, IH. split.
  - intros [H | [H _]]; auto.
  - intros [H | H]; [left; exact H|].
    destruct (cell_eqb y x) eqn:E.
    + apply cell_eqb_eq in E. left. exact E.
    + right. split; [exact H | reflexivity].
Qed.

Lemma NoDup_unique (s : list cell) : List.NoDup (unique s).
Proof.
  induction s as [| y s IH]; cbn [unique]; constructor.
  - rewrite filter_In. intros [_ H].
    assert (E : cell_eqb y y = true) by (apply cell_eqb_eq; reflexivity).
    cbn beta in H. rewrite E in H. discriminate.
  - apply List.NoDup_filter, IH.
Qed.

Lemma join_items_Some (items : list cell) (texts : list string) :
  join_items items = Some texts -> items = map Str texts.
Proof.
  revert texts. induction items as [| c items IH]; intros texts; cbn.
  - intros [= <-]. reflexivity.
  - destruct c as [| x | s]; try discriminate.
    destruct (join_items items) as [l|]; [|discriminate].
    intros [= <-]. cbn. f_equal. apply IH. reflexivity.
Qed.

Lemma lookup_nth {A : Type} (l : list A) (i : nat) (d : A) :
  i < length l -> l !! i = Some (nth i l d).
Proof.
  revert i. induction l as [| x l IH]; intros i Hi; cbn in Hi; [lia|].
  destruct i as [| i]; cbn; [reflexivity|]. apply IH. lia.
Qed.

(* ===================================================================== *)
(** ** The properties of the specification *)
(* ===================================================================== *)

(** C4.  With N rows and M valid year columns in the raw table, the
    table that [normalize] returns has at most N * M rows, and it has
    exactly N * M rows if and only if no cell of the year columns is
    blank or fails the coercion. *)
Theorem row_count_bound (raw : DataFrame) (out : list LongRow) (report : list message) :
  well_formed raw ->
  normalize raw = (Return out, report) ->
  length out <= nrows raw * length (year_columns raw) /\
  (length out = nrows raw * length (year_columns raw) <->
   forall c, In c (year_cells raw) -> isna c = false /\ coercion_failure c = false).
Proof.
  intros Hwf Hrun.
  destruct (normalize_Return raw out report Hwf Hrun)
    as (vpos & dups & Hnd & Hpos & _ & _ & _ & Hout & _).
  pose proof (stacked_values raw vpos Hwf Hnd Hpos) as Hperm.
  pose proof (stacked_length raw vpos Hwf Hnd Hpos) as Hlen.
  assert (Hcount : length out =
            length (List.filter (fun c => notna (to_numeric c)) (year_cells raw))).
  { rewrite (Forall2_length _ _ _ Hout).
    rewrite <- (Permutation_filter_length _ _ _ Hperm).
    rewrite filter_map_length. reflexivity. }
  assert (Htotal : length (year_cells raw) = nrows raw * length (year_columns raw)).
  { rewrite <- (Permutation_length Hperm), length_map. exact Hlen. }
  rewrite Hcount, <- Htotal. split.
  - apply filter_length_le.
  - rewrite filter_length_eq_iff. split; intros H c Hc.
    + apply survives_coercible, H, Hc.
    + apply survives_coercible, H, Hc.
Qed.

(** C1 (amended).  The warning on the coercion failures names the
    failed cells one by one only up to five: when at most five cells of
    the year columns fail, each of them has its own entry with the
    indicator name, the normalized year and the original value; when
    more than five fail, the warning has exactly five entries, each the
    entry of a failed cell (the first five failed rows of the long
    frame), and the others are summarized by their number. *)
Theorem failures_named_up_to_five (raw : DataFrame) (out : list LongRow)
    (report : list message) :
  well_formed raw ->
  normalize raw = (Return out, report) ->
  (failure_count raw = 0 ->
   forall entries others, ~ In (warning_coercion entries others) report) /\
  (0 < failure_count raw ->
   exists entries melted,
     In (warning_coercion entries
           (if (5 <? failure_count raw)%nat
            then Some (failure_count raw - 5) else None)) report /\
     long_form raw = Return melted /\
     warning_coercion entries
       (if (5 <? failure_count raw)%nat
        then Some (failure_count raw - 5) else None) =
       final_warning (failed_rows melted) /\
     length entries = Nat.min 5 (failure_count raw) /\
     (forall e, In e entries ->
        exists p i l c,
          year_cell raw p i l c /\ coercion_failure c = true /\
          e = mkEntry (indicator_of raw i) (LInt (normalized_year l)) c) /\
     (failure_count raw <= 5 ->
      forall p i l c,
        year_cell raw p i l c -> coercion_failure c = true ->
        In (mkEntry (indicator_of raw i) (LInt (normalized_year l)) c) entries)).
Proof.
  intros Hwf Hrun.
  destruct (normalize_Return raw out report Hwf Hrun)
    as (vpos & dups & Hnd & Hpos & Hlong & _ & Hdups & _ & ->).
  pose proof (failed_count raw vpos Hwf Hnd Hpos) as HF.
  rewrite existsb_filter, HF.
  apply duplicates_warning_inv in Hdups.
  assert (Hdup : forall entries others, ~ In (warning_coercion entries others) dups).
  { intros es o Hin. destruct Hdups as [[_ ->] | (items & _ & _ & ->)].
    - destruct Hin.
    - destruct Hin as [Hin | []]. discriminate. }
  split.
  - intros H0. rewrite H0. cbn. intros es o Hin.
    rewrite app_nil_r in Hin. exact (Hdup es o Hin).
  - intros Hpos0. destruct (0 <? failure_count raw)%nat eqn:E;
      [|apply Nat.ltb_ge in E; lia].
    set (fr := failed_rows (stacked raw vpos)).
    assert (Hfr : fr = map (fun row => (coerce_row row, value row))
                         (List.filter failed (stacked raw vpos)))
      by apply failed_rows_map.
    assert (Hlen : length fr = failure_count raw)
      by (rewrite Hfr, length_map; exact HF).
    exists (map (fun p => mkEntry (indicator_name (fst p)) (year (fst p)) (snd p))
                (firstn 5 fr)), (stacked raw vpos).
    assert (Hfw : warning_coercion
              (map (fun p => mkEntry (indicator_name (fst p)) (year (fst p)) (snd p))
                   (firstn 5 fr))
              (if (5 <? failure_count raw)%nat
               then Some (failure_count raw - 5) else None) = final_warning fr).
    { unfold final_warning. rewrite Hlen. reflexivity. }
    split; [|split; [exact Hlong|split; [exact Hfw|split; [|split]]]].
    + apply in_or_app. right. rewrite Hfw. left. reflexivity.
    + rewrite length_map, length_firstn, Hlen. reflexivity.
    + intros e He. apply in_map_iff in He as ([row0 orig] & <- & Hin).
      apply firstn_In in Hin. rewrite Hfr in Hin.
      apply in_map_iff in Hin as (row & [= <- <-] & Hrow).
      apply filter_In in Hrow as [Hrow Hfail].
      destruct (stacked_year_cell raw vpos row Hpos Hrow)
        as (k & p & l & data & i & _ & Hcell & _ & ->).
      exists p, i, l, (cell_at data i). split; [exact Hcell|].
      split; [exact Hfail | reflexivity].
    + intros Hle p i l c Hcell Hfail.
      destruct (year_cell_stacked raw vpos p i l c Hpos Hcell)
        as (k & data & _ & _ & -> & Hin).
      rewrite firstn_all2 by lia. rewrite Hfr, map_map.
      apply in_map_iff. exists (long_row raw k l data i). split; [reflexivity|].
      apply filter_In. split; [exact Hin | exact Hfail].
Qed.


(** C3.  When two differently labelled columns normalize to the same
    year, both stay value columns under that year: every raw row has
    one row of the long frame for each of the two, with the cell of
    that column as its value, and when the two cells coerce, the output
    has a row for each, with the same indicator and the same year and
    each with its own value; nothing is merged. *)
Theorem same_year_columns_kept (raw : DataFrame) (out : list LongRow)
    (report : list message) (p q i : nat) (l1 l2 : label) (c1 c2 : cell) :
  well_formed raw ->
  normalize raw = (Return out, report) ->
  l1 <> l2 ->
  year_cell raw p i l1 c1 -> year_cell raw q i l2 c2 ->
  normalized_year l1 = normalized_year l2 ->
  (exists melted r1 r2,
     long_form raw = Return melted /\
     In r1 melted /\ In r2 melted /\ row_index r1 <> row_index r2 /\
     indicator_name r1 = indicator_of raw i /\
     indicator_name r2 = indicator_of raw i /\
     year r1 = LInt (normalized_year l1) /\ year r2 = LInt (normalized_year l1) /\
     value r1 = c1 /\ value r2 = c2) /\
  (notna (to_numeric c1) = true -> notna (to_numeric c2) = true ->
   exists r1 r2,
     In r1 out /\ In r2 out /\ row_index r1 <> row_index r2 /\
     category r1 = category_of raw i /\ category r2 = category_of raw i /\
     indicator_name r1 = indicator_of raw i /\
     indicator_name r2 = indicator_of raw i /\
     unit_ r1 = unit_of raw i /\ unit_ r2 = unit_of raw i /\
     year r1 = LInt (normalized_year l1) /\ year r2 = LInt (normalized_year l1) /\
     value r1 = to_numeric c1 /\ value r2 = to_numeric c2).
Proof.
  intros Hwf Hrun Hl Hcell1 Hcell2 Hy.
  destruct (normalize_Return raw out report Hwf Hrun)
    as (vpos & dups & Hnd & Hpos & Hlong & Hn & _ & Hout & _).
  destruct (year_cell_stacked raw vpos p i l1 c1 Hpos Hcell1)
    as (k1 & d1 & Hk1 & Hc1 & -> & Hin1).
  destruct (year_cell_stacked raw vpos q i l2 c2 Hpos Hcell2)
    as (k2 & d2 & Hk2 & Hc2 & -> & Hin2).
  assert (Hk : k1 <> k2).
  { intros ->. rewrite Hk1 in Hk2. injection Hk2 as ->.
    rewrite Hc1 in Hc2. injection Hc2 as -> _. apply Hl. reflexivity. }
  assert (Hidx : k1 * nrows raw + i <> k2 * nrows raw + i) by nia.
  split.
  - exists (stacked raw vpos), (long_row raw k1 l1 d1 i), (long_row raw k2 l2 d2 i).
    cbn [long_row row_index indicator_name year value]. rewrite <- Hy.
    repeat split; assumption.
  - intros Hs1 Hs2.
    assert (Hkeep1 : In (long_row raw k1 l1 d1 i) (List.filter survives (stacked raw vpos)))
      by (apply filter_In; split; assumption).
    assert (Hkeep2 : In (long_row raw k2 l2 d2 i) (List.filter survives (stacked raw vpos)))
      by (apply filter_In; split; assumption).
    destruct (Forall2_In_r _ _ _ _ Hout Hkeep1) as (r1 & Hr1 & lab1 & ->).
    destruct (Forall2_In_r _ _ _ _ Hout Hkeep2) as (r2 & Hr2 & lab2 & ->).
    eexists _, _. split; [exact Hr1|]. split; [exact Hr2|].
    cbn. rewrite <- Hy. repeat split. exact Hidx.
Qed.

(** C6.  A row of the long frame whose value cell is blank is dropped
    without a word: no row of the output carries its index, it is not
    among the failed rows from which the warning is written, and every
    entry of the warning has a raw value that is not blank.  Every cell
    of a year column has such a row in the long frame. *)
Theorem blank_cells_dropped_silently (raw : DataFrame) (out : list LongRow)
    (report : list message) :
  well_formed raw ->
  normalize raw = (Return out, report) ->
  exists melted,
    long_form raw = Return melted /\
    (forall p i l c,
       year_cell raw p i l c ->
       exists row,
         In row melted /\ value row = c /\
         indicator_name row = indicator_of raw i /\
         year row = LInt (normalized_year l)) /\
    (forall row,
       In row melted -> isna (value row) = true ->
       (forall r, In r out -> row_index r <> row_index row) /\
       (forall fr, In fr (failed_rows melted) -> row_index (fst fr) <> row_index row)) /\
    (forall entries others,
       In (warning_coercion entries others) report ->
       warning_coercion entries others = final_warning (failed_rows melted) /\
       forall e, In e entries -> isna (entry_raw e) = false).
Proof.
  intros Hwf Hrun.
  destruct (normalize_Return raw out report Hwf Hrun)
    as (vpos & dups & Hnd & Hpos & Hlong & Hn & Hdups & Hout & ->).
  exists (stacked raw vpos). split; [exact Hlong|]. split; [|split].
  - intros p i l c Hcell.
    destruct (year_cell_stacked raw vpos p i l c Hpos Hcell)
      as (k & data & _ & _ & -> & Hin).
    exists (long_row raw k l data i). repeat split. exact Hin.
  - intros row Hrow Hblank. split.
    + intros r Hr E.
      destruct (Forall2_In_l _ _ _ _ Hout Hr) as (row0 & Hrow0 & lab & ->).
      apply filter_In in Hrow0 as [Hrow0 Hs].
      cbn [set_label coerce_row set_value row_index] in E.
      rewrite (stacked_index_inj raw vpos row0 row Hrow0 Hrow E) in Hs.
      unfold survives in Hs. destruct (value row); cbn in *; discriminate.
    + intros fr Hfr E. rewrite failed_rows_map in Hfr.
      apply in_map_iff in Hfr as (row0 & <- & Hrow0).
      apply filter_In in Hrow0 as [Hrow0 Hf].
      cbn [fst coerce_row set_value row_index] in E.
      rewrite (stacked_index_inj raw vpos row0 row Hrow0 Hrow E) in Hf.
      unfold failed in Hf. destruct (value row); cbn in *; discriminate.
  - intros entries others Hw.
    apply duplicates_warning_inv in Hdups.
    apply in_app_or in Hw as [Hw | Hw].
    { destruct Hdups as [[_ ->] | (items & _ & _ & ->)]; [destruct Hw|].
      destruct Hw as [Hw | []]. discriminate. }
    destruct (existsb failed (stacked raw vpos)); [|destruct Hw].
    destruct Hw as [Hw | []]. split; [symmetry; exact Hw|].
    unfold final_warning in Hw. injection Hw as <- _.
    intros e He. apply in_map_iff in He as ([row0 orig] & <- & Hin).
    apply firstn_In in Hin. rewrite failed_rows_map in Hin.
    apply in_map_iff in Hin as (row & [= <- <-] & Hrow).
    apply filter_In in Hrow as [_ Hf]. cbn [entry_raw snd].
    unfold failed in Hf. apply andb_true_iff in Hf as [Hf _].
    unfold notna in Hf. apply negb_true_iff in Hf. exact Hf.
Qed.

(** C7 (amended).  Every row of the output is the row of one cell of
    a year column.  Its value is the number that this cell coerces to:
    never blank, finite or not.  Its category, indicator name and unit
    are the identifier cells of the raw row of this cell, as they are,
    blank when the raw cell is blank.  When every year of the table is
    below 2^63, so that line 116 keeps the years integers, its year is
    the integer that the label of the column of this cell normalizes
    to. *)
Theorem output_rows_have_values (raw : DataFrame) (out : list LongRow)
    (report : list message) (r : LongRow) :
  well_formed raw ->
  normalize raw = (Return out, report) ->
  In r out ->
  exists p i l c x,
    year_cell raw p i l c /\
    to_numeric c = Num x /\ value r = Num x /\
    category r = category_of raw i /\
    indicator_name r = indicator_of raw i /\
    unit_ r = unit_of raw i /\
    (Forall (fun col => (normalized_year (fst col) < 2 ^ 63)%Z) (year_columns raw) ->
     year r = LInt (normalized_year l) /\ (normalized_year l < 2 ^ 63)%Z).
Proof.
  intros Hwf Hrun Hr.
  destruct (output_row_cell raw out report r Hwf Hrun Hr)
    as (p & i & l & c & Hcell & Hs & Hcat & Hind & Hunit & Hyr & Hval).
  destruct (to_numeric_notna _ Hs) as (x & Hx).
  exists p, i, l, c, x. split; [exact Hcell|]. split; [exact Hx|].
  split; [congruence|]. split; [exact Hcat|]. split; [exact Hind|].
  split; [exact Hunit|]. intros Hbound. split; [exact Hyr|].
  destruct Hcell as (data & Hcol & Hy & _ & _).
  rewrite List.Forall_forall in Hbound. apply (Hbound (l, data)).
  apply filter_In. split; [|exact Hy]. apply (lookup_In _ _ p), Hcol.
Qed.

(** C10.  [process_dataframe] does not modify the raw table: whatever
    the run does, returning or halting, the object behind [df_raw] and
    every other object that was on the heap are after the run what they
    were before; the renaming and the reshaping happen on objects that
    the run itself creates. *)
Theorem input_not_modified (w w' : world) (df_raw : ref) (raw : DataFrame)
    (o : outcome ref) :
  heap w !! df_raw = Some (OWide raw) ->
  process_dataframe df_raw w = (o, w') ->
  heap w' !! df_raw = Some (OWide raw) /\
  (forall i, i < length (heap w) -> heap w' !! i = heap w !! i).
Proof.
  intros Hraw Hrun.
  destruct (process_dataframe_run df_raw raw w Hraw) as (w1 & Hrun1 & _ & _ & Hold).
  rewrite Hrun in Hrun1. injection Hrun1 as _ <-.
  split; [|exact Hold].
  rewrite Hold; [exact Hraw|]. eapply lookup_lt_Some, Hraw.
Qed.

(** X14.  When two raw rows bear the same indicator name and the run
    returns, the name is a text that the report lists exactly once, in
    its one warning on duplicates; and the rows are not merged: in
    every year column where their two cells coerce, each of the two raw
    rows has its own row in the output, with its own category, unit and
    value. *)
Theorem duplicate_name_listed_once (raw : DataFrame) (out : list LongRow)
    (report : list message) (i j : nat) (name : cell) :
  well_formed raw ->
  normalize raw = (Return out, report) ->
  i < j -> j < nrows raw ->
  indicator_of raw i = name -> indicator_of raw j = name ->
  (exists s items,
     name = Str s /\
     In (warning_duplicates items) report /\
     count_occ string_dec items s = 1 /\
     (forall items', In (warning_duplicates items') report -> items' = items)) /\
  (forall p l ci cj,
     year_cell raw p i l ci -> year_cell raw p j l cj ->
     notna (to_numeric ci) = true -> notna (to_numeric cj) = true ->
     exists ri rj,
       In ri out /\ In rj out /\ row_index ri <> row_index rj /\
       indicator_name ri = name /\ indicator_name rj = name /\
       year ri = LInt (normalized_year l) /\ year rj = LInt (normalized_year l) /\
       category ri = category_of raw i /\ category rj = category_of raw j /\
       unit_ ri = unit_of raw i /\ unit_ rj = unit_of raw j /\
       value ri = to_numeric ci /\ value rj = to_numeric cj).
Proof.
  intros Hwf Hrun Hij Hj Hi_name Hj_name.
  destruct (normalize_Return_required raw out report Hrun) as (_ & Hname & _).
  destruct (normalize_Return raw out report Hwf Hrun)
    as (vpos & dups & Hnd & Hpos & Hlong & Hn & Hdups & Hout & ->).
  split.
  - pose proof (getitem_length raw (LStr "指标名称") Hwf Hname) as Hlen.
    assert (Hin : In name (duplicates_of (getitem (cols raw) (LStr "指标名称")))).
    { unfold duplicates_of. apply In_unique.
      apply (duplicated_twice name [] _ i j Hij).
      - rewrite <- Hi_name. apply lookup_nth. lia.
      - rewrite <- Hj_name. apply lookup_nth. lia. }
    apply duplicates_warning_inv in Hdups.
    destruct Hdups as [[Hnil _] | (items & _ & Hjoin & ->)].
    { rewrite Hnil in Hin. destruct Hin. }
    apply join_items_Some in Hjoin.
    rewrite Hjoin in Hin. apply in_map_iff in Hin as (s & <- & Hs).
    exists s, items. split; [reflexivity|]. split; [left; reflexivity|]. split.
    + apply NoDup_count_occ'; [|exact Hs].
      apply (NoDup_map_inv Str). rewrite <- Hjoin. apply NoDup_unique.
    + intros items' Hin'. apply in_app_or in Hin' as [[Hin' | []] | Hin'].
      * congruence.
      * destruct (existsb failed (stacked raw vpos)); [|destruct Hin'].
        destruct Hin' as [Hin' | []]. discriminate.
  - intros p l ci cj Hcell_i Hcell_j Hsi Hsj.
    destruct (year_cell_stacked raw vpos p i l ci Hpos Hcell_i)
      as (k & di & Hk & Hci & -> & Hin_i).
    destruct (year_cell_stacked raw vpos p j l cj Hpos Hcell_j)
      as (k' & dj & Hk' & Hcj & -> & Hin_j).
    rewrite (vpos_lookup_inj vpos k' k p Hnd Hk' Hk) in *.
    assert (Hkeep_i : In (long_row raw k l di i) (List.filter survives (stacked raw vpos)))
      by (apply filter_In; split; assumption).
    assert (Hkeep_j : In (long_row raw k l dj j) (List.filter survives (stacked raw vpos)))
      by (apply filter_In; split; assumption).
    destruct (Forall2_In_r _ _ _ _ Hout Hkeep_i) as (ri & Hri & labi & ->).
    destruct (Forall2_In_r _ _ _ _ Hout Hkeep_j) as (rj & Hrj & labj & ->).
    eexists _, _. split; [exact Hri|]. split; [exact Hrj|].
    cbn. repeat split; try assumption. lia.
Qed.

(* ===================================================================== *)
(** ** How a run ends *)
(* ===================================================================== *)

Lemma melt_frame_not_Stop (frame : DataFrame) (id_vars value_vars : list label) :
  melt_frame frame id_vars value_vars <> Stop.
Proof.
  unfold melt_frame. destruct (label_in _ _); [discriminate|].
  destruct (existsb _ _); [discriminate|].
  destruct (pop_all _ _). discriminate.
Qed.

(** The script halts at [st.stop()] in two cases and no other: the
    table is empty, or a required column is missing; the error it
    prints says which. *)
Lemma normalize_Stop (raw : DataFrame) :
  (DataFrame_empty raw = true -> normalize raw = (Stop, [error_empty])) /\
  (DataFrame_empty raw = false ->
   List.filter (fun col => negb (label_in col (columns raw))) REQUIRED_COLS <> [] ->
   normalize raw =
     (Stop,
      [error_missing_cols
         (List.filter (fun col => negb (label_in col (columns raw))) REQUIRED_COLS)])) /\
  (fst (normalize raw) = Stop ->
   DataFrame_empty raw = true \/
   List.filter (fun col => negb (label_in col (columns raw))) REQUIRED_COLS <> []).
Proof.
  rewrite normalize_pipeline. unfold pipeline. split; [|split].
  - intros ->. reflexivity.
  - intros -> Hmiss.
    destruct (List.filter _ REQUIRED_COLS) as [| m ms]; [congruence|]. reflexivity.
  - destruct (DataFrame_empty raw); [left; reflexivity|].
    destruct (List.filter _ REQUIRED_COLS) as [| m ms]; [|right; discriminate].
    cbn [length Nat.ltb Nat.leb].
    destruct (duplicates_warning _); [|discriminate].
    unfold long_form.
    destruct (melt_frame _ _ _) eqn:E; cbn [fst].
    + destruct (to_numeric_labels _); [|discriminate].
      destruct (str_add_series _ _); discriminate.
    + exfalso. exact (melt_frame_not_Stop _ _ _ E).
    + discriminate.
Qed.

Lemma to_numeric_labels_LInt (ls : list label) :
  Forall (fun l => exists z, l = LInt z) ls -> to_numeric_labels ls = Some ls.
Proof.
  induction 1 as [| l ls (z & ->) _ IH]; cbn; [reflexivity|].
  rewrite IH. reflexivity.
Qed.

Lemma str_add_series_total (texts : list string) (cells : list cell) :
  Forall (fun c => forall x, c <> Num x) cells ->
  exists labels, str_add_series texts cells = Some labels.
Proof.
  intros H. revert texts. induction H as [| c cells Hc _ IH]; intros [| t texts]; cbn;
    try (eexists; reflexivity).
  destruct (IH texts) as (labels & ->).
  destruct c as [| x | s]; cbn; try (eexists; reflexivity).
  exfalso. exact (Hc x eq_refl).
Qed.

Lemma join_items_total (items : list cell) :
  Forall (fun c => exists s, c = Str s) items ->
  exists texts, join_items items = Some texts.
Proof.
  induction 1 as [| c items (s & ->) _ (texts & IH)]; cbn.
  - eexists. reflexivity.
  - rewrite IH. eexists. reflexivity.
Qed.

Lemma nth_Forall {A : Type} (P : A -> Prop) (l : list A) (i : nat) (d : A) :
  Forall P l -> P d -> P (nth i l d).
Proof.
  intros Hl Hd. revert i. induction Hl as [| x l Hx _ IH]; intros [| i]; cbn; auto.
Qed.

(** Data-quality findings do not stop a run.  On a well-formed table
    that is not empty and has its three identifier columns, the script
    returns a table and a report, whatever the year cells hold, as long
    as none of the three slips is met: the repeated indicator names are
    texts, no column is called 数值, and no unit cell is a number. *)
Lemma normalize_returns (raw : DataFrame) :
  well_formed raw ->
  DataFrame_empty raw = false ->
  List.filter (fun col => negb (label_in col (columns raw))) REQUIRED_COLS = [] ->
  Forall (fun c => exists s, c = Str s)
         (duplicates_of (getitem (cols raw) (LStr "指标名称"))) ->
  label_in value_name (columns raw) = false ->
  Forall (fun c => forall x, c <> Num x) (getitem (cols raw) (LStr "单位")) ->
  exists out report, normalize raw = (Return out, report).
Proof.
  intros Hwf Hempty Hreq Hdups Hval Hunits.
  rewrite normalize_pipeline. unfold pipeline. rewrite Hempty, Hreq.
  cbn [length Nat.ltb Nat.leb].
  assert (Hdw : exists dups,
            duplicates_warning (duplicates_of (getitem (cols raw) (LStr "指标名称"))) =
            Some dups).
  { unfold duplicates_warning. destruct (0 <? _)%nat; [|eexists; reflexivity].
    destruct (join_items_total _ Hdups) as (texts & ->). eexists. reflexivity. }
  destruct Hdw as (dups & ->).
  destruct (long_form_Return raw Hwf Hreq Hval) as (vpos & Hnd & Hpos & Hlong).
  fold (stacked raw vpos) in Hlong. rewrite Hlong, dropna_map.
  rewrite to_numeric_labels_LInt.
  2:{ apply List.Forall_forall. intros l Hl.
      apply in_map_iff in Hl as (row & <- & Hrow).
      apply in_map_iff in Hrow as (row0 & <- & Hrow0).
      apply filter_In in Hrow0 as [Hrow0 _].
      destruct (stacked_year_cell raw vpos row0 Hpos Hrow0)
        as (k & p & l & data & i & _ & _ & _ & ->).
      eexists. reflexivity. }
  rewrite set_year_same.
  destruct (str_add_series_total
              (map (fun row => (round2_astype_str (value row) ++ " ")%string)
                   (map coerce_row (List.filter survives (stacked raw vpos))))
              (map unit_ (map coerce_row (List.filter survives (stacked raw vpos)))))
    as (labels & ->).
  - apply List.Forall_forall. intros c Hc.
    apply in_map_iff in Hc as (row & <- & Hrow).
    apply in_map_iff in Hrow as (row0 & <- & Hrow0).
    apply filter_In in Hrow0 as [Hrow0 _].
    destruct (stacked_year_cell raw vpos row0 Hpos Hrow0)
      as (k & p & l & data & i & _ & _ & _ & ->).
    cbn [coerce_row set_value long_row unit_]. unfold unit_of, cell_at.
    apply nth_Forall; [exact Hunits | discriminate].
  - eexists _, _. reflexivity.
Qed.

(** A column that is not an identifier column and has no digit in its
    label is not among the columns that [melt] stacks, and no row of
    the output is a row of one of its cells: every row of the output
    carries the year of a label that has a digit. *)
Lemma digitless_column_not_stacked (raw : DataFrame) (out : list LongRow)
    (report : list message) (p : nat) (l : label) (data : list cell) :
  well_formed raw ->
  normalize raw = (Return out, report) ->
  cols raw !! p = Some (l, data) ->
  nonempty (re_sub_nondigit (str l)) = false ->
  (exists vpos,
     long_form raw = Return (stacked raw vpos) /\ ~ In p vpos) /\
  (forall r, In r out ->
     exists l', year r = LInt (normalized_year l') /\
                nonempty (re_sub_nondigit (str l')) = true) /\
  length out <= nrows raw * length (year_columns raw).
Proof.
  intros Hwf Hrun Hp Hdigit.
  destruct (normalize_Return raw out report Hwf Hrun)
    as (vpos & dups & Hnd & Hpos & Hlong & _ & _ & Hout & _).
  split; [|split].
  - exists vpos. split; [exact Hlong|]. intros Hin.
    apply Hpos in Hin as (c & Hc & Hy). rewrite Hp in Hc. injection Hc as <-.
    unfold is_year_column in Hy. cbn [fst] in Hy. rewrite Hdigit, andb_false_r in Hy.
    discriminate.
  - intros r Hr.
    destruct (output_row_cell raw out report r Hwf Hrun Hr)
      as (p' & i & l' & c & (d & _ & Hy & _) & _ & _ & _ & _ & Hyr & _).
    exists l'. split; [exact Hyr|].
    unfold is_year_column in Hy. apply andb_true_iff in Hy as [_ Hy]. exact Hy.
  - rewrite (Forall2_length _ _ _ Hout).
    rewrite <- (stacked_length raw vpos Hwf Hnd Hpos). apply filter_length_le.
Qed.

(* ===================================================================== *)
(** ** Further properties of [process_dataframe] *)
(* ===================================================================== *)

(** X1.  The script halts at [st.stop()] exactly when the table is
    empty or a required column is missing.  The emptiness check comes
    first: an empty table prints the one error on emptiness, whatever
    its columns; otherwise the one error printed lists the missing
    columns, which are exactly the required columns that the table
    lacks, in the order of [REQUIRED_COLS]. *)
Theorem fatal_halts (raw : DataFrame) :
  (fst (normalize raw) = Stop <->
   DataFrame_empty raw = true \/
   exists col, In col REQUIRED_COLS /\ ~ In col (columns raw)) /\
  (DataFrame_empty raw = true -> normalize raw = (Stop, [error_empty])) /\
  (DataFrame_empty raw = false ->
   (exists col, In col REQUIRED_COLS /\ ~ In col (columns raw)) ->
   exists missing,
     normalize raw = (Stop, [error_missing_cols missing]) /\
     missing = List.filter (fun col => negb (label_in col (columns raw))) REQUIRED_COLS /\
     forall col, In col missing <-> In col REQUIRED_COLS /\ ~ In col (columns raw)).
Proof.
  assert (Hmiss : forall col,
            In col (List.filter (fun col => negb (label_in col (columns raw))) REQUIRED_COLS) <->
            In col REQUIRED_COLS /\ ~ In col (columns raw)).
  { intros col. rewrite filter_In, negb_true_iff, label_in_not_In. reflexivity. }
  destruct (normalize_Stop raw) as (Hempty & Hmissing & Hstop).
  split; [split|split].
  - intros H. destruct (Hstop H) as [He | Hm]; [left; exact He|]. right.
    destruct (List.filter _ REQUIRED_COLS) as [| col cols'] eqn:E; [congruence|].
    exists col. apply Hmiss. left. reflexivity.
  - intros [He | (col & Hcol)].
    + rewrite (Hempty He). reflexivity.
    + destruct (DataFrame_empty raw) eqn:He; [rewrite (Hempty eq_refl); reflexivity|].
      rewrite (Hmissing eq_refl); [reflexivity|].
      intros E. apply Hmiss in Hcol. rewrite E in Hcol. destruct Hcol.
  - exact Hempty.
  - intros He (col & Hcol). eexists. split; [|split; [reflexivity | exact Hmiss]].
    apply (Hmissing He). intros E. apply Hmiss in Hcol. rewrite E in Hcol. destruct Hcol.
Qed.

Lemma join_items_texts (items : list cell) :
  (exists texts, join_items items = Some texts) <->
  Forall (fun c => exists s, c = Str s) items.
Proof.
  split; [|apply join_items_total].
  intros (texts & H). apply join_items_Some in H. subst items.
  apply List.Forall_forall. intros c Hc. apply in_map_iff in Hc as (s & <- & _). eauto.
Qed.

Lemma duplicates_warning_texts (duplicates : list cell) :
  (exists dups, duplicates_warning duplicates = Some dups) <->
  Forall (fun c => exists s, c = Str s) duplicates.
Proof.
  unfold duplicates_warning. destruct duplicates as [| d ds].
  - cbn. split; [constructor | eauto].
  - cbn [length Nat.ltb Nat.leb]. rewrite <- join_items_texts.
    destruct (join_items (d :: ds)) as [texts|]; split; eauto.
    + intros (dups & H). discriminate.
    + intros (texts & H). discriminate.
Qed.



Lemma duplicated_In (x : cell) (seen s : list cell) :
  In x (boolean_index s (duplicated_from seen s)) ->
  (In x seen /\ In x s) \/
  exists i j, i < j /\ s !! i = Some x /\ s !! j = Some x.
Proof.
  revert seen. induction s as [| a s IH]; intros seen H; cbn in H; [destruct H|].
  assert (Hrest : In x (boolean_index s (duplicated_from (a :: seen) s)) ->
                  (In x seen /\ In x (a :: s)) \/
                  exists i j, i < j /\ (a :: s) !! i = Some x /\ (a :: s) !! j = Some x).
  { intros Hin. destruct (IH _ Hin) as [[[-> | Hseen] Hs] | (i & j & Hij & Hi & Hj)].
    - right. destruct (In_lookup _ _ Hs) as (k & Hk).
      exists 0, (S k). split; [lia|]. split; [reflexivity | exact Hk].
    - left. split; [exact Hseen | right; exact Hs].
    - right. exists (S i), (S j). split; [lia|]. split; assumption. }
  destruct (existsb (cell_eqb a) seen) eqn:E; [|exact (Hrest H)].
  destruct H as [<- | H]; [|exact (Hrest H)].
  left. apply existsb_exists in E as (y & Hy & Hay).
  apply cell_eqb_eq in Hay. subst y. split; [exact Hy | left; reflexivity].
Qed.

Lemma duplicates_of_nil (names : list cell) :
  duplicates_of names = [] <-> List.NoDup names.
Proof.
  unfold duplicates_of, duplicated. split.
  - intros H. apply NoDup_ListNoDup, NoDup_alt. intros i j x Hi Hj.
    assert (Hno : forall a b, a < b -> names !! a = Some x -> names !! b = Some x -> False).
    { intros a b Hab Ha Hb.
      pose proof (duplicated_twice x [] names a b Hab Ha Hb) as Hin.
      apply In_unique in Hin. rewrite H in Hin. destruct Hin. }
    destruct (Nat.lt_trichotomy i j) as [Hlt | [Heq | Hgt]]; [|exact Heq|].
    + destruct (Hno i j Hlt Hi Hj).
    + destruct (Hno j i Hgt Hj Hi).
  - intros Hnd. apply NoDup_ListNoDup in Hnd.
    destruct (boolean_index names (duplicated_from [] names)) as [| x rest] eqn:E;
      [reflexivity|].
    assert (Hin : In x (boolean_index names (duplicated_from [] names)))
      by (rewrite E; left; reflexivity).
    apply duplicated_In in Hin as [[[] _] | (i & j & Hij & Hi & Hj)].
    pose proof (NoDup_lookup _ _ _ _ Hnd Hi Hj). lia.
Qed.

Lemma failures_shape (raw : DataFrame) (vpos : list nat) :
  well_formed raw -> List.NoDup vpos ->
  (forall p, In p vpos <->
     exists c, cols raw !! p = Some c /\ is_year_column (fst c) = true) ->
  let fails :=
    if existsb failed (stacked raw vpos)
    then [final_warning (failed_rows (stacked raw vpos))] else [] in
  (fails = [] \/ exists entries others, fails = [warning_coercion entries others]) /\
  (fails = [] <-> failure_count raw = 0).
Proof.
  intros Hwf Hnd Hpos. cbv zeta.
  rewrite <- (failed_count raw vpos Hwf Hnd Hpos).
  destruct (existsb failed (stacked raw vpos)) eqn:E.
  - split; [right; unfold final_warning; eexists _, _; reflexivity|].
    apply existsb_exists in E as (row & Hrow & Hf).
    split; [discriminate|]. intros H. exfalso.
    assert (Hin : In row (List.filter failed (stacked raw vpos)))
      by (apply filter_In; split; assumption).
    destruct (List.filter failed (stacked raw vpos)); [destruct Hin | discriminate].
  - split; [left; reflexivity|]. split; [|reflexivity]. intros _.
    destruct (List.filter failed (stacked raw vpos)) as [| row rest] eqn:Ef; [reflexivity|].
    assert (Hin : In row (List.filter failed (stacked raw vpos)))
      by (rewrite Ef; left; reflexivity).
    apply filter_In in Hin as [Hin Hf].
    assert (existsb failed (stacked raw vpos) = true)
      by (apply existsb_exists; exists row; split; assumption).
    congruence.
Qed.

(** C8 (divergence).  When two raw rows bear the same indicator name
    and that name is not a text (a blank cell, a number), the name is
    recorded nowhere and no row flows through: on a table that is not
    empty and has its three identifier columns, the run ends in
    TypeError, at the join of line 67, with nothing printed and no
    table returned. *)
Theorem repeated_name_not_text_raises (raw : DataFrame) (i j : nat) :
  well_formed raw ->
  DataFrame_empty raw = false ->
  List.filter (fun col => negb (label_in col (columns raw))) REQUIRED_COLS = [] ->
  i < j -> j < nrows raw ->
  indicator_of raw i = indicator_of raw j ->
  (forall s, indicator_of raw i <> Str s) ->
  normalize raw = (Raise TypeError, []).
Proof.
  intros Hwf Hempty Hreq Hij Hj Hsame Hnot.
  destruct (required_present raw Hreq) as (_ & Hname & _).
  pose proof (getitem_length raw (LStr "指标名称") Hwf Hname) as Hlen.
  rewrite normalize_pipeline. unfold pipeline. rewrite Hempty, Hreq.
  cbn [length Nat.ltb Nat.leb].
  pose proof (duplicates_warning_texts
                (duplicates_of (getitem (cols raw) (LStr "指标名称")))) as Hdw.
  destruct (duplicates_warning _) as [dups|]; [|reflexivity].
  exfalso. assert (Htexts : Forall (fun c => exists s, c = Str s)
                              (duplicates_of (getitem (cols raw) (LStr "指标名称"))))
    by (apply Hdw; eauto).
  rewrite List.Forall_forall in Htexts.
  destruct (Htexts (indicator_of raw i)) as (s & Hs); [|exact (Hnot s Hs)].
  unfold duplicates_of, duplicated. apply In_unique.
  apply (duplicated_twice _ [] _ i j Hij).
  - unfold indicator_of, cell_at. apply lookup_nth. lia.
  - rewrite Hsame. unfold indicator_of, cell_at. apply lookup_nth. lia.
Qed.

(** X4.  What a run that returns has printed: at most two messages,
    never an error.  First the warning on repeated indicator names,
    printed exactly when two raw rows bear the same name; it lists no
    name twice, and every name it lists is the name of two different
    raw rows.  Then the warning on the coercion, printed exactly when a
    cell of a year column fails the coercion. *)
Theorem report_of_returning_run (raw : DataFrame) (out : list LongRow)
    (report : list message) :
  well_formed raw ->
  normalize raw = (Return out, report) ->
  exists dups fails,
    report = dups ++ fails /\
    (dups = [] \/
     exists items, dups = [warning_duplicates items] /\ items <> [] /\ List.NoDup items) /\
    (dups = [] <-> List.NoDup (getitem (cols raw) (LStr "指标名称"))) /\
    (forall items s,
       In (warning_duplicates items) dups -> In s items ->
       exists i j,
         i < j /\ j < nrows raw /\
         indicator_of raw i = Str s /\ indicator_of raw j = Str s) /\
    (fails = [] \/ exists entries others, fails = [warning_coercion entries others]) /\
    (fails = [] <-> failure_count raw = 0).
Proof.
  intros Hwf Hrun.
  destruct (normalize_Return_required raw out report Hrun) as (_ & Hname & _).
  pose proof (getitem_length raw (LStr "指标名称") Hwf Hname) as Hlen.
  destruct (normalize_Return raw out report Hwf Hrun)
    as (vpos & dups & Hnd & Hpos & _ & _ & Hdups & _ & ->).
  exists dups. eexists. split; [reflexivity|].
  pose proof (duplicates_of_nil (getitem (cols raw) (LStr "指标名称"))) as Hnil.
  unfold duplicates_warning in Hdups.
  destruct (duplicates_of (getitem (cols raw) (LStr "指标名称"))) as [| d ds] eqn:Ed.
  - cbn in Hdups. injection Hdups as <-.
    split; [left; reflexivity|]. split; [split; intros _; [apply Hnil|]; reflexivity|].
    split; [intros items s []|]. apply failures_shape; assumption.
  - cbn [length Nat.ltb Nat.leb] in Hdups.
    destruct (join_items (d :: ds)) as [items|] eqn:Ej; [|discriminate].
    injection Hdups as <-. pose proof (join_items_Some _ _ Ej) as Hitems.
    assert (Hnd' : List.NoDup (map Str items)).
    { rewrite <- Hitems, <- Ed. apply NoDup_unique. }
    split; [right; exists items; split; [reflexivity|]; split|].
    + intros ->. discriminate.
    + apply (NoDup_map_inv _ _ Hnd').
    + split; [split; [discriminate|]|].
      { intros H. apply Hnil in H. discriminate. }
      split; [|apply failures_shape; assumption].
      intros items' s [[= <-] | []] Hs.
      assert (Hin : In (Str s) (duplicates_of (getitem (cols raw) (LStr "指标名称")))).
      { rewrite Ed, Hitems. apply in_map, Hs. }
      unfold duplicates_of, duplicated in Hin. apply (proj1 (In_unique _ _)) in Hin.
      apply duplicated_In in Hin as [[[] _] | (i & k & Hik & Hi & Hk)].
      exists i, k. split; [exact Hik|].
      pose proof (lookup_lt_Some _ _ _ Hk) as Hklt. split; [lia|].
      unfold indicator_of, cell_at.
      split; symmetry.
      * apply (nth_lookup_Some _ _ NaN) in Hi. symmetry. exact Hi.
      * apply (nth_lookup_Some _ _ NaN) in Hk. symmetry. exact Hk.
Qed.

Lemma StronglySorted_seq (start n : nat) : StronglySorted lt (seq start n).
Proof.
  revert start. induction n as [| n IH]; intros start; cbn; constructor.
  - apply IH.
  - apply List.Forall_forall. intros x Hx. apply in_seq in Hx. lia.
Qed.

Lemma StronglySorted_map_filter {A : Type} (f : A -> nat) (g : A -> bool) (l : list A) :
  StronglySorted lt (map f l) -> StronglySorted lt (map f (List.filter g l)).
Proof.
  induction l as [| a l IH]; cbn; intros H; [constructor|].
  apply StronglySorted_inv in H as [Hs Hall].
  destruct (g a); cbn; [|apply IH, Hs].
  constructor; [apply IH, Hs|].
  rewrite List.Forall_forall in *. intros x Hx. apply Hall.
  apply in_map_iff in Hx as (y & <- & Hy). apply filter_In in Hy as [Hy _].
  apply in_map, Hy.
Qed.

(** X5.  [dropna] keeps the index that [melt] gave: the rows of the
    output come in strictly increasing index, so no two of them share
    an index, and the index of a row is still the position, in the long
    frame, of the row it was made from.  The index is not renumbered
    after rows are dropped. *)
Theorem output_index_kept (raw : DataFrame) (out : list LongRow)
    (report : list message) :
  well_formed raw ->
  normalize raw = (Return out, report) ->
  StronglySorted lt (map row_index out) /\
  exists melted,
    long_form raw = Return melted /\
    length melted = nrows raw * length (year_columns raw) /\
    forall r, In r out ->
      exists row0,
        melted !! row_index r = Some row0 /\
        row_index row0 = row_index r /\
        year r = year row0 /\
        indicator_name r = indicator_name row0 /\
        value r = to_numeric (value row0) /\
        notna (to_numeric (value row0)) = true.
Proof.
  intros Hwf Hrun.
  destruct (normalize_Return raw out report Hwf Hrun)
    as (vpos & dups & Hnd & Hpos & Hlong & _ & _ & Hout & _).
  assert (Hidx : map row_index (stacked raw vpos) = seq 0 (length (stacked raw vpos))).
  { unfold stacked at 1. rewrite melt_rows_index, length_map.
    rewrite (stacked_length raw vpos Hwf Hnd Hpos).
    rewrite (Permutation_length (iloc_year_columns raw vpos Hwf Hnd Hpos)). reflexivity. }
  split.
  - assert (Hmap : map row_index out =
                   map row_index (List.filter survives (stacked raw vpos))).
    { clear -Hout. induction Hout as [| r row0 out rows (l & ->) _ IH]; [reflexivity|].
      cbn. rewrite IH. reflexivity. }
    rewrite Hmap. apply StronglySorted_map_filter. rewrite Hidx.
    apply StronglySorted_seq.
  - exists (stacked raw vpos). split; [exact Hlong|].
    split; [apply stacked_length; assumption|].
    intros r Hr. destruct (Forall2_In_l _ _ _ _ Hout Hr) as (row0 & Hrow0 & l & ->).
    apply filter_In in Hrow0 as [Hrow0 Hs]. exists row0.
    destruct (In_lookup _ _ Hrow0) as (k & Hk).
    assert (Hrk : row_index row0 = k).
    { pose proof (list_lookup_fmap row_index (stacked raw vpos) k) as Hf.
      rewrite Hk in Hf. cbn in Hf.
      change (row_index <$> stacked raw vpos) with (map row_index (stacked raw vpos)) in Hf.
      rewrite Hidx in Hf. apply lookup_seq in Hf as [Hf _]. cbn in Hf. congruence. }
    cbn [set_label coerce_row set_value row_index year indicator_name value].
    rewrite Hrk. repeat split; [exact Hk | exact Hs].
Qed.

Lemma filter_three_length {A : Type} (f g h : A -> bool) (l : list A) :
  (forall x, In x l ->
     (if f x then 1 else 0) + (if g x then 1 else 0) + (if h x then 1 else 0) = 1) ->
  length (List.filter f l) + length (List.filter g l) + length (List.filter h l) = length l.
Proof.
  induction l as [| a l IH]; intros H; [reflexivity|].
  specialize (IH (fun x Hx => H x (or_intror Hx))).
  pose proof (H a (or_introl eq_refl)) as Ha. cbn.
  destruct (f a), (g a), (h a); cbn in *; lia.
Qed.

(** X8.  Every cell of the year columns is accounted for, once: the
    rows of the output, the cells that fail the coercion (the ones the
    warning counts) and the blank cells add up to the N * M cells of the
    year columns. *)
Theorem cells_accounted (raw : DataFrame) (out : list LongRow) (report : list message) :
  well_formed raw ->
  normalize raw = (Return out, report) ->
  length out + failure_count raw + length (List.filter isna (year_cells raw)) =
  nrows raw * length (year_columns raw).
Proof.
  intros Hwf Hrun.
  destruct (normalize_Return raw out report Hwf Hrun)
    as (vpos & dups & Hnd & Hpos & _ & _ & _ & Hout & _).
  rewrite (Forall2_length _ _ _ Hout).
  rewrite <- (failed_count raw vpos Hwf Hnd Hpos).
  rewrite <- (Permutation_filter_length _ _ _ (stacked_values raw vpos Hwf Hnd Hpos)).
  rewrite filter_map_length.
  rewrite <- (stacked_length raw vpos Hwf Hnd Hpos).
  apply filter_three_length. intros row _.
  rewrite failed_value. unfold survives.
  pose proof (survives_coercible (value row)) as Hs.
  unfold coercion_failure, notna in *.
  destruct (isna (value row)) eqn:Eb, (isna (to_numeric (value row))) eqn:En;
    cbn in *; try reflexivity.
  destruct Hs as [Hs _]. destruct (Hs eq_refl). discriminate.
Qed.

(** X13.  A run of [process_dataframe] depends on the raw table only.
    Whatever else is on the heap and whatever is already on the
    screen, the run ends as [normalize] ends on the table alone, and
    appends to the screen the messages that [normalize] prints, in
    their order; when it returns, the reference it returns is a new
    object, not the raw table and no object that existed before, and
    that object holds the rows that [normalize] returns. *)
Theorem run_depends_on_table_only (w : world) (df_raw : ref) (raw : DataFrame) :
  heap w !! df_raw = Some (OWide raw) ->
  screen (snd (process_dataframe df_raw w)) = screen w ++ snd (normalize raw) /\
  match fst (process_dataframe df_raw w), fst (normalize raw) with
  | Return df_long, Return rows =>
      length (heap w) <= df_long /\ df_long <> df_raw /\
      heap (snd (process_dataframe df_raw w)) !! df_long = Some (OLong rows)
  | Stop, Stop => True
  | Raise e, Raise e' => e = e'
  | _, _ => False
  end.
Proof.
  intros Hraw. rewrite normalize_pipeline.
  destruct (process_dataframe_run df_raw raw w Hraw) as (w' & Hrun & Hscreen & Hnew & _).
  rewrite Hrun. cbn [fst snd]. split; [exact Hscreen|].
  destruct (fst (pipeline raw)) as [rows | | e]; [|exact I | reflexivity].
  pose proof (lookup_lt_Some _ _ _ Hraw) as Hlt.
  split; [lia|]. split; [lia|]. apply Hnew. reflexivity.
Qed.

(* ===================================================================== *)
(** ** The gate of the page *)
(* ===================================================================== *)

Lemma check_password_logged_in (secrets : gmap string secret) (inp : run_input)
    (s : session) (v : state_value) :
  session_state s !! "password_correct" = Some v -> truthy v = true ->
  check_password secrets inp s = (Finished true, s).
Proof.
  intros Hv Ht. unfold check_password, page_bind, session_state_get.
  rewrite Hv, Ht. reflexivity.
Qed.

Lemma check_password_logged_out (secrets : gmap string secret) (inp : run_input)
    (s : session) :
  session_state s !! "password_correct" = None ->
  check_password secrets inp s =
  let state1 := <["password" := VScalar (Str (password_typed inp))]> (session_state s) in
  let shown1 := shown s ++ [form_credentials] in
  if submitted inp then
    match secrets !! "password" with
    | Some sec =>
        if eq_secret (VScalar (Str (password_typed inp))) sec
        then (Rerun,
              {| session_state :=
                   delete "password" (<["password_correct" := VBool true]> state1);
                 shown := shown1 |})
        else (Finished false,
              {| session_state := state1; shown := shown1 ++ [error_wrong_password] |})
    | None => (Raised (Builtin KeyError), {| session_state := state1; shown := shown1 |})
    end
  else (Finished false, {| session_state := state1; shown := shown1 |}).
Proof.
  intros Hv. cbv zeta.
  unfold check_password, page_bind, session_state_get. rewrite Hv.
  cbn [truthy negb]. unfold st_show, st_text_input, session_state_set.
  cbn [session_state shown].
  destruct (submitted inp); [|reflexivity].
  unfold session_state_getitem, secrets_getitem. cbn [session_state shown].
  rewrite lookup_insert_eq.
  destruct (secrets !! "password") as [sec|]; [|reflexivity].
  destruct (eq_secret _ sec); [|reflexivity].
  unfold session_state_del, st_rerun. cbn [session_state shown].
  rewrite lookup_insert_ne by discriminate. rewrite lookup_insert_eq. reflexivity.
Qed.

(** Behind the gate: the file is read and the table is processed. *)
Lemma central_page_content (files : file_system) (s : session) :
  (df_raw <~ get_raw_df_from_excel files DATA_FILE ;;
   df <~ call_process_dataframe df_raw ;;
   page_ret (Some df)) s =
  (fst (content files),
   {| session_state := session_state s; shown := shown s ++ snd (content files) |}).
Proof.
  unfold content, page_bind, get_raw_df_from_excel.
  destruct (files DATA_FILE) as [df_raw | e].
  - unfold page_ret at 1. unfold call_process_dataframe.
    destruct (normalize df_raw) as [[df | | err] report]; reflexivity.
  - unfold page_bind, st_show, page_stop. cbn [session_state shown fst snd].
    rewrite <- app_assoc. reflexivity.
Qed.

Lemma content_not_Rerun (files : file_system) : fst (content files) <> Rerun.
Proof.
  unfold content. destruct (files DATA_FILE) as [df_raw | e]; [|discriminate].
  cbn [fst]. destruct (fst (normalize df_raw)); discriminate.
Qed.

Lemma run_script_logged_in (secrets : gmap string secret) (files : file_system)
    (fuel : nat) (inp : run_input) (state : gmap string state_value) :
  logged_in state ->
  run_script (S fuel) (central_page secrets files) inp state =
  (fst (content files), {| session_state := state; shown := snd (content files) |}).
Proof.
  intros [Hflag _]. cbn [run_script].
  unfold central_page, page_bind at 1.
  rewrite (check_password_logged_in secrets inp _ (VBool true)) by (exact Hflag || reflexivity).
  rewrite central_page_content. cbn [session_state shown app].
  pose proof (content_not_Rerun files) as Hno.
  destruct (content files) as [[df | | | e] elements]; cbn [fst snd] in *;
    congruence.
Qed.

Lemma run_script_flag_set (secrets : gmap string secret) (files : file_system)
    (fuel : nat) (inp : run_input) (state : gmap string state_value) (v : state_value) :
  state !! "password_correct" = Some v -> truthy v = true ->
  run_script (S fuel) (central_page secrets files) inp state =
  (fst (content files), {| session_state := state; shown := snd (content files) |}).
Proof.
  intros Hflag Hv. cbn [run_script].
  unfold central_page, page_bind at 1.
  rewrite (check_password_logged_in secrets inp _ v) by assumption.
  rewrite central_page_content. cbn [session_state shown app].
  pose proof (content_not_Rerun files) as Hno.
  destruct (content files) as [[df | | | e] elements]; cbn [fst snd] in *;
    congruence.
Qed.

Lemma request_logged_in (secrets : gmap string secret) (files : file_system)
    (inp : run_input) (state : gmap string state_value) :
  logged_in state ->
  request secrets files inp state =
  (fst (content files), {| session_state := state; shown := snd (content files) |}).
Proof. apply run_script_logged_in. Qed.

Lemma request_correct (secrets : gmap string secret) (files : file_system)
    (inp : run_input) (state : gmap string state_value) :
  state !! "password_correct" = None ->
  correct_submission secrets inp = true ->
  exists state',
    logged_in state' /\
    request secrets files inp state =
    (fst (content files), {| session_state := state'; shown := snd (content files) |}).
Proof.
  intros Hflag Hcorrect. unfold correct_submission in Hcorrect.
  apply andb_true_iff in Hcorrect as [Hsub Heq].
  destruct (secrets !! "password") as [[sec |] |] eqn:Hsec; try discriminate.
  set (state' := delete "password"
                   (<["password_correct" := VBool true]>
                      (<["password" := VScalar (Str (password_typed inp))]> state))).
  assert (Hin : logged_in state').
  { split; subst state'.
    - rewrite lookup_delete_ne by discriminate. apply lookup_insert_eq.
    - apply lookup_delete_eq. }
  exists state'. split; [exact Hin|].
  unfold request.
  change (run_script 2 (central_page secrets files) inp state)
    with (match central_page secrets files inp {| session_state := state; shown := [] |} with
          | (Rerun, s) =>
              run_script 1 (central_page secrets files) (released inp) (session_state s)
          | r => r
          end).
  unfold central_page at 1, page_bind at 1.
  rewrite check_password_logged_out by exact Hflag. cbv zeta.
  rewrite Hsub, Hsec. cbn [eq_secret]. rewrite Heq. cbn [session_state].
  fold state'. apply run_script_logged_in, Hin.
Qed.

Lemma request_not_correct (secrets : gmap string secret) (files : file_system)
    (inp : run_input) (state : gmap string state_value) :
  state !! "password_correct" = None ->
  correct_submission secrets inp = false ->
  request secrets files inp state =
  (if submitted inp
   then match secrets !! "password" with
        | Some _ => Finished None
        | None => Raised (Builtin KeyError)
        end
   else Finished None,
   {| session_state := <["password" := VScalar (Str (password_typed inp))]> state;
      shown := form_credentials ::
               (if submitted inp
                then match secrets !! "password" with
                     | Some _ => [error_wrong_password]
                     | None => []
                     end
                else []) |}).
Proof.
  intros Hflag Hwrong. unfold request. cbn [run_script].
  unfold central_page, page_bind at 1.
  rewrite check_password_logged_out by exact Hflag. cbv zeta. cbn [shown session_state app].
  unfold correct_submission in Hwrong.
  destruct (submitted inp); cbn [andb] in Hwrong; [|reflexivity].
  destruct (secrets !! "password") as [[sec |] |]; [| reflexivity ..].
  cbn [eq_secret]. rewrite Hwrong. reflexivity.
Qed.

(** Every state of a session is one of two: the flag is not there, or
    the gate is open. *)
Lemma session_states (secrets : gmap string secret) (files : file_system)
    (history : list run_input) :
  let state := session_after secrets files history in
  (state !! "password_correct" = None /\
   Forall (fun inp => correct_submission secrets inp = false) history) \/
  (logged_in state /\
   Exists (fun inp => correct_submission secrets inp = true) history).
Proof.
  cbv zeta. unfold session_after.
  induction history as [| inp history IH] using rev_ind.
  - left. split; [apply lookup_empty | constructor].
  - rewrite fold_left_app. cbn [fold_left].
    destruct IH as [[Hflag Hall] | [Hin Hex]].
    + destruct (correct_submission secrets inp) eqn:Hc.
      * right. destruct (request_correct secrets files inp _ Hflag Hc) as (state' & Hin & ->).
        split; [exact Hin|]. apply Exists_app. right. constructor. exact Hc.
      * left. rewrite (request_not_correct secrets files inp _ Hflag Hc).
        cbn [snd session_state]. split.
        -- rewrite lookup_insert_ne by discriminate. exact Hflag.
        -- apply Forall_app. split; [exact Hall|]. constructor; [exact Hc | constructor].
    + right. rewrite (request_logged_in secrets files inp _ Hin).
      split; [exact Hin|]. apply Exists_app. left. exact Hex.
Qed.

Lemma session_after_snoc (secrets : gmap string secret) (files : file_system)
    (history : list run_input) (inp : run_input) :
  session_after secrets files (history ++ [inp]) =
  session_state (snd (request secrets files inp (session_after secrets files history))).
Proof. unfold session_after. rewrite fold_left_app. reflexivity. Qed.

(** X9.  The gate stays closed until the password of the secrets file
    is submitted.  In a session in which no request so far, this one
    included, has submitted it, the request shows the form and at most
    the error on a wrong password (when the form was submitted), the
    run ends behind the form, or in KeyError when the form was
    submitted and the secrets file has no password; neither the data
    file nor [process_dataframe] puts anything on the page, the flag
    [password_correct] is still not set, and the text that was typed
    stays in the session state. *)
Theorem gate_stays_closed (secrets : gmap string secret) (files : file_system)
    (history : list run_input) (inp : run_input) :
  Forall (fun i => correct_submission secrets i = false) (history ++ [inp]) ->
  request secrets files inp (session_after secrets files history) =
  (if submitted inp
   then match secrets !! "password" with
        | Some _ => Finished None
        | None => Raised (Builtin KeyError)
        end
   else Finished None,
   {| session_state :=
        <["password" := VScalar (Str (password_typed inp))]>
          (session_after secrets files history);
      shown := form_credentials ::
               (if submitted inp
                then match secrets !! "password" with
                     | Some _ => [error_wrong_password]
                     | None => []
                     end
                else []) |}) /\
  session_after secrets files (history ++ [inp]) !! "password_correct" = None.
Proof.
  intros Hall. apply Forall_app in Hall as [Hhist Hinp].
  apply Forall_inv in Hinp.
  destruct (session_states secrets files history) as [[Hflag _] | [_ Hex]].
  - pose proof (request_not_correct secrets files inp _ Hflag Hinp) as Hreq.
    split; [exact Hreq|].
    rewrite session_after_snoc, Hreq. cbn [snd session_state].
    rewrite lookup_insert_ne by discriminate. exact Hflag.
  - exfalso. apply List.Exists_exists in Hex as (i & Hi & Hc).
    rewrite List.Forall_forall in Hhist. rewrite (Hhist i Hi) in Hc. discriminate.
Qed.

(** X10.  Submitting the password of the secrets file opens the gate,
    and the gate stays open.  In a session in which no request has
    submitted it before, the request that submits it sets the flag,
    deletes the text of the password and reruns, and the rerun passes
    the gate without showing the form: up to line 160 it shows what the
    loader and [process_dataframe] show (the two errors of
    [get_raw_df_from_excel] when the data file is unreadable, else the
    messages of [process_dataframe]) and ends as they end.  From then
    on, in every state in which the flag is still set, whatever the
    rest of the script has written under other keys and whatever the
    request sends, the script passes the gate again, shows no form, and
    up to line 160 leaves the session state as it is. *)
Theorem correct_password_opens (secrets : gmap string secret) (files : file_system)
    (history : list run_input) (inp : run_input) :
  Forall (fun i => correct_submission secrets i = false) history ->
  correct_submission secrets inp = true ->
  let state := session_after secrets files history in
  let state' :=
    delete "password"
      (<["password_correct" := VBool true]>
         (<["password" := VScalar (Str (password_typed inp))]> state)) in
  request secrets files inp state =
    (fst (content files), {| session_state := state'; shown := snd (content files) |}) /\
  state' !! "password_correct" = Some (VBool true) /\
  state' !! "password" = None /\
  (forall key, key <> "password" -> key <> "password_correct" ->
     state' !! key = state !! key) /\
  forall (later : gmap string state_value) (v : state_value) (inp' : run_input),
    later !! "password_correct" = Some v -> truthy v = true ->
    request secrets files inp' later =
    (fst (content files), {| session_state := later; shown := snd (content files) |}).
Proof.
  intros Hall Hc. cbv zeta.
  assert (Hflag : session_after secrets files history !! "password_correct" = None).
  { destruct (session_states secrets files history) as [[Hflag _] | [_ Hex]];
      [exact Hflag|].
    exfalso. apply List.Exists_exists in Hex as (i & Hi & Hci).
    rewrite List.Forall_forall in Hall. rewrite (Hall i Hi) in Hci. discriminate. }
  split; [|split; [|split; [|split]]].
  - unfold correct_submission in Hc. apply andb_true_iff in Hc as [Hsub Heq].
    destruct (secrets !! "password") as [[sec |] |] eqn:Hsec; try discriminate.
    unfold request.
    change (run_script 2 (central_page secrets files) inp
              (session_after secrets files history))
      with (match central_page secrets files inp
                    {| session_state := session_after secrets files history;
                       shown := [] |} with
            | (Rerun, s) =>
                run_script 1 (central_page secrets files) (released inp) (session_state s)
            | r => r
            end).
    unfold central_page at 1, page_bind at 1.
    rewrite check_password_logged_out by exact Hflag. cbv zeta.
    rewrite Hsub, Hsec. cbn [eq_secret]. rewrite Heq. cbn [session_state].
    apply (run_script_flag_set secrets files 0 (released inp) _ (VBool true));
      [|reflexivity].
    rewrite lookup_delete_ne by discriminate. apply lookup_insert_eq.
  - rewrite lookup_delete_ne by discriminate. apply lookup_insert_eq.
  - apply lookup_delete_eq.
  - intros key Hk1 Hk2. rewrite lookup_delete_ne by congruence.
    rewrite !lookup_insert_ne by congruence. reflexivity.
  - intros later v inp' Hlater Hv. apply (run_script_flag_set _ _ 1 _ _ v); assumption.
Qed.

(* ===================================================================== *)
(** ** The range of years of the page *)
(* ===================================================================== *)

Lemma year_ints_Some (df : list LongRow) :
  Forall (fun row => exists y, year row = LInt y) df ->
  exists years,
    year_ints df = Some years /\ length years = length df /\
    forall y, In y years <-> exists row, In row df /\ year row = LInt y.
Proof.
  induction 1 as [| row df (y & Hy) _ (years & Hyears & Hlen & Hin)].
  - exists []. split; [reflexivity|]. split; [reflexivity|].
    intros y. split; [intros [] | intros (row & [] & _)].
  - exists (y :: years). cbn. rewrite Hy, Hyears. split; [reflexivity|].
    split; [cbn; lia|]. intros z. cbn. rewrite Hin. split.
    + intros [<- | (r & Hr & Hz)]; [exists row; auto | exists r; auto].
    + intros (r & [<- | Hr] & Hz); [left; congruence | right; exists r; auto].
Qed.

Lemma In_unique_ints (x : Z) (l : list Z) : In x (unique_ints l) <-> In x l.
Proof.
  induction l as [| a l IH]; cbn; [reflexivity|].
  rewrite filter_In, IH. destruct (Z.eqb_spec a x) as [-> | Hne].
  - split; auto.
  - split; [intros [H | [H _]]; auto | intros [H | H]; auto].
Qed.

Lemma In_insert_sorted (x y : Z) (l : list Z) :
  In y (insert_sorted x l) <-> y = x \/ In y l.
Proof.
  induction l as [| a l IH]; cbn.
  - split; intros [H | H]; auto.
  - destruct (x <=? a)%Z; cbn; [split; intros [H | H]; auto|].
    rewrite IH. split; [intros [H | [H | H]] | intros [H | [H | H]]]; auto.
Qed.

Lemma In_sorted (y : Z) (l : list Z) : In y (sorted l) <-> In y l.
Proof.
  unfold sorted. induction l as [| a l IH]; cbn; [reflexivity|].
  rewrite In_insert_sorted, IH. split; intros [H | H]; auto.
Qed.

Lemma insert_sorted_Sorted (x : Z) (l : list Z) :
  StronglySorted Z.le l -> StronglySorted Z.le (insert_sorted x l).
Proof.
  induction 1 as [| a l Hs IH Hall]; cbn.
  - constructor; constructor.
  - destruct (Z.leb_spec x a) as [Hle | Hgt].
    + constructor; [constructor; assumption|].
      constructor; [exact Hle|].
      eapply List.Forall_impl; [|exact Hall]. intros z Hz. cbn in Hz. lia.
    + constructor; [exact IH|].
      apply List.Forall_forall. intros z Hz. apply In_insert_sorted in Hz as [-> | Hz].
      * lia.
      * rewrite List.Forall_forall in Hall. apply Hall, Hz.
Qed.

Lemma sorted_Sorted (l : list Z) : StronglySorted Z.le (sorted l).
Proof.
  unfold sorted. induction l as [| a l IH]; cbn; [constructor|].
  apply insert_sorted_Sorted, IH.
Qed.

Lemma Sorted_bounds (l : list Z) :
  StronglySorted Z.le l ->
  forall y, In y l -> (hd 0 l <= y)%Z /\ (y <= List.last l 0)%Z.
Proof.
  induction 1 as [| a l Hs IH Hall]; intros y Hin; [destruct Hin|].
  rewrite List.Forall_forall in Hall. cbn [hd]. split.
  - destruct Hin as [<- | Hin]; [lia | apply Hall, Hin].
  - destruct l as [| b l]; [destruct Hin as [<- | []]; cbn; lia|].
    change (List.last (a :: b :: l) 0%Z) with (List.last (b :: l) 0%Z).
    destruct Hin as [<- | Hin].
    + specialize (Hall b (or_introl eq_refl)).
      destruct (IH b (or_introl eq_refl)) as [_ Hb]. lia.
    + apply IH, Hin.
Qed.

Lemma boolean_index_all {A : Type} (l : list A) (mask : list bool) :
  length mask = length l -> Forall (fun b => b = true) mask ->
  boolean_index l mask = l.
Proof.
  revert mask. induction l as [| x l IH]; intros [| b mask] Hlen Hall;
    cbn in *; try discriminate; [reflexivity|].
  apply Forall_cons_1 in Hall as [-> Hall]. f_equal. apply IH; [lia | exact Hall].
Qed.

Lemma NoDup_unique_ints (l : list Z) : List.NoDup (unique_ints l).
Proof.
  induction l as [| a l IH]; cbn; constructor.
  - intros H. apply filter_In in H as [_ H]. rewrite Z.eqb_refl in H. discriminate.
  - apply List.NoDup_filter, IH.
Qed.

Lemma NoDup_insert_sorted (x : Z) (l : list Z) :
  ~ In x l -> List.NoDup l -> List.NoDup (insert_sorted x l).
Proof.
  induction l as [| a l IH]; cbn; intros Hx Hnd.
  - constructor; [intros [] | constructor].
  - destruct (x <=? a)%Z.
    + constructor; [exact Hx | exact Hnd].
    + apply List.NoDup_cons_iff in Hnd as [Ha Hnd]. constructor.
      * intros H. apply In_insert_sorted in H as [-> | H]; [|exact (Ha H)].
        apply Hx. left. reflexivity.
      * apply IH; [|exact Hnd]. intros H. apply Hx. right. exact H.
Qed.

Lemma NoDup_sorted (l : list Z) : List.NoDup l -> List.NoDup (sorted l).
Proof.
  unfold sorted. induction l as [| a l IH]; cbn; intros Hnd; [constructor|].
  apply List.NoDup_cons_iff in Hnd as [Ha Hnd].
  apply NoDup_insert_sorted; [|apply IH, Hnd].
  intros H. apply (In_sorted a l) in H. exact (Ha H).
Qed.

Lemma default_year_range_bounds (years : list Z) :
  years <> [] ->
  default_year_range years = (Some (hd 0%Z years), Some (List.last years 0%Z)).
Proof.
  destruct years as [| y [| z years]]; [congruence | reflexivity ..].
Qed.

(** X12.  The slider of the years.  On a table that
    [process_dataframe] returned, the options of the slider are the
    years of the table, each once and in increasing order, and the
    range that the slider starts with, in each of its three branches
    (several years, one year, none), takes out no row: what is plotted
    and listed then is every row of the selected metrics. *)
Theorem default_year_range_keeps_all (raw : DataFrame) (df : list LongRow)
    (report : list message) (selected_metrics : list cell) :
  well_formed raw ->
  normalize raw = (Return df, report) ->
  exists years,
    all_years df = Some years /\
    StronglySorted Z.le years /\ List.NoDup years /\
    (forall y, In y years <-> exists row, In row df /\ year row = LInt y) /\
    plot_df df selected_metrics (default_year_range years) =
    Some (List.filter (fun row => isin (indicator_name row) selected_metrics) df).
Proof.
  intros Hwf Hrun.
  assert (Hint : Forall (fun row => exists y, year row = LInt y) df).
  { apply List.Forall_forall. intros row Hrow.
    destruct (output_row_cell raw df report row Hwf Hrun Hrow)
      as (p & i & l & c & _ & _ & _ & _ & _ & Hy & _).
    eexists. exact Hy. }
  destruct (year_ints_Some df Hint) as (ys & Hys & _ & Hin).
  exists (sorted (unique_ints ys)). unfold all_years. rewrite Hys.
  assert (Hyears : forall y, In y (sorted (unique_ints ys)) <->
                             exists row, In row df /\ year row = LInt y).
  { intros y. rewrite In_sorted, In_unique_ints. apply Hin. }
  split; [reflexivity|]. split; [apply sorted_Sorted|].
  split; [apply NoDup_sorted, NoDup_unique_ints|]. split; [exact Hyears|].
  set (years := sorted (unique_ints ys)) in *.
  set (plot := List.filter (fun row => isin (indicator_name row) selected_metrics) df).
  assert (Hplot : Forall (fun row => exists y, year row = LInt y) plot).
  { rewrite List.Forall_forall in *. intros row Hrow. apply Hint.
    apply filter_In in Hrow as [Hrow _]. exact Hrow. }
  destruct (year_ints_Some plot Hplot) as (ys' & Hys' & Hlen & Hin').
  destruct years as [| y0 rest] eqn:Ey.
  - unfold default_year_range, plot_df. reflexivity.
  - rewrite default_year_range_bounds by discriminate.
    unfold plot_df. fold plot. rewrite Hys'. f_equal.
    apply boolean_index_all.
    + unfold mask_and. rewrite combine_map, !length_map. exact Hlen.
    + unfold mask_and. rewrite combine_map, map_map. cbn [fst snd].
      apply List.Forall_forall. intros b Hb.
      apply in_map_iff in Hb as (y & <- & Hy).
      apply Hin' in Hy as (row & Hrow & Hyr).
      apply filter_In in Hrow as [Hrow _].
      assert (Hy : In y (y0 :: rest)) by (apply Hyears; exists row; auto).
      pose proof (sorted_Sorted (unique_ints ys)) as Hsorted.
      fold years in Hsorted. rewrite Ey in Hsorted.
      destruct (Sorted_bounds _ Hsorted y Hy) as [Hlo Hhi].
      apply andb_true_iff. split; apply Z.leb_le; assumption.
Qed.

End Pipeline.

(* ===================================================================== *)
(** ** The example tables *)
(* ===================================================================== *)

Lemma sample_sheet_well_formed : well_formed sample_sheet.
Proof. well_formed_table. Qed.

Lemma sample_sheet_run :
  normalize float_literal format_float sample_sheet = (Return sample_output, sample_report).
Proof. vm_compute. reflexivity. Qed.

Lemma six_failures_sheet_run :
  normalize float_literal format_float six_failures_sheet = (Return [], six_failures_report).
Proof. vm_compute. reflexivity. Qed.

Lemma repeated_name_sheet_run :
  normalize float_literal format_float repeated_name_sheet =
  (Return repeated_name_output, repeated_name_report).
Proof. vm_compute. reflexivity. Qed.

Lemma same_year_sheet_run :
  normalize float_literal format_float same_year_sheet = (Return same_year_output, []).
Proof. vm_compute. reflexivity. Qed.

Lemma blank_category_sheet_run :
  normalize float_literal format_float blank_category_sheet =
  (Return blank_category_output, []).
Proof. vm_compute. reflexivity. Qed.

Lemma note_column_sheet_run :
  normalize float_literal format_float note_column_sheet = (Return note_column_output, []).
Proof. vm_compute. reflexivity. Qed.

(** The text ["inf"] is coerced to an infinity, which [dropna] keeps. *)
Lemma infinite_sheet_run :
  normalize float_literal format_float infinite_sheet = (Return infinite_output, []).
Proof. vm_compute. reflexivity. Qed.

(* ===================================================================== *)
(** ** The theorems at the example tables *)
(* ===================================================================== *)

(** [row_count_bound] at [sample_sheet]: one row, two year columns, one
    row in the output. *)
Lemma row_count_bound_witness :
  well_formed sample_sheet /\
  normalize float_literal format_float sample_sheet = (Return sample_output, sample_report) /\
  length sample_output <= nrows sample_sheet * length (year_columns sample_sheet) /\
  (length sample_output = nrows sample_sheet * length (year_columns sample_sheet) <->
   forall c, In c (year_cells sample_sheet) ->
     isna c = false /\ coercion_failure float_literal c = false).
Proof.
  assert (Hwf : well_formed sample_sheet) by well_formed_table.
  assert (Hrun : normalize float_literal format_float sample_sheet =
                 (Return sample_output, sample_report)) by (vm_compute; reflexivity).
  split; [exact Hwf|]. split; [exact Hrun|].
  exact (row_count_bound float_literal format_float sample_sheet sample_output
           sample_report Hwf Hrun).
Defined.

(** [failures_named_up_to_five] at [sample_sheet], where one cell
    fails. *)
Lemma failures_named_up_to_five_witness :
  well_formed sample_sheet /\
  normalize float_literal format_float sample_sheet = (Return sample_output, sample_report) /\
  0 < failure_count float_literal sample_sheet /\
  exists entries melted,
    In (warning_coercion entries None) sample_report /\
    long_form sample_sheet = Return melted /\
    warning_coercion entries None = final_warning (failed_rows float_literal melted) /\
    length entries = 1 /\
    (forall e, In e entries ->
       exists p i l c,
         year_cell sample_sheet p i l c /\ coercion_failure float_literal c = true /\
         e = mkEntry (indicator_of sample_sheet i) (LInt (normalized_year l)) c) /\
    (failure_count float_literal sample_sheet <= 5 ->
     forall p i l c,
       year_cell sample_sheet p i l c -> coercion_failure float_literal c = true ->
       In (mkEntry (indicator_of sample_sheet i) (LInt (normalized_year l)) c) entries).
Proof.
  assert (Hwf : well_formed sample_sheet) by well_formed_table.
  assert (Hrun : normalize float_literal format_float sample_sheet =
                 (Return sample_output, sample_report)) by (vm_compute; reflexivity).
  assert (Hcount : 0 < failure_count float_literal sample_sheet) by (vm_compute; lia).
  split; [exact Hwf|]. split; [exact Hrun|]. split; [exact Hcount|].
  exact (proj2 (failures_named_up_to_five float_literal format_float sample_sheet
                  sample_output sample_report Hwf Hrun) Hcount).
Defined.

(** C1 (counterexample).  Six cells fail in [six_failures_sheet]; the
    warning names five of them and counts one more: the cell of M6 is a
    cell that is not blank and fails the coercion, and no entry carries
    its indicator name. *)
Lemma sixth_failure_not_named :
  well_formed six_failures_sheet /\
  normalize float_literal format_float six_failures_sheet =
    (Return [], six_failures_report) /\
  year_cell six_failures_sheet 3 5 (LStr "2021") (Str "N/A") /\
  coercion_failure float_literal (Str "N/A") = true /\
  indicator_of six_failures_sheet 5 = Str "M6" /\
  forall entries others,
    In (warning_coercion entries others) six_failures_report ->
    others = Some 1 /\
    ~ In (mkEntry (Str "M6") (LInt (normalized_year (LStr "2021"))) (Str "N/A")) entries.
Proof.
  split; [well_formed_table|]. split; [vm_compute; reflexivity|]. split.
  { exists [Str "N/A"; Str "N/A"; Str "N/A"; Str "N/A"; Str "N/A"; Str "N/A"].
    repeat split. cbn. lia. }
  split; [reflexivity|]. split; [reflexivity|].
  intros entries others [H | []]. injection H as <- <-. split; [reflexivity|].
  cbn [In]. intros H.
  repeat (destruct H as [H | H]; [discriminate H|]). exact H.
Qed.



(** [same_year_columns_kept] at [same_year_sheet], whose columns
    ["2021"] and ["2021年"] both normalize to 2021. *)
Lemma same_year_columns_kept_witness :
  well_formed same_year_sheet /\
  normalize float_literal format_float same_year_sheet = (Return same_year_output, []) /\
  LStr "2021" <> LStr "2021年" /\
  year_cell same_year_sheet 3 0 (LStr "2021") (num 81 10) /\
  year_cell same_year_sheet 4 0 (LStr "2021年") (num 82 10) /\
  normalized_year (LStr "2021") = normalized_year (LStr "2021年") /\
  exists r1 r2,
    In r1 same_year_output /\ In r2 same_year_output /\
    row_index r1 <> row_index r2 /\
    indicator_name r1 = Str "M1" /\ indicator_name r2 = Str "M1" /\
    year r1 = LInt 2021 /\ year r2 = LInt 2021 /\
    value r1 = num 81 10 /\ value r2 = num 82 10.
Proof.
  assert (Hwf : well_formed same_year_sheet) by well_formed_table.
  assert (Hrun : normalize float_literal format_float same_year_sheet =
                 (Return same_year_output, [])) by (vm_compute; reflexivity).
  assert (Hl : LStr "2021" <> LStr "2021年") by discriminate.
  assert (Hc1 : year_cell same_year_sheet 3 0 (LStr "2021") (num 81 10)).
  { exists [num 81 10]. repeat split. cbn. lia. }
  assert (Hc2 : year_cell same_year_sheet 4 0 (LStr "2021年") (num 82 10)).
  { exists [num 82 10]. repeat split. cbn. lia. }
  assert (Hy : normalized_year (LStr "2021") = normalized_year (LStr "2021年"))
    by reflexivity.
  split; [exact Hwf|]. split; [exact Hrun|]. split; [exact Hl|].
  split; [exact Hc1|]. split; [exact Hc2|]. split; [exact Hy|].
  destruct (proj2 (same_year_columns_kept float_literal format_float same_year_sheet
                     same_year_output [] 3 4 0 (LStr "2021") (LStr "2021年")
                     (num 81 10) (num 82 10) Hwf Hrun Hl Hc1 Hc2 Hy)
              eq_refl eq_refl)
    as (r1 & r2 & H1 & H2 & Hidx & _ & _ & Hi1 & Hi2 & _ & _ & Hy1 & Hy2 & Hv1 & Hv2).
  exists r1, r2. repeat split; assumption.
Defined.

(** [blank_cells_dropped_silently] at [note_column_sheet], whose
    column 2021 has a blank cell. *)
Lemma blank_cells_dropped_silently_witness :
  well_formed note_column_sheet /\
  normalize float_literal format_float note_column_sheet = (Return note_column_output, []) /\
  exists melted,
    long_form note_column_sheet = Return melted /\
    (forall p i l c,
       year_cell note_column_sheet p i l c ->
       exists row,
         In row melted /\ value row = c /\
         indicator_name row = indicator_of note_column_sheet i /\
         year row = LInt (normalized_year l)) /\
    (forall row,
       In row melted -> isna (value row) = true ->
       (forall r, In r note_column_output -> row_index r <> row_index row) /\
       (forall fr, In fr (failed_rows float_literal melted) ->
          row_index (fst fr) <> row_index row)) /\
    (forall entries others,
       In (warning_coercion entries others) [] ->
       warning_coercion entries others = final_warning (failed_rows float_literal melted) /\
       forall e, In e entries -> isna (entry_raw e) = false).
Proof.
  assert (Hwf : well_formed note_column_sheet) by well_formed_table.
  assert (Hrun : normalize float_literal format_float note_column_sheet =
                 (Return note_column_output, [])) by (vm_compute; reflexivity).
  split; [exact Hwf|]. split; [exact Hrun|].
  exact (blank_cells_dropped_silently float_literal format_float note_column_sheet
           note_column_output [] Hwf Hrun).
Defined.

(** [output_rows_have_values] at [note_column_sheet], whose two raw
    rows differ in every identifier cell and whose year column holds a
    number in the first row only. *)
Lemma output_rows_have_values_witness :
  well_formed note_column_sheet /\
  normalize float_literal format_float note_column_sheet =
    (Return note_column_output, []) /\
  Forall (fun col => (normalized_year (fst col) < 2 ^ 63)%Z)
         (year_columns note_column_sheet) /\
  forall r, In r note_column_output ->
    exists p i l c x,
      year_cell note_column_sheet p i l c /\
      to_numeric float_literal c = Num x /\ value r = Num x /\
      category r = category_of note_column_sheet i /\
      indicator_name r = indicator_of note_column_sheet i /\
      unit_ r = unit_of note_column_sheet i /\
      year r = LInt (normalized_year l).
Proof.
  assert (Hwf : well_formed note_column_sheet) by well_formed_table.
  assert (Hrun : normalize float_literal format_float note_column_sheet =
                 (Return note_column_output, [])) by (vm_compute; reflexivity).
  assert (Hbound : Forall (fun col => (normalized_year (fst col) < 2 ^ 63)%Z)
                          (year_columns note_column_sheet)).
  { apply List.Forall_forall. intros col Hcol. vm_compute in Hcol.
    destruct Hcol as [<- | []]. vm_compute. reflexivity. }
  split; [exact Hwf|]. split; [exact Hrun|]. split; [exact Hbound|].
  intros r Hr.
  destruct (output_rows_have_values float_literal format_float note_column_sheet
              note_column_output [] r Hwf Hrun Hr)
    as (p & i & l & c & x & Hcell & Hx & Hval & Hcat & Hind & Hunit & Hyear).
  exists p, i, l, c, x. repeat (split; [assumption|]). apply Hyear, Hbound.
Defined.

(** C7 (counterexample).  The one row of [blank_category_sheet] has a
    blank category cell; it is in the output, with a null category. *)
Lemma output_row_with_null_category :
  well_formed blank_category_sheet /\
  normalize float_literal format_float blank_category_sheet =
    (Return blank_category_output, []) /\
  exists r, In r blank_category_output /\ category r = NaN.
Proof.
  split; [well_formed_table|]. split; [vm_compute; reflexivity|].
  eexists. split; [left; reflexivity | reflexivity].
Qed.

(** [duplicate_name_listed_once] at [repeated_name_values_sheet], whose
    two rows are both called M1 and both hold a number. *)
Lemma duplicate_name_listed_once_witness :
  well_formed repeated_name_values_sheet /\
  normalize float_literal format_float repeated_name_values_sheet =
    (Return repeated_name_values_output, [warning_duplicates ["M1"]]) /\
  (exists s items,
     Str "M1" = Str s /\
     In (warning_duplicates items) [warning_duplicates ["M1"]] /\
     count_occ string_dec items s = 1) /\
  exists ri rj,
    In ri repeated_name_values_output /\ In rj repeated_name_values_output /\
    row_index ri <> row_index rj /\
    category ri = Str "A" /\ category rj = Str "B" /\
    unit_ ri = Str "%" /\ unit_ rj = Str "万人" /\
    value ri = num 81 10 /\ value rj = num 96 10.
Proof.
  assert (Hwf : well_formed repeated_name_values_sheet) by well_formed_table.
  assert (Hrun : normalize float_literal format_float repeated_name_values_sheet =
                 (Return repeated_name_values_output, [warning_duplicates ["M1"]]))
    by (vm_compute; reflexivity).
  assert (H01 : 0 < 1) by lia.
  assert (H1 : 1 < nrows repeated_name_values_sheet) by (cbn; lia).
  split; [exact Hwf|]. split; [exact Hrun|].
  destruct (duplicate_name_listed_once float_literal format_float
              repeated_name_values_sheet repeated_name_values_output
              [warning_duplicates ["M1"]] 0 1 (Str "M1")
              Hwf Hrun H01 H1 eq_refl eq_refl) as [Hlisted Hrows].
  split.
  - destruct Hlisted as (s & items & Hs & Hin & Hcount & _).
    exists s, items. auto.
  - destruct (Hrows 3 (LStr "2021") (num 81 10) (num 96 10)) as
      (ri & rj & Hri & Hrj & Hidx & _ & _ & _ & _ & Hci & Hcj & Hui & Huj & Hvi & Hvj).
    + exists [num 81 10; num 96 10]. repeat split; cbn; lia.
    + exists [num 81 10; num 96 10]. repeat split; cbn; lia.
    + reflexivity.
    + reflexivity.
    + exists ri, rj. repeat (split; [assumption|]). assumption.
Defined.

(** [repeated_name_not_text_raises] at [numeric_names_sheet], whose two
    rows both have the number 1 for a name. *)
Lemma repeated_name_not_text_raises_witness :
  well_formed numeric_names_sheet /\
  0 < 1 /\ 1 < nrows numeric_names_sheet /\
  indicator_of numeric_names_sheet 0 = indicator_of numeric_names_sheet 1 /\
  normalize float_literal format_float numeric_names_sheet = (Raise TypeError, []).
Proof.
  assert (Hwf : well_formed numeric_names_sheet) by well_formed_table.
  assert (H01 : 0 < 1) by lia.
  assert (H1 : 1 < nrows numeric_names_sheet) by (cbn; lia).
  split; [exact Hwf|]. split; [exact H01|]. split; [exact H1|]. split; [reflexivity|].
  apply (repeated_name_not_text_raises float_literal format_float numeric_names_sheet 0 1
           Hwf eq_refl eq_refl H01 H1 eq_refl).
  intros s Hs. vm_compute in Hs. discriminate Hs.
Defined.

(** [input_not_modified] on a heap that holds only [sample_sheet]: the
    run renames the columns of its copy, at reference 1, and the raw
    table at reference 0 keeps its labels. *)
Lemma input_not_modified_witness :
  heap {| heap := [OWide sample_sheet]; screen := [] |} !! 0 = Some (OWide sample_sheet) /\
  process_dataframe float_literal format_float 0
    {| heap := [OWide sample_sheet]; screen := [] |} = (Return 2, sample_world_after) /\
  heap sample_world_after !! 0 = Some (OWide sample_sheet) /\
  (forall i, i < length (heap {| heap := [OWide sample_sheet]; screen := [] |}) ->
     heap sample_world_after !! i =
     heap {| heap := [OWide sample_sheet]; screen := [] |} !! i).
Proof.
  assert (Hraw : heap {| heap := [OWide sample_sheet]; screen := [] |} !! 0 =
                 Some (OWide sample_sheet)) by reflexivity.
  assert (Hrun : process_dataframe float_literal format_float 0
                   {| heap := [OWide sample_sheet]; screen := [] |} =
                 (Return 2, sample_world_after)) by (vm_compute; reflexivity).
  split; [exact Hraw|]. split; [exact Hrun|].
  exact (input_not_modified float_literal format_float _ _ 0 sample_sheet (Return 2)
           Hraw Hrun).
Defined.

(** C5 (the code at the failing input).  In [blank_names_sheet] two
    rows have a blank indicator name.  The blank is a repeated name,
    the join of line 67 meets a float where it expects a str, and the
    run ends in a TypeError: it prints nothing and returns no table. *)
Theorem duplicate_blank_names_raise :
  well_formed blank_names_sheet /\
  DataFrame_empty blank_names_sheet = false /\
  List.filter (fun col => negb (label_in col (columns blank_names_sheet))) REQUIRED_COLS = [] /\
  duplicates_of (getitem (cols blank_names_sheet) (LStr "指标名称")) = [NaN] /\
  normalize float_literal format_float blank_names_sheet = (Raise TypeError, []).
Proof.
  split; [well_formed_table|]. repeat split; vm_compute; reflexivity.
Qed.

(** C9 (the code at the failing input).  The column 数值 of
    [value_column_sheet] has no digit in its label and is not an
    identifier column.  [melt] refuses a frame that has a column
    called like its value column, and the run ends in a ValueError
    instead of leaving the column out. *)
Theorem value_named_column_raises :
  well_formed value_column_sheet /\
  is_year_column (LStr "数值") = false /\
  re_sub_nondigit (str (LStr "数值")) = "" /\
  In (LStr "数值") (columns value_column_sheet) /\
  normalize float_literal format_float value_column_sheet = (Raise ValueError, []).
Proof.
  split; [well_formed_table|]. split; [reflexivity|]. split; [reflexivity|].
  split; [cbn; auto 10|]. vm_compute. reflexivity.
Qed.

(** Why the copy of line 55 matters: the in-place [rename] relabels the
    object it is called on, so on the raw table's own reference it
    would change the raw table. *)
Lemma rename_inplace_relabels :
  heap (snd (rename_inplace 0 (cleaned_colnames_map sample_sheet)
               {| heap := [OWide sample_sheet]; screen := [] |})) !! 0 <>
  Some (OWide sample_sheet).
Proof. vm_compute. discriminate. Qed.

(** A text cell is never blank: the empty text and a text of spaces are
    reported as failures when they do not parse, not dropped in
    silence. *)
Lemma text_cell_reported (parse_float : string -> option number) (s : string) :
  parse_float s = None -> coercion_failure parse_float (Str s) = true.
Proof. intros H. unfold coercion_failure. cbn. rewrite H. reflexivity. Qed.

(* ===================================================================== *)
(** ** Year labels *)
(* ===================================================================== *)

Lemma re_sub_nondigit_app (a b : string) :
  re_sub_nondigit (a ++ b) = (re_sub_nondigit a ++ re_sub_nondigit b)%string.
Proof.
  induction a as [| c a IH]; [reflexivity|].
  change (String c a ++ b)%string with (String c (a ++ b)%string).
  cbn [re_sub_nondigit]. destruct (is_digit c); rewrite IH; reflexivity.
Qed.

Lemma re_sub_nondigit_digits (d : Decimal.uint) :
  re_sub_nondigit (NilEmpty.string_of_uint d) = NilEmpty.string_of_uint d.
Proof.
  induction d; cbn [NilEmpty.string_of_uint re_sub_nondigit]; [reflexivity| ..];
    match goal with
    | |- context [is_digit ?c] => change (is_digit c) with true
    end; cbv iota; rewrite IHd; reflexivity.
Qed.

Lemma re_sub_nondigit_uint (d : Decimal.uint) :
  re_sub_nondigit (NilZero.string_of_uint d) = NilZero.string_of_uint d.
Proof.
  destruct d; [reflexivity | apply re_sub_nondigit_digits ..].
Qed.

Lemma int_from_of_uint_acc (d : Decimal.uint) (acc : positive) :
  int_from (Zpos acc) (NilEmpty.string_of_uint d) = Zpos (Pos.of_uint_acc d acc).
Proof.
  revert acc. induction d; intros acc;
    cbn [NilEmpty.string_of_uint int_from Pos.of_uint_acc]; [reflexivity| ..];
    match goal with
    | |- int_from (10 * _ + digit_value ?c) _ = _ =>
        let v := eval vm_compute in (digit_value c) in
        change (digit_value c) with v
    end;
    rewrite <- IHd; f_equal; lia.
Qed.

Lemma int_from_digits (d : Decimal.uint) :
  int_from 0 (NilEmpty.string_of_uint d) = Z.of_N (Pos.of_uint d).
Proof.
  induction d;
    cbn [NilEmpty.string_of_uint int_from Pos.of_uint]; [reflexivity| ..];
    match goal with
    | |- int_from (10 * 0 + digit_value ?c) _ = _ =>
        let v := eval vm_compute in (10 * 0 + digit_value c)%Z in
        change (10 * 0 + digit_value c)%Z with v
    end;
    [exact IHd | ..]; rewrite int_from_of_uint_acc; reflexivity.
Qed.

Lemma int_of_uint (d : Decimal.uint) :
  int (NilZero.string_of_uint d) = Z.of_N (Pos.of_uint d).
Proof.
  unfold int. destruct d; [reflexivity | apply int_from_digits ..].
Qed.

Lemma digits_not_required (l : label) :
  nonempty (re_sub_nondigit (str l)) = true -> label_in l REQUIRED_COLS = false.
Proof.
  intros H. apply label_in_not_In. intros [<- | [<- | [<- | []]]];
    vm_compute in H; discriminate.
Qed.

Lemma string_of_uint_nonempty (n : N) :
  nonempty (NilZero.string_of_uint (N.to_uint n)) = true.
Proof.
  destruct n as [| p]; [reflexivity|]. cbn [N.to_uint].
  pose proof (DecimalPos.Unsigned.to_uint_nonnil p) as H.
  destruct (Pos.to_uint p); [congruence | reflexivity ..].
Qed.

Lemma plain_text_no_digit (s : string) :
  plain_text s = true -> re_sub_nondigit s = "".
Proof.
  induction s as [| c s IH]; [reflexivity|]. cbn [plain_text re_sub_nondigit].
  intros H. apply andb_true_iff in H as [Hc Hs].
  assert (Hd : is_digit c = false).
  { unfold plain_byte in Hc. destruct (is_digit c) eqn:E; [|reflexivity].
    unfold is_digit in E. apply andb_true_iff in E as [E1 E2].
    apply Nat.leb_le in E1, E2. rewrite andb_false_r in Hc. cbn [orb] in Hc.
    apply orb_true_iff in Hc as [Hc | Hc]; apply andb_true_iff in Hc as [Hc _];
      apply Nat.leb_le in Hc; lia. }
  rewrite Hd. apply IH, Hs.
Qed.

(** X6.  A text label that holds the decimal writing of a number,
    between two texts written in ASCII without digits and in CJK
    ideographs (2021, 2021年, FY 2021), is a year column, and its year
    is that number.  The number has at most 4300 digits, the longest
    text that [int] converts. *)
Theorem text_label_year (n : N) (pre suf : string) :
  (n < 10 ^ 4300)%N ->
  plain_text pre = true ->
  plain_text suf = true ->
  is_year_column (LStr (pre ++ NilZero.string_of_uint (N.to_uint n) ++ suf)) = true /\
  normalized_year (LStr (pre ++ NilZero.string_of_uint (N.to_uint n) ++ suf)) = Z.of_N n.
Proof.
  intros _ Hpre Hsuf.
  apply plain_text_no_digit in Hpre. apply plain_text_no_digit in Hsuf.
  assert (Hdigits : re_sub_nondigit (pre ++ NilZero.string_of_uint (N.to_uint n) ++ suf) =
                    NilZero.string_of_uint (N.to_uint n)).
  { rewrite !re_sub_nondigit_app, Hpre, Hsuf, re_sub_nondigit_uint.
    change ("" ++ ?t ++ "")%string with (t ++ "")%string.
    induction (NilZero.string_of_uint (N.to_uint n)) as [| c t IH]; [reflexivity|].
    change (String c t ++ "")%string with (String c (t ++ "")%string).
    rewrite IH. reflexivity. }
  assert (Hne : nonempty (re_sub_nondigit
                            (str (LStr (pre ++ NilZero.string_of_uint (N.to_uint n) ++ suf)))) =
                true).
  { cbn [str]. rewrite Hdigits. apply string_of_uint_nonempty. }
  split.
  - unfold is_year_column. rewrite (digits_not_required _ Hne), Hne. reflexivity.
  - unfold normalized_year. cbn [str]. rewrite Hdigits, int_of_uint.
    change (Pos.of_uint (N.to_uint n)) with (N.of_uint (N.to_uint n)).
    rewrite DecimalN.Unsigned.of_to. reflexivity.
Qed.

Lemma text_label_year_witness :
  (2021 < 10 ^ 4300)%N /\ plain_text "FY " = true /\ plain_text "年" = true /\
  is_year_column (LStr "FY 2021年") = true /\ normalized_year (LStr "FY 2021年") = 2021%Z.
Proof.
  assert (Hn : (2021 < 10 ^ 4300)%N) by (vm_compute; reflexivity).
  split; [exact Hn|]. split; [reflexivity|]. split; [reflexivity|].
  exact (text_label_year 2021 "FY " "年" Hn eq_refl eq_refl).
Defined.

(** X7.  An integer header is always a year column, and its year is
    its absolute value: the sign that [str] writes is not a digit. *)
Theorem integer_header_year (z : Z) :
  is_year_column (LInt z) = true /\ normalized_year (LInt z) = Z.abs z.
Proof.
  split; [apply is_year_column_LInt|].
  unfold normalized_year. cbn [str].
  destruct z as [| p | p]; [reflexivity | |]; cbn [Z.to_int NilZero.string_of_int Z.abs].
  - rewrite re_sub_nondigit_uint, int_of_uint, DecimalPos.Unsigned.of_to. reflexivity.
  - cbn [re_sub_nondigit]. change (is_digit "-") with false. cbv iota.
    rewrite re_sub_nondigit_uint, int_of_uint, DecimalPos.Unsigned.of_to. reflexivity.
Qed.

(* ===================================================================== *)
(** ** Runs of the further example tables *)
(* ===================================================================== *)


Lemma report_of_returning_run_witness :
  well_formed repeated_name_sheet /\
  exists out report dups fails items,
    normalize float_literal format_float repeated_name_sheet = (Return out, report) /\
    report = dups ++ fails /\ dups = [warning_duplicates items].
Proof.
  assert (Hwf : well_formed repeated_name_sheet) by well_formed_table.
  split; [exact Hwf|].
  destruct (report_of_returning_run float_literal format_float repeated_name_sheet
              repeated_name_output repeated_name_report Hwf
              (repeated_name_sheet_run))
    as (dups & fails & Hrep & [Hd | (items & Hd & _)] & Hiff & _).
  - exfalso. apply Hiff in Hd. vm_compute in Hd.
    apply List.NoDup_cons_iff in Hd as [Hd _]. apply Hd. left. reflexivity.
  - exists repeated_name_output, repeated_name_report, dups, fails, items.
    split; [apply repeated_name_sheet_run|]. split; assumption.
Defined.

Lemma output_index_kept_witness :
  well_formed sample_sheet /\
  normalize float_literal format_float sample_sheet = (Return sample_output, sample_report) /\
  StronglySorted lt (map row_index sample_output).
Proof.
  assert (Hwf : well_formed sample_sheet) by well_formed_table.
  assert (Hrun : normalize float_literal format_float sample_sheet =
                 (Return sample_output, sample_report)) by (vm_compute; reflexivity).
  split; [exact Hwf|]. split; [exact Hrun|].
  exact (proj1 (output_index_kept float_literal format_float sample_sheet sample_output
                  sample_report Hwf Hrun)).
Defined.

Lemma cells_accounted_witness :
  well_formed sample_sheet /\
  normalize float_literal format_float sample_sheet = (Return sample_output, sample_report) /\
  length sample_output + failure_count float_literal sample_sheet +
    length (List.filter isna (year_cells sample_sheet)) =
  nrows sample_sheet * length (year_columns sample_sheet).
Proof.
  assert (Hwf : well_formed sample_sheet) by well_formed_table.
  assert (Hrun : normalize float_literal format_float sample_sheet =
                 (Return sample_output, sample_report)) by (vm_compute; reflexivity).
  split; [exact Hwf|]. split; [exact Hrun|].
  exact (cells_accounted float_literal format_float sample_sheet sample_output
           sample_report Hwf Hrun).
Defined.

(* ===================================================================== *)
(** ** Requests to the example server *)
(* ===================================================================== *)

Lemma gate_stays_closed_witness :
  Forall (fun i => correct_submission example_secrets i = false)
         ([wrong_password] ++ [wrong_password]) /\
  fst (request float_literal format_float example_secrets example_files wrong_password
         (session_after float_literal format_float example_secrets example_files
            [wrong_password])) = Finished None /\
  shown (snd (request float_literal format_float example_secrets example_files
                wrong_password
                (session_after float_literal format_float example_secrets example_files
                   [wrong_password]))) = [form_credentials; error_wrong_password].
Proof.
  assert (Hall : Forall (fun i => correct_submission example_secrets i = false)
                        ([wrong_password] ++ [wrong_password]))
    by (repeat constructor).
  split; [exact Hall|].
  destruct (gate_stays_closed float_literal format_float example_secrets example_files
              [wrong_password] wrong_password Hall) as [Hreq _].
  rewrite Hreq. split; reflexivity.
Defined.

Lemma correct_password_opens_witness :
  Forall (fun i => correct_submission example_secrets i = false) [wrong_password] /\
  correct_submission example_secrets right_password = true /\
  fst (request float_literal format_float example_secrets example_files right_password
         (session_after float_literal format_float example_secrets example_files
            [wrong_password])) = Finished (Some note_column_output) /\
  fst (request float_literal format_float example_secrets example_files wrong_password
         {[ "password_correct" := VBool true;
            "selected_metrics" := VList [Str "M1"] ]}) =
  Finished (Some note_column_output).
Proof.
  assert (Hall : Forall (fun i => correct_submission example_secrets i = false)
                        [wrong_password]) by (repeat constructor).
  assert (Hc : correct_submission example_secrets right_password = true) by reflexivity.
  assert (Hcontent : fst (content float_literal format_float example_files) =
                     Finished (Some note_column_output)).
  { unfold content, example_files. rewrite note_column_sheet_run. reflexivity. }
  split; [exact Hall|]. split; [exact Hc|].
  destruct (correct_password_opens float_literal format_float example_secrets
              example_files [wrong_password] right_password Hall Hc)
    as (Hreq & _ & _ & _ & Hlater).
  rewrite Hreq.
  rewrite (Hlater {[ "password_correct" := VBool true;
                     "selected_metrics" := VList [Str "M1"] ]}
                  (VBool true) wrong_password (lookup_insert_eq _ _ _) eq_refl).
  split; exact Hcontent.
Defined.

(* ===================================================================== *)
(** ** The callback of the select box of the forms *)
(* ===================================================================== *)

Lemma filter_first {A : Type} (f : A -> bool) (l : list A) (x : A) :
  In x l -> f x = true ->
  exists i y rest,
    l !! i = Some y /\ f y = true /\
    (forall j z, j < i -> l !! j = Some z -> f z = false) /\
    List.filter f l = y :: rest.
Proof.
  induction l as [| a l IH]; intros Hin Hx; [destruct Hin|].
  destruct (f a) eqn:Ea.
  - exists 0, a, (List.filter f l). split; [reflexivity|]. split; [exact Ea|].
    split; [intros j z Hj; lia|]. cbn. rewrite Ea. reflexivity.
  - destruct Hin as [-> | Hin]; [congruence|].
    destruct (IH Hin Hx) as (i & y & rest & Hi & Hy & Hbefore & Hfilter).
    exists (S i), y, rest. split; [exact Hi|]. split; [exact Hy|]. split.
    + intros [| j] z Hj Hz; [cbn in Hz; congruence|].
      apply (Hbefore j z); [lia | exact Hz].
    + cbn. rewrite Ea. exact Hfilter.
Qed.

Lemma py_eq_true (c form : cell) : py_eq c form = true <-> c = form /\ form <> NaN.
Proof.
  unfold py_eq, notna. split.
  - intros H. apply andb_true_iff in H as [H He]. apply andb_true_iff in H as [_ Hf].
    apply cell_eqb_eq in He. split; [exact He|]. intros ->. discriminate.
  - intros [-> Hf]. destruct form; [congruence | ..];
      cbn [isna negb andb]; apply cell_eqb_eq; reflexivity.
Qed.

(** X11.  The callback [update_default_metric_on_form_change], run with
    a form that the select box offers.  When the form is a text or a
    number, the callback sets the selected metrics to the one indicator
    name of the first row of the table that has this form, and nothing
    else changes.  When the form is the blank one (the table has rows
    whose form cell is blank), no row compares equal to it and the
    callback ends in IndexError, with the session state as it was. *)
Theorem form_change_callback (df : list LongRow) (s : session) (form : cell) :
  session_state s !! "sb_form" = Some (VScalar form) ->
  In form (unique_forms df) ->
  match form with
  | NaN => update_default_metric_on_form_change df s = (Raised IndexError, s)
  | _ =>
      exists i row,
        df !! i = Some row /\ category row = form /\
        (forall j row', j < i -> df !! j = Some row' -> category row' <> form) /\
        update_default_metric_on_form_change df s =
        (Finished tt,
         {| session_state :=
              <["selected_metrics" := VList [indicator_name row]]> (session_state s);
            shown := shown s |})
  end.
Proof.
  intros Hform Hin. unfold unique_forms in Hin. apply (proj1 (In_unique _ _)) in Hin.
  apply in_map_iff in Hin as (row0 & Hcat & Hrow0).
  assert (Hrun : update_default_metric_on_form_change df s =
                 match unique (map indicator_name
                                 (List.filter (fun row => py_eq (category row) form) df)) with
                 | first_metric_in_form :: _ =>
                     (Finished tt,
                      {| session_state :=
                           <["selected_metrics" := VList [first_metric_in_form]]>
                             (session_state s);
                         shown := shown s |})
                 | [] => (Raised IndexError, s)
                 end).
  { unfold update_default_metric_on_form_change, page_bind, session_state_getattr.
    rewrite Hform. cbn [series_eq]. rewrite map_map.
    pose proof (boolean_index_map (fun row : LongRow => row)
                  (fun row => py_eq (category row) form) df) as Hb.
    rewrite !map_id in Hb. rewrite Hb.
    destruct (unique _); reflexivity. }
  assert (Hfirst : form <> NaN ->
            exists i row,
              df !! i = Some row /\ category row = form /\
              (forall j row', j < i -> df !! j = Some row' -> category row' <> form) /\
              update_default_metric_on_form_change df s =
              (Finished tt,
               {| session_state :=
                    <["selected_metrics" := VList [indicator_name row]]> (session_state s);
                  shown := shown s |})).
  { intros Hne.
    destruct (filter_first (fun row => py_eq (category row) form) df row0 Hrow0)
      as (i & row & rest & Hi & Hrow & Hbefore & Hfilter).
    { apply py_eq_true. split; assumption. }
    exists i, row. split; [exact Hi|]. apply py_eq_true in Hrow as [Hrow _].
    split; [exact Hrow|]. split.
    - intros j row' Hj Hj' Heq. specialize (Hbefore j row' Hj Hj').
      assert (py_eq (category row') form = true) by (apply py_eq_true; split; assumption).
      congruence.
    - rewrite Hrun, Hfilter. reflexivity. }
  destruct form as [| x | t].
  - rewrite Hrun.
    assert (Hnone : List.filter (fun row => py_eq (category row) NaN) df = []).
    { clear. induction df as [| row df IH]; [reflexivity|]. cbn.
      unfold py_eq at 1. cbn. rewrite andb_false_r. exact IH. }
    rewrite Hnone. reflexivity.
  - apply Hfirst. discriminate.
  - apply Hfirst. discriminate.
Qed.

Lemma form_change_callback_witness :
  normalize float_literal format_float blank_category_sheet =
    (Return blank_category_output, []) /\
  In NaN (unique_forms blank_category_output) /\
  update_default_metric_on_form_change blank_category_output
    {| session_state := {[ "sb_form" := VScalar NaN ]}; shown := [] |} =
  (Raised IndexError, {| session_state := {[ "sb_form" := VScalar NaN ]}; shown := [] |}).
Proof.
  split; [apply blank_category_sheet_run|].
  assert (Hin : In NaN (unique_forms blank_category_output)) by (left; reflexivity).
  split; [exact Hin|].
  exact (form_change_callback blank_category_output
           {| session_state := {[ "sb_form" := VScalar NaN ]}; shown := [] |}
           NaN eq_refl Hin).
Defined.

Lemma default_year_range_keeps_all_witness :
  well_formed sample_sheet /\
  normalize float_literal format_float sample_sheet = (Return sample_output, sample_report) /\
  exists years,
    all_years sample_output = Some years /\
    plot_df sample_output [Str "M1"] (default_year_range years) =
    Some (List.filter (fun row => isin (indicator_name row) [Str "M1"]) sample_output).
Proof.
  assert (Hwf : well_formed sample_sheet) by well_formed_table.
  assert (Hrun : normalize float_literal format_float sample_sheet =
                 (Return sample_output, sample_report)) by (vm_compute; reflexivity).
  split; [exact Hwf|]. split; [exact Hrun|].
  destruct (default_year_range_keeps_all float_literal format_float sample_sheet
              sample_output sample_report [Str "M1"] Hwf Hrun)
    as (years & Hall & _ & _ & _ & Hplot).
  exists years. split; assumption.
Defined.

Lemma run_depends_on_table_only_witness :
  (heap {| heap := [OWide blank_unit_sheet; OWide sample_sheet];
           screen := [error_empty] |} : list object) !! 1 = Some (OWide sample_sheet) /\
  screen (snd (process_dataframe float_literal format_float 1
                 {| heap := [OWide blank_unit_sheet; OWide sample_sheet];
                    screen := [error_empty] |})) =
  [error_empty] ++ snd (normalize float_literal format_float sample_sheet).
Proof.
  split; [reflexivity|].
  exact (proj1 (run_depends_on_table_only float_literal format_float
                  {| heap := [OWide blank_unit_sheet; OWide sample_sheet];
                     screen := [error_empty] |} 1 sample_sheet eq_refl)).
Defined.
